(** * Tiqiaa TView USB IR transceiver: NEC codec, packet framer and session

    A shallow embedding of [tiqiaa/protocol.py], [tiqiaa/nec.py],
    [tiqiaa/device.py] and the [send-nec] command of [tiqiaa_cli.py].
    Python integers are [Z]; a [bytes] value is a [list Z] whose
    elements lie in [0, 256); lengths and slice offsets are [nat].
    Wall-clock time is not modelled: the USB side is an oracle of
    write and read outcomes, and the reader thread runs where the
    foreground blocks. *)

From Stdlib Require Import ZArith List Bool Lia.
Import ListNotations.
Open Scope Z_scope.

(** ** protocol.py: constants *)

Module Protocol.

Definition PACK_START : Z := 0x5453.
Definition PACK_END : Z := 0x4E45.
Definition MAX_FRAG_SIZE : nat := 56.

Definition CMD_VERSION : Z := 86.   (* ord('V') *)
Definition CMD_IDLE_MODE : Z := 76. (* ord('L') *)
Definition CMD_SEND_MODE : Z := 83. (* ord('S') *)
Definition CMD_RECV_MODE : Z := 82. (* ord('R') *)
Definition CMD_DATA : Z := 68.      (* ord('D') *)
Definition CMD_OUTPUT : Z := 79.    (* ord('O') *)
Definition CMD_CANCEL : Z := 67.    (* ord('C') *)

Definition STATE_IDLE : Z := 3.
Definition STATE_SEND : Z := 9.
Definition STATE_RECV : Z := 19.

Definition IR_FREQ_TABLE : list Z :=
  [38000; 37900; 37917; 36000; 40000; 39700; 35750; 36400; 36700; 37000;
   37700; 38380; 38400; 38462; 38740; 39200; 42000; 43600; 44000; 33000;
   33500; 34000; 34500; 35000; 40500; 41000; 41500; 42500; 43000; 45000].

(** [list.index]: position of the first occurrence, if any. *)
Fixpoint index_from (freq : Z) (l : list Z) (i : Z) : option Z :=
  match l with
  | [] => None
  | x :: l' => if x =? freq then Some i else index_from freq l' (i + 1)
  end.

Definition get_freq_index (freq : Z) : Z :=
  match index_from freq IR_FREQ_TABLE 0 with
  | Some i => i
  | None => 0
  end.

Definition DEFAULT_FREQ : Z := 38000.

Definition get_freq_by_index (index : Z) : Z :=
  if (0 <=? index) && (index <? Z.of_nat (length IR_FREQ_TABLE))
  then nth (Z.to_nat index) IR_FREQ_TABLE 0
  else DEFAULT_FREQ.

End Protocol.

(** ** nec.py: the NEC codec *)

Module Nec.

Definition NEC_PULSE_SIZE : Z := 1125.
Definition IR_TICK_SIZE : Z := 32.
Definition MAX_BLOCK_SIZE : Z := 127.

(** The three variables [add_pulse] closes over. *)
Record enc := mkEnc {
  result : list Z;
  pulse_time : Z;
  sender_time : Z
}.

(** The [while ticks > 0] loop of [add_pulse].  Every turn takes at
    least one tick away, so [Z.to_nat ticks] turns are always enough. *)
Fixpoint emit_blocks (fuel : nat) (ticks : Z) (is_high : bool) (res : list Z)
  : list Z :=
  match fuel with
  | O => res
  | S fuel' =>
      if 0 <? ticks then
        let block := Z.min ticks MAX_BLOCK_SIZE in
        let ticks' := ticks - block in
        let block' := if is_high then Z.lor block 0x80 else block in
        emit_blocks fuel' ticks' is_high (res ++ [block'])
      else res
  end.

Definition add_pulse (count : Z) (is_high : bool) (e : enc) : enc :=
  let pt := pulse_time e + count * NEC_PULSE_SIZE in
  let ticks := (pt - sender_time e) / IR_TICK_SIZE in
  let st := sender_time e + ticks * IR_TICK_SIZE in
  mkEnc (emit_blocks (Z.to_nat ticks) ticks is_high (result e)) pt st.

(** [for i in range(32)]: one mark, then a space of one or three units. *)
Fixpoint data_bits (n : nat) (full_code : Z) (e : enc) : enc :=
  match n with
  | O => e
  | S n' =>
      let e1 := add_pulse 1 true e in
      let e2 := add_pulse (if Z.land full_code 1 =? 0 then 1 else 3) false e1 in
      data_bits n' (Z.shiftr full_code 1) e2
  end.

(** [~x & 0xFF] on a Python integer. *)
Definition inv8 (x : Z) : Z := Z.land (Z.lnot x) 0xFF.

Definition encode_frame (full_code : Z) : list Z :=
  let e := mkEnc [] 0 0 in
  let e := add_pulse 16 true e in
  let e := add_pulse 8 false e in
  let e := data_bits 32 full_code e in
  let e := add_pulse 1 true e in
  let e := add_pulse 72 false e in
  result e.

Definition encode_nec (code : Z) : list Z :=
  let addr := Z.land (Z.shiftr code 8) 0xFF in
  let cmd := Z.land code 0xFF in
  let full_code :=
    Z.lor (Z.lor (Z.lor addr (Z.shiftl (inv8 addr) 8)) (Z.shiftl cmd 16))
          (Z.shiftl (inv8 cmd) 24) in
  encode_frame full_code.

(** *** decode_nec *)

Definition timing : Type := (bool * Z)%type.

(** Bytes to [(is_high, duration)] pairs, entries of zero ticks skipped. *)
Fixpoint timings_of (ir_data : list Z) : list timing :=
  match ir_data with
  | [] => []
  | byte :: rest =>
      let is_high := negb (Z.land byte 0x80 =? 0) in
      let ticks := Z.land byte 0x7F in
      if 0 <? ticks
      then (is_high, ticks * IR_TICK_SIZE) :: timings_of rest
      else timings_of rest
  end.

(** The leader scan: index of the first entry that is high and longer
    than 8000, or [-1]. *)
Fixpoint find_leader (ts : list timing) (i : Z) : Z :=
  match ts with
  | [] => -1
  | (is_high, duration) :: ts' =>
      if is_high && (8000 <? duration) then i else find_leader ts' (i + 1)
  end.

Definition tlen (ts : list timing) : Z := Z.of_nat (length ts).

Definition tget (ts : list timing) (idx : Z) : timing :=
  nth (Z.to_nat idx) ts (false, 0).

(** The [for _ in range(32)] loop reading one mark and one space per bit. *)
Fixpoint read_bits (n : nat) (ts : list timing) (idx : Z) (bits : list Z)
  : option (list Z) :=
  match n with
  | O => Some bits
  | S n' =>
      if tlen ts <=? idx + 1 then None
      else
        let '(mark_high, _) := tget ts idx in
        let '(space_high, space_dur) := tget ts (idx + 1) in
        if negb mark_high || space_high then None
        else
          let bit := if 2000 <? space_dur then 1 else 0 in
          read_bits n' ts (idx + 2) (bits ++ [bit])
  end.

(** [for i, bit in enumerate(bits): full_code |= bit << i]. *)
Fixpoint assemble (bits : list Z) (i : Z) (full_code : Z) : Z :=
  match bits with
  | [] => full_code
  | bit :: bits' => assemble bits' (i + 1) (Z.lor full_code (Z.shiftl bit i))
  end.

Definition frame_addr (full_code : Z) : Z := Z.land full_code 0xFF.
Definition frame_addr_inv (full_code : Z) : Z :=
  Z.land (Z.shiftr full_code 8) 0xFF.
Definition frame_cmd (full_code : Z) : Z := Z.land (Z.shiftr full_code 16) 0xFF.
Definition frame_cmd_inv (full_code : Z) : Z :=
  Z.land (Z.shiftr full_code 24) 0xFF.

(** Both inversion checks of the decoder. *)
Definition inversion_ok (full_code : Z) : bool :=
  (Z.lxor (frame_addr full_code) (frame_addr_inv full_code) =? 0xFF)
  && (Z.lxor (frame_cmd full_code) (frame_cmd_inv full_code) =? 0xFF).

(** Everything in [decode_nec] after the timing list has been built. *)
Definition decode_timings (timings : list timing) : option Z :=
  if tlen timings <? 2 then None
  else
    let leader_idx := find_leader timings 0 in
    if (leader_idx <? 0) || (tlen timings <=? leader_idx + 65) then None
    else
      match read_bits 32 timings (leader_idx + 2) [] with
      | None => None
      | Some bits =>
          let full_code := assemble bits 0 0 in
          let addr := frame_addr full_code in
          let cmd := frame_cmd full_code in
          if negb (inversion_ok full_code)
          then Some (Z.lor (Z.shiftl addr 8) cmd)
          else Some (Z.lor (Z.shiftl addr 8) cmd)
      end.

Definition decode_nec (ir_data : list Z) : option Z :=
  if (length ir_data <? 50)%nat then None
  else decode_timings (timings_of ir_data).

(** *** The other encoders *)

Definition encode_nec_extended (address command : Z) : list Z :=
  let addr_low := Z.land address 0xFF in
  let addr_high := Z.land (Z.shiftr address 8) 0xFF in
  let cmd := Z.land command 0xFF in
  let full_code :=
    Z.lor (Z.lor (Z.lor addr_low (Z.shiftl addr_high 8)) (Z.shiftl cmd 16))
          (Z.shiftl (inv8 cmd) 24) in
  encode_frame full_code.

Definition encode_nec_repeat : list Z :=
  let e := mkEnc [] 0 0 in
  let e := add_pulse 16 true e in
  let e := add_pulse 4 false e in
  let e := add_pulse 1 true e in
  let e := add_pulse 72 false e in
  result e.

(** *** Notions the encoder properties are stated with *)

(** Ticks a byte sequence asks the device to spend. *)
Fixpoint ticks_sum (l : list Z) : Z :=
  match l with
  | [] => 0
  | b :: l' => Z.land b 0x7F + ticks_sum l'
  end.

(** A byte the device can play: it fits eight bits and lasts a tick
    at least. *)
Definition playable (b : Z) : Prop := 0 <= b < 256 /\ 1 <= Z.land b 0x7F.

(** The emitted time is a whole number of ticks, has been emitted in
    full, and lags the pulse clock by less than one tick. *)
Definition in_step (e : enc) : Prop :=
  sender_time e <= pulse_time e < sender_time e + IR_TICK_SIZE
  /\ IR_TICK_SIZE * ticks_sum (result e) = sender_time e.

(** NEC units asked for by the [n] low bits of a frame. *)
Fixpoint bits_units (n : nat) (full_code : Z) : Z :=
  match n with
  | O => 0
  | S n' =>
      1 + (if Z.land full_code 1 =? 0 then 1 else 3)
      + bits_units n' (Z.shiftr full_code 1)
  end.

(** NEC units of a whole frame: leader, 32 bits, stop pulse, trailer. *)
Definition frame_units (full_code : Z) : Z :=
  16 + 8 + bits_units 32 full_code + 1 + 72.

(** The [n] low bits of a frame, lowest first. *)
Fixpoint frame_bits (n : nat) (full_code : Z) : list Z :=
  match n with
  | O => []
  | S n' => Z.land full_code 1 :: frame_bits n' (Z.shiftr full_code 1)
  end.

(** The bytes of one data bit: a mark of 35 or 36 ticks, then a space
    of 35 or 36 ticks for a 0 and of 105 or 106 ticks for a 1. *)
Definition is_mark (m : Z) : Prop := m = 163 \/ m = 164.
Definition is_space (bit s : Z) : Prop :=
  (bit = 0 /\ (s = 35 \/ s = 36)) \/ (bit = 1 /\ (s = 105 \/ s = 106)).

Fixpoint bits_encoded (bits l : list Z) : Prop :=
  match bits, l with
  | [], [] => True
  | bit :: bits', m :: s :: l' =>
      is_mark m /\ is_space bit s /\ bits_encoded bits' l'
  | _, _ => False
  end.

(** The frame [encode_nec] packs from an address and a command byte. *)
Definition standard_frame (addr cmd : Z) : Z :=
  Z.lor (Z.lor (Z.lor addr (Z.shiftl (inv8 addr) 8)) (Z.shiftl cmd 16))
        (Z.shiftl (inv8 cmd) 24).

(** The frame [encode_nec_extended] packs. *)
Definition extended_frame (address command : Z) : Z :=
  Z.lor (Z.lor (Z.lor (Z.land address 0xFF)
                      (Z.shiftl (Z.land (Z.shiftr address 8) 0xFF) 8))
               (Z.shiftl (Z.land command 0xFF) 16))
        (Z.shiftl (inv8 (Z.land command 0xFF)) 24).

(** The timing list of an encoded frame with the five entries of the
    leader mark joined into one entry and the three of the leader space
    into another. *)
Definition join_leader (ts : list timing) : list timing :=
  (true, 17984) :: (false, 8992) :: skipn 8 ts.

(** [f] holds of [n] consecutive integers from [lo] on. *)
Fixpoint check_upto (f : Z -> bool) (n : nat) (lo : Z) : bool :=
  match n with
  | O => true
  | S n' => f lo && check_upto f n' (lo + 1)
  end.

End Nec.

(** ** device.py: the driver *)

Module Device.
Import Protocol.

(** The fields of a [TiqiaaIR] object.  [dev] records whether
    [self.dev] holds a handle, [read_thread] whether the thread started
    by [open] is still in its loop; the lock carries no data. *)
Record session := mkSession {
  dev : bool;
  packet_idx : Z;
  cmd_id : Z;
  device_state : Z;
  read_thread : bool;
  read_active : bool;
  received_packets : list (list Z);
  packet_event : bool;
  recv_buffer : list Z;
  recv_packet_idx : Z;
  recv_frag_count : Z;
  recv_last_frag : Z
}.

(** [TiqiaaIR.__init__]. *)
Definition init : session :=
  mkSession false 0 0 0 false false [] false [] 0 0 0.

Definition set_dev (v : bool) (s : session) : session :=
  mkSession v (packet_idx s) (cmd_id s) (device_state s) (read_thread s)
    (read_active s)
    (received_packets s) (packet_event s) (recv_buffer s) (recv_packet_idx s)
    (recv_frag_count s) (recv_last_frag s).
Definition set_packet_idx (v : Z) (s : session) : session :=
  mkSession (dev s) v (cmd_id s) (device_state s) (read_thread s)
    (read_active s)
    (received_packets s) (packet_event s) (recv_buffer s) (recv_packet_idx s)
    (recv_frag_count s) (recv_last_frag s).
Definition set_cmd_id (v : Z) (s : session) : session :=
  mkSession (dev s) (packet_idx s) v (device_state s) (read_thread s)
    (read_active s)
    (received_packets s) (packet_event s) (recv_buffer s) (recv_packet_idx s)
    (recv_frag_count s) (recv_last_frag s).
Definition set_device_state (v : Z) (s : session) : session :=
  mkSession (dev s) (packet_idx s) (cmd_id s) v (read_thread s)
    (read_active s)
    (received_packets s) (packet_event s) (recv_buffer s) (recv_packet_idx s)
    (recv_frag_count s) (recv_last_frag s).
Definition set_read_thread (v : bool) (s : session) : session :=
  mkSession (dev s) (packet_idx s) (cmd_id s) (device_state s) v
    (read_active s)
    (received_packets s) (packet_event s) (recv_buffer s) (recv_packet_idx s)
    (recv_frag_count s) (recv_last_frag s).
Definition set_read_active (v : bool) (s : session) : session :=
  mkSession (dev s) (packet_idx s) (cmd_id s) (device_state s)
    (read_thread s) v
    (received_packets s) (packet_event s) (recv_buffer s) (recv_packet_idx s)
    (recv_frag_count s) (recv_last_frag s).
Definition set_inbox (pkts : list (list Z)) (ev : bool) (s : session)
  : session :=
  mkSession (dev s) (packet_idx s) (cmd_id s) (device_state s)
    (read_thread s) (read_active s)
    pkts ev (recv_buffer s) (recv_packet_idx s)
    (recv_frag_count s) (recv_last_frag s).
Definition set_event (ev : bool) (s : session) : session :=
  set_inbox (received_packets s) ev s.
Definition set_reassembly (buf : list Z) (pidx cnt last : Z) (s : session)
  : session :=
  mkSession (dev s) (packet_idx s) (cmd_id s) (device_state s)
    (read_thread s) (read_active s)
    (received_packets s) (packet_event s) buf pidx cnt last.
Definition set_recv_frag_count (cnt : Z) (s : session) : session :=
  set_reassembly (recv_buffer s) (recv_packet_idx s) cnt (recv_last_frag s) s.

(** *** Inbound reassembly: [_process_recv_data] *)

Definition byte_at (data : list Z) (i : nat) : Z := nth i data 0.

(** [struct.unpack('<H', b)] on a two-byte slice. *)
Definition unpack_H (b : list Z) : Z := byte_at b 0 + 256 * byte_at b 1.

(** The slice [data[5:5 + payload_size]]. *)
Definition payload_of (data : list Z) (payload_size : Z) : list Z :=
  firstn (Z.to_nat payload_size) (skipn 5 data).

(** The guards at the head of [_process_recv_data]: the report is long
    enough, carries report id 1 and a payload size in 1..56. *)
Definition valid_report (data : list Z) : bool :=
  negb (length data <? 5)%nat
  && (byte_at data 0 =? 0x01)
  && negb ((byte_at data 1 - 3 <=? 0) || (56 <? byte_at data 1 - 3)).

(** The [if frag_idx == 1 ... elif ...] step on a report that passed
    the guards. *)
Definition accept_fragment (s : session) (data : list Z) : session :=
  let frag_size := byte_at data 1 in
  let packet_idx := byte_at data 2 in
  let frag_count := byte_at data 3 in
  let frag_idx := byte_at data 4 in
  let payload := payload_of data (frag_size - 3) in
  if frag_idx =? 1 then
    set_reassembly payload packet_idx frag_count 1 s
  else if (packet_idx =? recv_packet_idx s)
          && (frag_idx =? recv_last_frag s + 1) then
    set_reassembly (recv_buffer s ++ payload) (recv_packet_idx s)
      (recv_frag_count s) frag_idx s
  else s.

(** The slices [buf[0:2]], [buf[-2:]] and [buf[2:-2]]. *)
Definition head2 (buf : list Z) : list Z := firstn 2 buf.
Definition tail2 (buf : list Z) : list Z := skipn (length buf - 2) buf.
Definition strip_markers (buf : list Z) : list Z :=
  skipn 2 (firstn (length buf - 2) buf).

(** The [# Check if packet complete] block. *)
Definition check_complete (s : session) : session :=
  if (0 <? recv_frag_count s) && (recv_last_frag s =? recv_frag_count s) then
    let s1 :=
      if negb (length (recv_buffer s) <? 4)%nat then
        let start_sig := unpack_H (head2 (recv_buffer s)) in
        let end_sig := unpack_H (tail2 (recv_buffer s)) in
        if (start_sig =? PACK_START) && (end_sig =? PACK_END) then
          set_inbox (received_packets s ++ [strip_markers (recv_buffer s)])
            true s
        else s
      else s in
    set_recv_frag_count 0 s1
  else s.

Definition _process_recv_data (s : session) (data : list Z) : session :=
  if valid_report data then check_complete (accept_fragment s data) else s.

(** *** The transport and the command monad *)

(** What one [dev.write] call does. *)
Inductive wres := WOk | WTimeout | WError.

(** The USB side: whether [usb.core.find] sees the dongle, whether
    [usb.util.claim_interface] gets its interface, the outcome of each
    coming [dev.write] (success once the list is used up), the outcome
    of each coming [dev.read] ([None] is a read that timed out), and
    the reports the device has taken. *)
Record usb := mkUsb {
  present : bool;
  claimable : bool;
  writes : list wres;
  reads : list (option (list Z));
  sent : list (list Z)
}.

Record world := mkWorld { ses : session; bus : usb }.

Inductive exn :=
| USBTimeoutError
| USBError
| ValueError
| StructError
| AttributeError
| OverflowError.

(** [except usb.core.USBError] also takes the timeout subclass. *)
Definition is_usb_error (e : exn) : bool :=
  match e with
  | USBTimeoutError | USBError => true
  | _ => false
  end.

Inductive res (A : Type) :=
| Ret (a : A)
| Raise (e : exn).
Arguments Ret {A} a.
Arguments Raise {A} e.

Definition M (A : Type) : Type := world -> res A * world.

Definition ret {A} (a : A) : M A := fun w => (Ret a, w).
Definition raise {A} (e : exn) : M A := fun w => (Raise e, w).
Definition bind {A B} (c : M A) (k : A -> M B) : M B :=
  fun w =>
    match c w with
    | (Ret a, w') => k a w'
    | (Raise e, w') => (Raise e, w')
    end.

Declare Scope cmd_scope.
Delimit Scope cmd_scope with cmd.
Notation "x <- c ;; k" := (bind c (fun x => k))
  (at level 61, c at next level, right associativity) : cmd_scope.
Notation "c ;; k" := (bind c (fun _ => k))
  (at level 61, right associativity) : cmd_scope.
Open Scope cmd_scope.

Definition get_ses : M session := fun w => (Ret (ses w), w).
Definition modify (f : session -> session) : M unit :=
  fun w => (Ret tt, mkWorld (f (ses w)) (bus w)).

(** [try: c  except: pass]. *)
Definition try_pass (c : M unit) : M unit :=
  fun w =>
    match c w with
    | (Ret _, w') => (Ret tt, w')
    | (Raise _, w') => (Ret tt, w')
    end.

(** The background reader of [_read_thread].  The thread spends its
    time inside [dev.read]; it is given a turn wherever the foreground
    blocks: in a sleep, in a wait on the event, in a [dev.write].
    While [read_active] holds it then reads and reassembles until a
    read times out. *)
Fixpoint reader_run (rs : list (option (list Z))) (s : session)
  : session * list (option (list Z)) :=
  match rs with
  | [] => (s, [])
  | None :: rs' => (s, rs')
  | Some data :: rs' =>
      reader_run rs'
        (match data with [] => s | _ :: _ => _process_recv_data s data end)
  end.

(** One read of the thread: its data, if any, is reassembled. *)
Definition read_one (rs : list (option (list Z))) (s : session)
  : session * list (option (list Z)) :=
  match rs with
  | [] => (s, [])
  | None :: rs' => (s, rs')
  | Some data :: rs' =>
      (match data with [] => s | _ :: _ => _process_recv_data s data end, rs')
  end.

(** A turn of the reader.  The loop tests [read_active] only at its
    top and nobody joins the thread: once the flag is cleared the read
    the thread is in still returns and its data is still reassembled,
    and only then does the loop end.  The same holds when the handle
    is gone: the next [self.dev.read] ends the thread. *)
Definition blocked : M unit :=
  fun w =>
    let b := bus w in
    if read_thread (ses w) then
      if read_active (ses w) && dev (ses w) then
        let '(s', rs') := reader_run (reads b) (ses w) in
        (Ret tt,
         mkWorld s' (mkUsb (present b) (claimable b) (writes b) rs' (sent b)))
      else
        let '(s', rs') := read_one (reads b) (ses w) in
        (Ret tt,
         mkWorld (set_read_thread false s')
           (mkUsb (present b) (claimable b) (writes b) rs' (sent b)))
    else (Ret tt, w).

(** What the transport does with one report. *)
Definition usb_write (report : list Z) : M wres :=
  fun w =>
    let b := bus w in
    match writes b with
    | [] =>
        (Ret WOk, mkWorld (ses w)
           (mkUsb (present b) (claimable b) [] (reads b) (sent b ++ [report])))
    | WOk :: ws =>
        (Ret WOk, mkWorld (ses w)
           (mkUsb (present b) (claimable b) ws (reads b) (sent b ++ [report])))
    | r :: ws =>
        (Ret r, mkWorld (ses w)
           (mkUsb (present b) (claimable b) ws (reads b) (sent b)))
    end.

(** [self.dev.write(EP_OUT, report, timeout=2000)]: without a handle
    the attribute lookup fails; with one, the call blocks until the
    transport has answered, and the reader has its turn meanwhile. *)
Definition dev_write (report : list Z) : M wres :=
  fun w =>
    if dev (ses w) then (blocked ;; usb_write report) w
    else (Raise AttributeError, w).

(** [bytes([...])]: every item must fit a byte. *)
Definition is_byte (v : Z) : bool := (0 <=? v) && (v <? 256).
Definition bytes_of (l : list Z) : M (list Z) :=
  if forallb is_byte l then ret l else raise ValueError.

(** [struct.pack] of one [B] field and of one little-endian [H] field. *)
Definition pack_B (v : Z) : M (list Z) :=
  if is_byte v then ret [v] else raise StructError.
Definition pack_H (v : Z) : list Z := [v mod 256; v / 256].

Definition ljust (n : nat) (l : list Z) : list Z :=
  l ++ repeat 0 (n - length l).

(** *** Identifiers *)

Definition _get_packet_idx : M Z :=
  fun w =>
    let v := packet_idx (ses w) mod 15 + 1 in
    (Ret v, mkWorld (set_packet_idx v (ses w)) (bus w)).

Definition _get_cmd_id : M Z :=
  fun w =>
    let v := cmd_id (ses w) mod 0x7F + 1 in
    (Ret v, mkWorld (set_cmd_id v (ses w)) (bus w)).

(** *** Outbound framing: [_send_report] *)

(** [for attempt in range(5)]: write, retry after a short sleep, and
    re-raise on the fifth failure. *)
Fixpoint write_retry (n : nat) (attempt : Z) (report : list Z) : M unit :=
  match n with
  | O => ret tt
  | S n' =>
      r <- dev_write report ;;
      match r with
      | WOk => ret tt
      | WTimeout =>
          if attempt =? 4 then raise USBTimeoutError
          else blocked ;; write_retry n' (attempt + 1) report
      | WError =>
          if attempt =? 4 then raise USBError
          else blocked ;; write_retry n' (attempt + 1) report
      end
  end.

(** The slice [data[offset:offset + MAX_FRAG_SIZE]]. *)
Definition chunk_at (data : list Z) (offset : nat) : list Z :=
  firstn MAX_FRAG_SIZE (skipn offset data).

(** The [while offset < len(data)] loop.  [offset] grows by 56 each
    turn, so [length data] turns are always enough. *)
Fixpoint send_frags (fuel : nat) (data : list Z) (packet_idx frag_count : Z)
    (offset : nat) (frag_idx : Z) : M unit :=
  match fuel with
  | O => ret tt
  | S fuel' =>
      if (offset <? length data)%nat then
        let frag_idx := frag_idx + 1 in
        let chunk := chunk_at data offset in
        let frag_size := Z.of_nat (length chunk) + 3 in
        header <- bytes_of [0x02; frag_size; packet_idx; frag_count; frag_idx] ;;
        let report := ljust 61 (header ++ chunk) in
        write_retry 5 0 report ;;
        send_frags fuel' data packet_idx frag_count
          (offset + MAX_FRAG_SIZE)%nat frag_idx
      else ret tt
  end.

Definition frag_count_of (data : list Z) : nat :=
  ((length data + MAX_FRAG_SIZE - 1) / MAX_FRAG_SIZE)%nat.

Definition _send_report (data : list Z) : M unit :=
  packet_idx <- _get_packet_idx ;;
  send_frags (length data) data packet_idx (Z.of_nat (frag_count_of data))
    0%nat 0.

(** *** Commands *)

Definition _send_cmd (cmd_type : Z) (cmd_id : option Z) : M Z :=
  cmd_id <- match cmd_id with
            | None => _get_cmd_id
            | Some c => ret c
            end ;;
  b_id <- pack_B cmd_id ;;
  b_type <- pack_B cmd_type ;;
  let packet := pack_H PACK_START ++ b_id ++ b_type ++ pack_H PACK_END in
  _send_report packet ;;
  ret cmd_id.

(** [with self.lock: received_packets.clear(); packet_event.clear()]. *)
Definition clear_inbox : M unit := modify (set_inbox [] false).

(** First packet of the inbox that satisfies [p], as the [for pkt in
    self.received_packets] scans look for it. *)
Definition find_packet (p : list Z -> bool) (pkts : list (list Z))
  : option (list Z) := find p pkts.

Definition is_reply (cmd_id cmd_type : Z) (pkt : list Z) : bool :=
  negb (length pkt <? 2)%nat
  && (byte_at pkt 0 =? cmd_id) && (byte_at pkt 1 =? cmd_type).

(** The wait loop of [_send_cmd_wait].  Wall-clock time is not
    modelled: [polls] is the number of turns the loop gets before its
    timeout runs out (ten 0.1 s waits in one second). *)
Fixpoint wait_reply (polls : nat) (cmd_id cmd_type : Z) : M bool :=
  match polls with
  | O => ret false
  | S polls' =>
      blocked ;;
      s <- get_ses ;;
      if packet_event s then
        match find_packet (is_reply cmd_id cmd_type) (received_packets s) with
        | Some pkt =>
            (if negb (length pkt <? 3)%nat
             then modify (set_device_state (byte_at pkt 2))
             else ret tt) ;;
            ret true
        | None =>
            modify (set_event false) ;;
            wait_reply polls' cmd_id cmd_type
        end
      else wait_reply polls' cmd_id cmd_type
  end.

Definition _send_cmd_wait (cmd_type : Z) (polls : nat) : M bool :=
  cmd_id <- _get_cmd_id ;;
  clear_inbox ;;
  _send_cmd cmd_type (Some cmd_id) ;;
  wait_reply polls cmd_id cmd_type.

(** One second of the reply wait. *)
Definition REPLY_POLLS : nat := 10.

(** *** Public operations *)

(** [for _ in range(10): try: self.dev.read(...) except: pass]: ten
    reads whose data is thrown away. *)
Definition drain : M unit :=
  fun w =>
    let b := bus w in
    (Ret tt, mkWorld (ses w)
       (mkUsb (present b) (claimable b) (writes b) (skipn 10 (reads b))
          (sent b))).

(** The [for attempt in range(3)] loop of [open]. *)
Fixpoint open_attempts (n : nat) : M bool :=
  match n with
  | O => ret false
  | S n' =>
      fun w =>
        match (_send_cmd CMD_SEND_MODE None ;;
               blocked ;;
               modify (set_device_state STATE_SEND)) w with
        | (Ret _, w') => (Ret true, w')
        | (Raise e, w') =>
            if is_usb_error e
            then (blocked ;; open_attempts n') w'
            else (Raise e, w')
        end
  end.

(** [usb.util.claim_interface(self.dev, 0)], outside any [try]. *)
Definition claim_interface : M unit :=
  fun w => if claimable (bus w) then (Ret tt, w) else (Raise USBError, w).

(** [self.read_active = True] and the start of the thread. *)
Definition start_reader (s : session) : session :=
  set_read_thread true (set_read_active true s).

(** [open].  [usb.core.find] is taken to return; configuring,
    detaching the kernel driver and clearing halts sit in [try] blocks
    that swallow their errors and touch no field of the object. *)
Definition open : M bool :=
  fun w =>
    if present (bus w) then
      (modify (set_dev true) ;;
       claim_interface ;;
       drain ;;
       modify start_reader ;;
       blocked ;;
       open_attempts 3) w
    else (modify (set_dev false) ;; ret false) w.

(** [close]; releasing the interface sits in a [try] that swallows
    its errors and touches no field. *)
Definition close : M unit :=
  s <- get_ses ;;
  if dev s then
    modify (set_read_active false) ;;
    try_pass (_send_cmd CMD_IDLE_MODE None ;; ret tt) ;;
    modify (set_dev false)
  else ret tt.

Definition is_output_ack (cmd_id : Z) (pkt : list Z) : bool :=
  is_reply cmd_id CMD_OUTPUT pkt.

(** The acknowledgment wait of [send_ir]: true either way. *)
Fixpoint wait_ack (polls : nat) (cmd_id : Z) : M bool :=
  match polls with
  | O => ret true
  | S polls' =>
      blocked ;;
      s <- get_ses ;;
      if packet_event s then
        match find_packet (is_output_ack cmd_id) (received_packets s) with
        | Some _ => ret true
        | None => modify (set_event false) ;; wait_ack polls' cmd_id
        end
      else wait_ack polls' cmd_id
  end.

Definition send_ir (ir_data : list Z) (freq : Z) : M bool :=
  s <- get_ses ;;
  switched <- (if negb (device_state s =? STATE_SEND)
               then _send_cmd_wait CMD_SEND_MODE REPLY_POLLS
               else ret true) ;;
  if negb switched then ret false
  else
    let freq_id := get_freq_index freq in
    cmd_id <- _get_cmd_id ;;
    b_id <- pack_B cmd_id ;;
    b_type <- pack_B CMD_DATA ;;
    b_freq <- bytes_of [freq_id] ;;
    let packet :=
      pack_H PACK_START ++ b_id ++ b_type ++ b_freq ++ ir_data
      ++ pack_H PACK_END in
    clear_inbox ;;
    _send_report packet ;;
    wait_ack 20 cmd_id.

Definition send_nec (code : Z) : M bool :=
  send_ir (Nec.encode_nec code) 38000.

Definition is_data (pkt : list Z) : bool :=
  negb (length pkt <? 2)%nat && (byte_at pkt 1 =? CMD_DATA).

(** The signal wait of [receive_ir]. *)
Fixpoint wait_data (polls : nat) : M (option (list Z)) :=
  match polls with
  | O => ret None
  | S polls' =>
      blocked ;;
      s <- get_ses ;;
      if packet_event s then
        match find_packet is_data (received_packets s) with
        | Some pkt => ret (Some (skipn 2 pkt))
        | None => modify (set_event false) ;; wait_data polls'
        end
      else wait_data polls'
  end.

(** [receive_ir] without a callback; [polls] stands for [timeout_sec]
    in 0.5 s waits. *)
Definition receive_ir (polls : nat) : M (option (list Z)) :=
  ok <- _send_cmd_wait CMD_RECV_MODE REPLY_POLLS ;;
  if negb ok then ret None
  else
    _send_cmd_wait CMD_CANCEL REPLY_POLLS ;;
    clear_inbox ;;
    _send_cmd CMD_OUTPUT None ;;
    wait_data polls.

Inductive mode := ModeSend | ModeReceive | ModeIdle.

(** [set_mode] on one of the three keys of [cmd_map]. *)
Definition set_mode (m : mode) : M bool :=
  _send_cmd_wait
    (match m with
     | ModeSend => CMD_SEND_MODE
     | ModeReceive => CMD_RECV_MODE
     | ModeIdle => CMD_IDLE_MODE
     end) REPLY_POLLS.

(** *** Predicates the properties are stated with *)

(** The buffer opens with the start marker and closes with the end
    marker, both little-endian. *)
Definition markers_ok (buf : list Z) : Prop :=
  head2 buf = pack_H PACK_START /\ tail2 buf = pack_H PACK_END.

Definition all_bytes (l : list Z) : Prop := Forall (fun b => 0 <= b < 256) l.

(** No completed packet is waiting to be checked: what
    [check_complete] leaves behind. *)
Definition settled (s : session) : Prop :=
  ~ (0 < recv_frag_count s /\ recv_last_frag s = recv_frag_count s).

(** The fields only the foreground writes are the same in both. *)
Definition fg_same (s s' : session) : Prop :=
  dev s' = dev s /\ packet_idx s' = packet_idx s /\ cmd_id s' = cmd_id s
  /\ device_state s' = device_state s /\ read_active s' = read_active s.

(** The report the framing rule asks for: tag, payload length plus 3,
    packet index, fragment count, fragment index, payload, zeros. *)
Definition report_of (pidx count fidx : Z) (chunk : list Z) : list Z :=
  [0x02; Z.of_nat (length chunk) + 3; pidx; count; fidx]
  ++ chunk ++ repeat 0 (56 - length chunk).

(** The reports of a packet, fragments [k+1 .. k+m]. *)
Definition reports_from (data : list Z) (pidx count : Z) (k m : nat)
  : list (list Z) :=
  map (fun j => report_of pidx count (Z.of_nat j + 1) (chunk_at data (56 * j)))
      (seq k m).

(** The first [n] coming writes all fail. *)
Fixpoint all_fail (n : nat) (ws : list wres) : bool :=
  match n with
  | O => true
  | S n' =>
      match ws with
      | [] => false
      | WOk :: _ => false
      | _ :: ws' => all_fail n' ws'
      end
  end.

(** The exception a failed write raises. *)
Definition write_error (r : wres) : exn :=
  match r with
  | WTimeout => USBTimeoutError
  | _ => USBError
  end.

(** A session ready to send on a transport that takes every write. *)
Definition ready (w : world) : Prop :=
  dev (ses w) = true /\ writes (bus w) = []
  /\ device_state (ses w) = STATE_SEND.

(** A command relates every world to the world it leaves by [R]. *)
Definition keeps (R : world -> world -> Prop) {A} (c : M A) : Prop :=
  forall w, R w (snd (c w)).

(** Handle, device state, reader switch and presence are untouched. *)
Definition ds_same (w w' : world) : Prop :=
  dev (ses w') = dev (ses w)
  /\ device_state (ses w') = device_state (ses w)
  /\ read_active (ses w') = read_active (ses w)
  /\ present (bus w') = present (bus w).

(** With the reader switched off, it stays off, and handle and device
    state stay as they are; a thread that has ended stays so.  The
    inbox and the event stay as they are, unless the thread was still
    in a read: that read may add one packet and raise the event, and
    the thread has ended then. *)
Definition quiet (w w' : world) : Prop :=
  read_active (ses w) = false ->
  read_active (ses w') = false
  /\ dev (ses w') = dev (ses w)
  /\ device_state (ses w') = device_state (ses w)
  /\ (read_thread (ses w) = false -> read_thread (ses w') = false)
  /\ ((received_packets (ses w') = received_packets (ses w)
       /\ packet_event (ses w') = packet_event (ses w))
      \/ (read_thread (ses w) = true /\ read_thread (ses w') = false
          /\ exists p,
               received_packets (ses w') = received_packets (ses w) ++ [p]
               /\ packet_event (ses w') = true)).

(** [is_connected]. *)
Definition is_connected (s : session) : bool := dev s.

(** A report as the dongle sends it: tag 1, then the framer's layout;
    [pad] is whatever follows the payload. *)
Definition inbound_report (pidx count fidx : Z) (chunk pad : list Z)
  : list Z :=
  [0x01; Z.of_nat (length chunk) + 3; pidx; count; fidx] ++ chunk ++ pad.

(** The reports of fragments [k+1 .. k+m] of a packet. *)
Definition inbound_reports (data : list Z) (pidx : Z) (pad : nat -> list Z)
    (k m : nat) : list (list Z) :=
  map (fun j =>
         inbound_report pidx (Z.of_nat (frag_count_of data)) (Z.of_nat j + 1)
           (chunk_at data (56 * j)) (pad j))
      (seq k m).

(** The reader's work on a run of reports. *)
Definition feed (s : session) (reports : list (list Z)) : session :=
  fold_left _process_recv_data reports s.

(** Every coming read times out: the dongle sends nothing. *)
Definition silent (w : world) : Prop :=
  Forall (fun r => r = None) (reads (bus w)).

(** With nothing coming in, nothing comes in later either, and the
    inbox and the event stay as they are. *)
Definition hush (w w' : world) : Prop :=
  silent w ->
  silent w'
  /\ received_packets (ses w') = received_packets (ses w)
  /\ packet_event (ses w') = packet_event (ses w).

(** Handle and reader switch are untouched. *)
Definition conn_same (w w' : world) : Prop :=
  dev (ses w') = dev (ses w) /\ read_active (ses w') = read_active (ses w).

(** A world whose session holds an open handle. *)
Definition world_of (s : session) (ws : list wres)
    (rs : list (option (list Z))) : world :=
  mkWorld s (mkUsb true true ws rs []).

End Device.

(** ** tiqiaa_cli.py: sending a NEC code from the command line *)

Module Cli.
Import Protocol Device.

(** [args.delay], a float, as far as its truth value and [time.sleep]
    tell floats apart. *)
Inductive pyfloat :=
| FZero       (* 0.0 and -0.0, the floats that count as false *)
| FLength     (* above zero, a length [time.sleep] takes *)
| FNegative   (* below zero *)
| FNaN
| FTooLarge.  (* infinite, or beyond what the clock's type holds *)

(** [time.sleep(x)]: [ValueError] for a negative length and for NaN,
    [OverflowError] for a length that does not fit the clock's type;
    otherwise the foreground sleeps. *)
Definition sleep (x : pyfloat) : M unit :=
  match x with
  | FZero | FLength => blocked
  | FNegative | FNaN => raise ValueError
  | FTooLarge => raise OverflowError
  end.

(** [try: body  finally: ir.close()]. *)
Definition finally_close {A} (body : M A) : M A :=
  fun w =>
    let '(r, w1) := body w in
    match close w1 with
    | (Ret _, w2) => (r, w2)
    | (Raise e, w2) => (Raise e, w2)
    end.

(** [for i in range(repeat)]: send, then sleep between two sends. *)
Fixpoint send_loop (n : nat) (code i repeat : Z) (delay : pyfloat) : M unit :=
  match n with
  | O => ret tt
  | S n' =>
      send_nec code ;;
      (if i <? repeat - 1 then sleep delay else ret tt) ;;
      send_loop n' code (i + 1) repeat delay
  end.

(** [cmd_send_nec] once [int(args.code, 0)] has given [code]; the
    result is the exit status.  It works on an object of its own,
    [TiqiaaIR()], against the transport [b]. *)
Definition cmd_send_nec (code : Z) (arg_repeat : option Z)
    (arg_delay : pyfloat) (b : usb) : res Z * world :=
  if (code <? 0) || (0xFFFF <? code) then (Ret 1, mkWorld init b)
  else
    (ok <- open ;;
     if negb ok then ret 1
     else
       finally_close
         (let repeat :=
            match arg_repeat with
            | Some r => if r =? 0 then 1 else r
            | None => 1
            end in
          let delay :=
            match arg_delay with
            | FZero => FLength
            | d => d
            end in
          send_loop (Z.to_nat repeat) code 0 repeat delay ;;
          ret 0)) (mkWorld init b).

End Cli.

(** * Properties *)

Import Protocol Nec Device.

(** ** NEC codec *)

Section NecDecode.

Lemma ticks_range (byte : Z) : 0 <= Z.land byte 0x7F <= 127.
Proof.
  change (Z.land byte 0x7F) with (Z.land byte (Z.ones 7)).
  rewrite Z.land_ones by lia.
  change (2 ^ 7) with 128.
  pose proof (Z.mod_pos_bound byte 128 eq_refl). lia.
Qed.

(** No entry of a timing list built from bytes is long enough to pass
    the leader test: its duration is at most [127 * 32 = 4064]. *)
Lemma timings_of_short (d : list Z) :
  Forall (fun t : timing => snd t <= 4064) (timings_of d).
Proof.
  induction d as [|b d IH]; simpl; [constructor|].
  destruct (0 <? Z.land b 127); [|exact IH].
  constructor; [|exact IH]. simpl.
  pose proof (ticks_range b). unfold IR_TICK_SIZE. lia.
Qed.

Lemma find_leader_short (ts : list timing) (i : Z) :
  Forall (fun t : timing => snd t <= 4064) ts -> find_leader ts i = -1.
Proof.
  intros H. revert i.
  induction H as [|[h dur] ts Hd _ IH]; intros i; simpl; [reflexivity|].
  simpl in Hd.
  replace (8000 <? dur) with false by (symmetry; apply Z.ltb_ge; lia).
  rewrite andb_false_r. apply IH.
Qed.

Lemma find_leader_bytes (d : list Z) : find_leader (timings_of d) 0 = -1.
Proof. apply find_leader_short, timings_of_short. Qed.

Lemma decode_timings_no_leader (ts : list timing) :
  find_leader ts 0 = -1 -> decode_timings ts = None.
Proof.
  intros H. unfold decode_timings. rewrite H.
  destruct (tlen ts <? 2); reflexivity.
Qed.

Lemma decode_nec_unfold (d : list Z) :
  decode_nec d =
  if (length d <? 50)%nat then None else decode_timings (timings_of d).
Proof. reflexivity. Qed.

Lemma decode_nec_bytes_none (d : list Z) : decode_nec d = None.
Proof.
  rewrite decode_nec_unfold.
  destruct (length d <? 50)%nat; [reflexivity|].
  apply decode_timings_no_leader, find_leader_bytes.
Qed.

End NecDecode.

(** C10. [decode_nec] returns [None] on every byte sequence: a timing
    entry lasts [(byte & 0x7F) * 32 <= 4064], so the leader scan over the
    timing list always ends with [-1]. *)
Theorem decode_nec_always_none :
  forall ir_data : list Z,
    find_leader (timings_of ir_data) 0 = -1 /\ decode_nec ir_data = None.
Proof.
  intros d. split; [apply find_leader_bytes|apply decode_nec_bytes_none].
Qed.

(** C1. Decoding what [encode_nec] produced does not give the code
    back: the 9 ms leader mark leaves the encoder as five blocks of at
    most 127 ticks, no single one of which passes the leader test, and
    the decoder answers [None] for every code. *)
Theorem decode_encode_nec_none :
  (forall code : Z, decode_nec (encode_nec code) = None)
  /\ firstn 5 (encode_nec 0x00FF) = [255; 255; 255; 255; 182]
  /\ length (encode_nec 0x00FF) = 93%nat
  /\ decode_nec (encode_nec 0x00FF) <> Some 0x00FF.
Proof.
  split; [intros; apply decode_nec_bytes_none|].
  split; [vm_compute; reflexivity|].
  split; [vm_compute; reflexivity|].
  rewrite decode_nec_bytes_none. discriminate.
Qed.

(** C6. The three failure conditions of [decode_nec]: fewer than 50
    bytes; no leader in the timing list; a leader at index [i] with fewer
    than 65 entries after it.  The last two are shown on every timing
    list, hence on the one [decode_nec] builds from its input. *)
Theorem decode_nec_failure_conditions :
  (forall d : list Z, (length d < 50)%nat -> decode_nec d = None)
  /\ (forall ts : list timing,
        find_leader ts 0 = -1 ->
        decode_timings ts = None
        /\ forall d, timings_of d = ts -> decode_nec d = None)
  /\ (forall (ts : list timing) (i : Z),
        find_leader ts 0 = i -> 0 <= i -> tlen ts - (i + 1) < 65 ->
        decode_timings ts = None
        /\ forall d, timings_of d = ts -> decode_nec d = None).
Proof.
  split; [|split].
  - intros d H. rewrite decode_nec_unfold.
    replace (length d <? 50)%nat with true; [reflexivity|].
    symmetry. apply Nat.ltb_lt. exact H.
  - intros ts H. split; [apply decode_timings_no_leader; exact H|].
    intros d _. apply decode_nec_bytes_none.
  - intros ts i Hi Hpos Hfew.
    assert (E : decode_timings ts = None).
    { unfold decode_timings. rewrite Hi.
      destruct (tlen ts <? 2); [reflexivity|].
      replace (tlen ts <=? i + 65) with true
        by (symmetry; apply Z.leb_le; lia).
      rewrite orb_true_r. reflexivity. }
    split; [exact E|].
    intros d Hd. rewrite decode_nec_unfold, Hd, E.
    destruct (length d <? 50)%nat; reflexivity.
Qed.

(** An input of 49 bytes, a timing list without a leader, and a timing
    list whose leader is followed by 64 entries only. *)
Lemma decode_nec_failure_conditions_witness :
  decode_nec (repeat 0x23 49) = None
  /\ decode_timings (repeat (true, 4064) 80) = None
  /\ decode_timings ((true, 18000) :: repeat (false, 1120) 64) = None.
Proof.
  split; [|split].
  - apply (proj1 decode_nec_failure_conditions). simpl. lia.
  - apply (proj1 (proj2 decode_nec_failure_conditions)). reflexivity.
  - apply (proj2 (proj2 decode_nec_failure_conditions)
             ((true, 18000) :: repeat (false, 1120) 64) 0).
    + reflexivity.
    + lia.
    + vm_compute. reflexivity.
Defined.


(** ** Reassembly *)

Section Reassembly.

Lemma check_complete_keeps (s : session) :
  recv_buffer (check_complete s) = recv_buffer s
  /\ recv_packet_idx (check_complete s) = recv_packet_idx s
  /\ recv_last_frag (check_complete s) = recv_last_frag s
  /\ device_state (check_complete s) = device_state s.
Proof.
  unfold check_complete.
  destruct ((0 <? recv_frag_count s) && (recv_last_frag s =? recv_frag_count s));
    [|repeat split].
  destruct (negb (length (recv_buffer s) <? 4)%nat); [|repeat split].
  destruct ((unpack_H (head2 (recv_buffer s)) =? PACK_START)
            && (unpack_H (tail2 (recv_buffer s)) =? PACK_END));
    repeat split.
Qed.

Lemma check_complete_settled (s : session) :
  settled s -> check_complete s = s.
Proof.
  unfold settled, check_complete. intros H.
  destruct (0 <? recv_frag_count s) eqn:E1; [|reflexivity].
  destruct (recv_last_frag s =? recv_frag_count s) eqn:E2; [|reflexivity].
  exfalso. apply H. split; [apply Z.ltb_lt, E1|apply Z.eqb_eq, E2].
Qed.

Lemma check_complete_count (s : session) :
  recv_frag_count (check_complete s) = 0
  \/ (check_complete s = s /\ settled s).
Proof.
  unfold check_complete, settled.
  destruct (0 <? recv_frag_count s) eqn:E1; simpl andb.
  - destruct (recv_last_frag s =? recv_frag_count s) eqn:E2.
    + left. reflexivity.
    + right. split; [reflexivity|]. intros [_ H].
      apply Z.eqb_neq in E2. contradiction.
  - right. split; [reflexivity|]. intros [H _].
    apply Z.ltb_ge in E1. lia.
Qed.

Lemma check_complete_makes_settled (s : session) : settled (check_complete s).
Proof.
  destruct (check_complete_count s) as [E|[E H]].
  - unfold settled. rewrite E. lia.
  - rewrite E. exact H.
Qed.

(** [settled] holds of a new object and after every inbound report. *)
Lemma settled_init : settled init.
Proof. unfold settled; simpl. lia. Qed.

Lemma settled_process (s : session) (data : list Z) :
  settled s -> settled (_process_recv_data s data).
Proof.
  intros H. unfold _process_recv_data.
  destruct (valid_report data); [apply check_complete_makes_settled|exact H].
Qed.

End Reassembly.



(** ** Completion and marker validation *)

Section Completion.

Lemma all_bytes_firstn (n : nat) (l : list Z) :
  all_bytes l -> all_bytes (firstn n l).
Proof.
  intros H. rewrite <- (firstn_skipn n l) in H.
  apply Forall_app in H. tauto.
Qed.

Lemma all_bytes_skipn (n : nat) (l : list Z) :
  all_bytes l -> all_bytes (skipn n l).
Proof.
  intros H. rewrite <- (firstn_skipn n l) in H.
  apply Forall_app in H. tauto.
Qed.

Lemma unpack_H_bytes (l : list Z) (v : Z) :
  all_bytes l -> length l = 2%nat -> 0 <= v < 65536 ->
  unpack_H l = v -> l = pack_H v.
Proof.
  intros Hb Hl Hv.
  destruct l as [|b0 [|b1 [|? ?]]]; try discriminate Hl.
  inversion Hb as [|? ? H0 Hb']; subst.
  inversion Hb' as [|? ? H1 _]; subst.
  unfold unpack_H, byte_at, pack_H. cbn [nth]. intros E.
  assert (E1 : v / 256 = b1) by (symmetry; apply Z.div_unique with b0; lia).
  assert (E0 : v mod 256 = b0) by (symmetry; apply Z.mod_unique with b1; lia).
  rewrite E0, E1. reflexivity.
Qed.

Lemma markers_ok_length (buf : list Z) :
  markers_ok buf -> (4 <= length buf)%nat.
Proof.
  unfold markers_ok, head2, tail2.
  change (pack_H PACK_START) with [83; 84].
  change (pack_H PACK_END) with [69; 78].
  intros [Hh Ht].
  destruct buf as [|b0 [|b1 [|b2 [|b3 rest]]]]; cbn in *;
    try discriminate; try lia;
    inversion Hh; subst; discriminate Ht.
Qed.

Lemma markers_ok_unpack (buf : list Z) :
  markers_ok buf ->
  unpack_H (head2 buf) = PACK_START /\ unpack_H (tail2 buf) = PACK_END.
Proof. intros [-> ->]. split; reflexivity. Qed.

Lemma unpack_markers_ok (buf : list Z) :
  all_bytes buf -> (4 <= length buf)%nat ->
  unpack_H (head2 buf) = PACK_START -> unpack_H (tail2 buf) = PACK_END ->
  markers_ok buf.
Proof.
  intros Hb Hl Hs He. split.
  - apply unpack_H_bytes; [apply all_bytes_firstn, Hb| |unfold PACK_START; lia|exact Hs].
    unfold head2. rewrite length_firstn. lia.
  - apply unpack_H_bytes; [apply all_bytes_skipn, Hb| |unfold PACK_END; lia|exact He].
    unfold tail2. rewrite length_skipn. lia.
Qed.

(** [buf[0:2] + buf[2:-2] + buf[-2:]] is the buffer. *)
Lemma strip_markers_split (buf : list Z) :
  (4 <= length buf)%nat ->
  buf = head2 buf ++ strip_markers buf ++ tail2 buf.
Proof.
  intros Hl. unfold head2, strip_markers, tail2.
  rewrite app_assoc.
  replace (firstn 2 buf) with (firstn 2 (firstn (length buf - 2) buf)).
  - rewrite firstn_skipn. rewrite firstn_skipn. reflexivity.
  - rewrite firstn_firstn. f_equal. lia.
Qed.

Lemma accept_fragment_inbox (s : session) (data : list Z) :
  received_packets (accept_fragment s data) = received_packets s
  /\ packet_event (accept_fragment s data) = packet_event s
  /\ device_state (accept_fragment s data) = device_state s.
Proof.
  unfold accept_fragment.
  destruct (byte_at data 4 =? 1); [repeat split|].
  destruct ((byte_at data 2 =? recv_packet_idx s)
            && (byte_at data 4 =? recv_last_frag s + 1)); repeat split.
Qed.

Lemma accept_fragment_bytes (s : session) (data : list Z) :
  all_bytes (recv_buffer s) -> all_bytes data ->
  all_bytes (recv_buffer (accept_fragment s data)).
Proof.
  intros Hs Hd.
  assert (Hp : forall n, all_bytes (payload_of data n))
    by (intros n; apply all_bytes_firstn, all_bytes_skipn, Hd).
  unfold accept_fragment.
  destruct (byte_at data 4 =? 1); [apply Hp|].
  destruct ((byte_at data 2 =? recv_packet_idx s)
            && (byte_at data 4 =? recv_last_frag s + 1)); [|exact Hs].
  simpl. apply Forall_app. split; [exact Hs|apply Hp].
Qed.

(** A fragment that does not open a packet keeps a zero fragment count. *)
Lemma accept_fragment_count (s : session) (data : list Z) :
  byte_at data 4 <> 1 ->
  recv_frag_count (accept_fragment s data) = recv_frag_count s.
Proof.
  intros H. apply Z.eqb_neq in H. unfold accept_fragment. rewrite H.
  destruct ((byte_at data 2 =? recv_packet_idx s)
            && (byte_at data 4 =? recv_last_frag s + 1)); reflexivity.
Qed.

Lemma check_complete_zero (s : session) :
  recv_frag_count s = 0 -> check_complete s = s.
Proof.
  intros H. apply check_complete_settled. unfold settled. rewrite H. lia.
Qed.

(** What [check_complete] does when the last index has reached the count. *)
Lemma check_complete_fires (s : session) :
  all_bytes (recv_buffer s) ->
  0 < recv_frag_count s -> recv_last_frag s = recv_frag_count s ->
  (markers_ok (recv_buffer s) ->
     received_packets (check_complete s)
     = received_packets s ++ [strip_markers (recv_buffer s)]
     /\ packet_event (check_complete s) = true)
  /\ (~ markers_ok (recv_buffer s) ->
      received_packets (check_complete s) = received_packets s
      /\ packet_event (check_complete s) = packet_event s)
  /\ recv_frag_count (check_complete s) = 0.
Proof.
  intros Hb Hc Hl. unfold check_complete.
  replace (0 <? recv_frag_count s) with true by (symmetry; apply Z.ltb_lt, Hc).
  replace (recv_last_frag s =? recv_frag_count s) with true
    by (symmetry; apply Z.eqb_eq, Hl).
  simpl andb. cbv iota.
  destruct (length (recv_buffer s) <? 4)%nat eqn:E4; simpl negb; cbv iota.
  - apply Nat.ltb_lt in E4. split; [|split; [|reflexivity]].
    + intros Hm. apply markers_ok_length in Hm. lia.
    + intros _. split; reflexivity.
  - apply Nat.ltb_ge in E4.
    destruct (unpack_H (head2 (recv_buffer s)) =? PACK_START) eqn:Es;
      [destruct (unpack_H (tail2 (recv_buffer s)) =? PACK_END) eqn:Ee|];
      simpl andb; cbv iota.
    + split; [|split; [|reflexivity]].
      * intros _. split; reflexivity.
      * intros Hn. exfalso. apply Hn.
        apply unpack_markers_ok; [exact Hb|exact E4| |];
          apply Z.eqb_eq; assumption.
    + split; [|split; [|reflexivity]].
      * intros Hm. apply markers_ok_unpack in Hm. destruct Hm as [_ Hm].
        apply Z.eqb_neq in Ee. contradiction.
      * intros _. split; reflexivity.
    + split; [|split; [|reflexivity]].
      * intros Hm. apply markers_ok_unpack in Hm. destruct Hm as [Hm _].
        apply Z.eqb_neq in Es. contradiction.
      * intros _. split; reflexivity.
Qed.

End Completion.

(** C5. When a report makes the last accepted index reach the
    fragment count, the buffer is published exactly when it opens with
    the start marker and closes with the end marker; the packet put in
    the inbox is the buffer without the two markers, and the event is
    set; otherwise inbox and event stay as they were.  Either way the
    fragment count is zeroed, after which no report other than a new
    first fragment publishes anything. *)
Theorem completion_and_markers (s0 : session) (data : list Z) :
  let s := accept_fragment s0 data in
  let s' := _process_recv_data s0 data in
  let buf := recv_buffer s in
  valid_report data = true ->
  all_bytes (recv_buffer s0) -> all_bytes data ->
  0 < recv_frag_count s -> recv_last_frag s = recv_frag_count s ->
  (markers_ok buf ->
     exists payload,
       buf = pack_H PACK_START ++ payload ++ pack_H PACK_END
       /\ received_packets s' = received_packets s0 ++ [payload]
       /\ packet_event s' = true)
  /\ (~ markers_ok buf ->
      received_packets s' = received_packets s0
      /\ packet_event s' = packet_event s0)
  /\ recv_frag_count s' = 0
  /\ (forall data',
        byte_at data' 4 <> 1 ->
        received_packets (_process_recv_data s' data') = received_packets s'
        /\ packet_event (_process_recv_data s' data') = packet_event s'
        /\ recv_frag_count (_process_recv_data s' data') = 0).
Proof.
  intros s s' buf Hv Hb0 Hd Hc Hl.
  assert (Es' : s' = check_complete s)
    by (unfold s', _process_recv_data; rewrite Hv; reflexivity).
  destruct (accept_fragment_inbox s0 data) as (Ei & Ee & _).
  fold s in Ei, Ee.
  destruct (check_complete_fires s (accept_fragment_bytes s0 data Hb0 Hd) Hc Hl)
    as (Hyes & Hno & Hz).
  rewrite <- Es' in Hyes, Hno, Hz. fold buf in Hyes, Hno.
  rewrite Ei in Hyes, Hno. rewrite Ee in Hno.
  split; [|split; [exact Hno|split; [exact Hz|]]].
  - intros Hm. exists (strip_markers buf).
    split; [|apply Hyes, Hm].
    pose proof (strip_markers_split buf (markers_ok_length buf Hm)) as E.
    destruct Hm as [Hh Ht]. rewrite Hh, Ht in E. exact E.
  - intros data' H1. unfold _process_recv_data.
    destruct (valid_report data'); [|repeat split; exact Hz].
    destruct (accept_fragment_inbox s' data') as (Ei' & Ee' & _).
    pose proof (accept_fragment_count s' data' H1) as Ec. rewrite Hz in Ec.
    rewrite (check_complete_zero _ Ec). repeat split; assumption.
Qed.

(** A one-fragment command reply with both markers is published with
    the markers taken off; the same report with a wrong end marker
    publishes nothing. *)
Lemma completion_and_markers_witness :
  received_packets
    (_process_recv_data init [1; 10; 5; 1; 1; 0x53; 0x54; 1; 83; 9; 0x45; 0x4E])
  = [[1; 83; 9]]
  /\ received_packets
       (_process_recv_data init [1; 10; 5; 1; 1; 0x53; 0x54; 1; 83; 9; 0x45; 0x4F])
     = [].
Proof.
  split.
  - destruct (completion_and_markers init
                [1; 10; 5; 1; 1; 0x53; 0x54; 1; 83; 9; 0x45; 0x4E])
      as (H & _).
    + reflexivity.
    + constructor.
    + repeat constructor; vm_compute; discriminate.
    + reflexivity.
    + reflexivity.
    + destruct H as (payload & E & Hp & _); [split; reflexivity|].
      rewrite Hp.
      change ([83; 84] ++ [1; 83; 9] ++ [69; 78]
              = [83; 84] ++ payload ++ [69; 78]) in E.
      apply app_inv_head, app_inv_tail in E. rewrite <- E. reflexivity.
  - destruct (completion_and_markers init
                [1; 10; 5; 1; 1; 0x53; 0x54; 1; 83; 9; 0x45; 0x4F])
      as (_ & H & _).
    + reflexivity.
    + constructor.
    + repeat constructor; vm_compute; discriminate.
    + reflexivity.
    + reflexivity.
    + apply H. intros [_ E]. vm_compute in E. discriminate E.
Defined.

(** ** The command monad and the background reader *)

Section Commands.

Lemma bind_ret_inv {A B} (c : M A) (k : A -> M B) (w w' : world) (b : B) :
  bind c k w = (Ret b, w') ->
  exists a w1, c w = (Ret a, w1) /\ k a w1 = (Ret b, w').
Proof.
  unfold bind. destruct (c w) as [[a|e] w1]; intros H.
  - exists a, w1. split; [reflexivity|exact H].
  - discriminate H.
Qed.

Lemma bind_ret_fwd {A B} (c : M A) (k : A -> M B) (w w1 : world) (a : A) :
  c w = (Ret a, w1) -> bind c k w = k a w1.
Proof. unfold bind. intros ->. reflexivity. Qed.

Lemma bind_raise_fwd {A B} (c : M A) (k : A -> M B) (w w1 : world) (e : exn) :
  c w = (Raise e, w1) -> bind c k w = (Raise e, w1).
Proof. unfold bind. intros ->. reflexivity. Qed.

Lemma fg_same_refl (s : session) : fg_same s s.
Proof. repeat split. Qed.

Lemma fg_same_trans (a b c : session) :
  fg_same a b -> fg_same b c -> fg_same a c.
Proof.
  unfold fg_same. intros (H1 & H2 & H3 & H4 & H5) (K1 & K2 & K3 & K4 & K5).
  repeat split; congruence.
Qed.

Lemma process_fg (s : session) (data : list Z) :
  fg_same s (_process_recv_data s data).
Proof.
  unfold _process_recv_data.
  destruct (valid_report data); [|apply fg_same_refl].
  apply fg_same_trans with (accept_fragment s data).
  - unfold accept_fragment.
    destruct (byte_at data 4 =? 1); [repeat split|].
    destruct ((byte_at data 2 =? recv_packet_idx s)
              && (byte_at data 4 =? recv_last_frag s + 1)); repeat split.
  - generalize (accept_fragment s data). intros t. unfold check_complete.
    destruct ((0 <? recv_frag_count t) && (recv_last_frag t =? recv_frag_count t));
      [|repeat split].
    destruct (negb (length (recv_buffer t) <? 4)%nat); [|repeat split].
    destruct ((unpack_H (head2 (recv_buffer t)) =? PACK_START)
              && (unpack_H (tail2 (recv_buffer t)) =? PACK_END));
      repeat split.
Qed.

Lemma reader_run_fg (rs : list (option (list Z))) (s : session) :
  fg_same s (fst (reader_run rs s)).
Proof.
  revert s. induction rs as [|[data|] rs IH]; intros s; simpl;
    try apply fg_same_refl.
  destruct data as [|b data]; [apply IH|].
  eapply fg_same_trans; [apply process_fg|apply IH].
Qed.

Lemma read_one_fg (rs : list (option (list Z))) (s : session) :
  fg_same s (fst (read_one rs s)).
Proof.
  destruct rs as [|[[|b data]|] rs]; simpl; try apply fg_same_refl.
  apply process_fg.
Qed.

(** A turn of the reader leaves the foreground fields, the pending
    write outcomes and the reports taken as they are; once the thread
    has ended it does nothing. *)
Lemma blocked_spec (w : world) :
  exists s' rs',
    blocked w
    = (Ret tt,
       mkWorld s'
         (mkUsb (present (bus w)) (claimable (bus w)) (writes (bus w)) rs'
            (sent (bus w))))
    /\ fg_same (ses w) s'
    /\ (read_thread (ses w) = false -> s' = ses w /\ rs' = reads (bus w)).
Proof.
  unfold blocked. destruct w as [s [p cl ws rs st]].
  cbn [ses bus present claimable writes reads sent].
  destruct (read_thread s) eqn:Et.
  - destruct (read_active s && dev s).
    + pose proof (reader_run_fg rs s) as H.
      destruct (reader_run rs s) as [s' rs']. simpl in H.
      exists s', rs'. split; [reflexivity|]. split; [exact H|].
      intros E. discriminate E.
    + pose proof (read_one_fg rs s) as H.
      destruct (read_one rs s) as [s' rs']. simpl in H.
      exists (set_read_thread false s'), rs'. split; [reflexivity|].
      split; [|intros E; discriminate E].
      destruct H as (H1 & H2 & H3 & H4 & H5). repeat split; assumption.
  - exists s, rs. repeat split.
Qed.

End Commands.

(** ** Outbound framing *)

Section Framing.

Lemma usb_write_inv (report : list Z) (w w1 : world) (r : wres) :
  usb_write report w = (Ret r, w1) ->
  ses w1 = ses w
  /\ sent (bus w1)
     = sent (bus w) ++ match r with WOk => [report] | _ => [] end.
Proof.
  unfold usb_write.
  destruct (writes (bus w)) as [|[| |] ws]; intros H; inversion H; subst;
    simpl; rewrite ?app_nil_r; split; reflexivity.
Qed.

Lemma dev_write_inv (report : list Z) (w w1 : world) (r : wres) :
  dev_write report w = (Ret r, w1) ->
  fg_same (ses w) (ses w1)
  /\ sent (bus w1)
     = sent (bus w) ++ match r with WOk => [report] | _ => [] end.
Proof.
  unfold dev_write. destruct (dev (ses w)); [|discriminate].
  destruct (blocked_spec w) as (s' & rs' & E & Hfg & _).
  rewrite (bind_ret_fwd _ _ _ _ _ E). intros H.
  apply usb_write_inv in H. destruct H as [Hs Ht].
  cbn [ses bus sent] in Hs, Ht. rewrite Hs. split; [exact Hfg|exact Ht].
Qed.

Lemma blocked_inv (w w1 : world) (u : unit) :
  blocked w = (Ret u, w1) ->
  fg_same (ses w) (ses w1) /\ sent (bus w1) = sent (bus w).
Proof.
  destruct (blocked_spec w) as (s' & rs' & E & Hfg & _).
  rewrite E. intros H. inversion H; subst. simpl. split; [exact Hfg|reflexivity].
Qed.

(** A write that comes back has handed over its report exactly once. *)
Lemma write_retry_sent (n : nat) :
  forall (attempt : Z) (report : list Z) (w w1 : world),
    Z.of_nat n + attempt = 5 -> (0 < n)%nat ->
    write_retry n attempt report w = (Ret tt, w1) ->
    sent (bus w1) = sent (bus w) ++ [report] /\ fg_same (ses w) (ses w1).
Proof.
  induction n as [|n IH]; intros attempt report w w1 Hn Hpos H; [lia|].
  simpl in H. apply bind_ret_inv in H. destruct H as (r & w2 & Hw & H).
  apply dev_write_inv in Hw. destruct Hw as [Es Et].
  assert (Hretry :
    (if attempt =? 4 then raise USBError
     else blocked ;; write_retry n (attempt + 1) report) w2 = (Ret tt, w1)
    \/ (if attempt =? 4 then raise USBTimeoutError
        else blocked ;; write_retry n (attempt + 1) report) w2 = (Ret tt, w1) ->
    r <> WOk ->
    sent (bus w1) = sent (bus w) ++ [report] /\ fg_same (ses w) (ses w1)).
  { intros Hr Hne.
    assert (Et' : sent (bus w2) = sent (bus w))
      by (destruct r; [contradiction| |]; rewrite Et, app_nil_r; reflexivity).
    destruct (attempt =? 4) eqn:E4; [destruct Hr as [Hr|Hr]; discriminate Hr|].
    apply Z.eqb_neq in E4.
    assert (Hb : (blocked ;; write_retry n (attempt + 1) report) w2 = (Ret tt, w1))
      by (destruct Hr; assumption).
    apply bind_ret_inv in Hb. destruct Hb as (u & w3 & Hb & Hrec).
    apply blocked_inv in Hb. destruct Hb as [Hfg Hs3].
    apply IH in Hrec; [|lia|lia]. destruct Hrec as [Hs1 Hfg1].
    split; [rewrite Hs1, Hs3, Et'; reflexivity|].
    eapply fg_same_trans; [exact Es|]. eapply fg_same_trans; eassumption. }
  destruct r.
  - inversion H; subst. split; [exact Et|exact Es].
  - apply Hretry; [right; exact H|discriminate].
  - apply Hretry; [left; exact H|discriminate].
Qed.

Lemma bytes_of_inv (l l' : list Z) (w w' : world) :
  bytes_of l w = (Ret l', w') -> l' = l /\ w' = w.
Proof.
  unfold bytes_of. destruct (forallb is_byte l); intros H; inversion H.
  split; reflexivity.
Qed.

Lemma ljust_report (pidx count fidx : Z) (chunk : list Z) :
  ljust 61 ([0x02; Z.of_nat (length chunk) + 3; pidx; count; fidx] ++ chunk)
  = report_of pidx count fidx chunk.
Proof.
  unfold ljust, report_of. rewrite <- app_assoc.
  rewrite length_app. reflexivity.
Qed.

(** [k] fragments are behind exactly when [56 * k] bytes are. *)
Lemma frag_count_spec (data : list Z) (k : nat) :
  (56 * k < length data <-> k < frag_count_of data)%nat.
Proof.
  unfold frag_count_of, MAX_FRAG_SIZE.
  pose proof (Nat.div_mod_eq (length data + 56 - 1) 56).
  pose proof (Nat.mod_upper_bound (length data + 56 - 1) 56 ltac:(lia)).
  lia.
Qed.

Lemma reports_from_cons (data : list Z) (pidx count : Z) (k m : nat) :
  reports_from data pidx count k (S m)
  = report_of pidx count (Z.of_nat k + 1) (chunk_at data (56 * k))
    :: reports_from data pidx count (S k) m.
Proof. reflexivity. Qed.

Lemma send_frags_O (data : list Z) (pidx count : Z) (offset : nat) (fidx : Z) :
  send_frags 0 data pidx count offset fidx = ret tt.
Proof. reflexivity. Qed.

Lemma send_frags_S (fuel : nat) (data : list Z) (pidx count : Z)
    (offset : nat) (fidx : Z) :
  send_frags (S fuel) data pidx count offset fidx
  = if (offset <? length data)%nat then
      header <- bytes_of [0x02; Z.of_nat (length (chunk_at data offset)) + 3;
                          pidx; count; fidx + 1] ;;
      write_retry 5 0 (ljust 61 (header ++ chunk_at data offset)) ;;
      send_frags fuel data pidx count (offset + MAX_FRAG_SIZE)%nat (fidx + 1)
    else ret tt.
Proof. reflexivity. Qed.

(** The loop hands over the reports of the fragments still to go. *)
Lemma send_frags_sent (fuel : nat) :
  forall (data : list Z) (pidx count : Z) (k : nat) (w w' : world),
    (length data <= fuel + 56 * k)%nat ->
    send_frags fuel data pidx count (56 * k) (Z.of_nat k) w = (Ret tt, w') ->
    sent (bus w')
    = sent (bus w) ++ reports_from data pidx count k (frag_count_of data - k)
    /\ fg_same (ses w) (ses w').
Proof.
  induction fuel as [|fuel IH]; intros data pidx count k w w' Hf H.
  - rewrite send_frags_O in H. inversion H; subst.
    assert (E : (frag_count_of data - k = 0)%nat)
      by (pose proof (frag_count_spec data k); lia).
    rewrite E. simpl. rewrite app_nil_r. split; [reflexivity|apply fg_same_refl].
  - rewrite send_frags_S in H. destruct (56 * k <? length data)%nat eqn:El.
    + apply Nat.ltb_lt in El.
      assert (Hk : (k < frag_count_of data)%nat) by (apply frag_count_spec, El).
      apply bind_ret_inv in H. destruct H as (header & w1 & Hh & H).
      apply bytes_of_inv in Hh. destruct Hh as [-> ->].
      apply bind_ret_inv in H. destruct H as ([] & w2 & Hw & H).
      rewrite ljust_report in Hw.
      apply write_retry_sent in Hw; [|reflexivity|lia].
      destruct Hw as [Hs2 Hfg2].
      unfold MAX_FRAG_SIZE in H.
      replace (56 * k + 56)%nat with (56 * S k)%nat in H by lia.
      replace (Z.of_nat k + 1) with (Z.of_nat (S k)) in H by lia.
      apply IH in H; [|lia]. destruct H as [Hs' Hfg'].
      split; [|eapply fg_same_trans; eassumption].
      replace (frag_count_of data - k)%nat
        with (S (frag_count_of data - S k)) by lia.
      rewrite reports_from_cons, Hs', Hs2, <- app_assoc. reflexivity.
    + apply Nat.ltb_ge in El. inversion H; subst.
      assert (E : (frag_count_of data - k = 0)%nat)
        by (pose proof (frag_count_spec data k); lia).
      rewrite E. simpl. rewrite app_nil_r.
      split; [reflexivity|apply fg_same_refl].
Qed.

Lemma chunk_at_length (data : list Z) (k : nat) :
  (k < frag_count_of data)%nat ->
  (1 <= length (chunk_at data (56 * k)) <= 56)%nat.
Proof.
  intros H. apply frag_count_spec in H.
  unfold chunk_at, MAX_FRAG_SIZE. rewrite length_firstn, length_skipn. lia.
Qed.

Lemma report_of_length (pidx count fidx : Z) (chunk : list Z) :
  (length chunk <= 56)%nat -> length (report_of pidx count fidx chunk) = 61%nat.
Proof.
  intros H. unfold report_of. rewrite !length_app, repeat_length.
  cbn [length]. lia.
Qed.

(** A write on a transport that takes every write. *)
Lemma dev_write_ok (report : list Z) (w : world) :
  dev (ses w) = true -> writes (bus w) = [] ->
  exists w',
    dev_write report w = (Ret WOk, w')
    /\ dev (ses w') = true /\ writes (bus w') = []
    /\ fg_same (ses w) (ses w')
    /\ sent (bus w') = sent (bus w) ++ [report].
Proof.
  intros Hd Hw. unfold dev_write. rewrite Hd.
  destruct (blocked_spec w) as (s' & rs' & E & Hfg & _).
  rewrite (bind_ret_fwd _ _ _ _ _ E). unfold usb_write.
  cbn [ses bus writes present claimable reads sent]. rewrite Hw.
  eexists. split; [reflexivity|].
  cbn [ses bus writes sent]. destruct Hfg as (H1 & H2 & H3 & H4 & H5).
  repeat split; try assumption. congruence.
Qed.

Lemma write_retry_ok (report : list Z) (w : world) :
  dev (ses w) = true -> writes (bus w) = [] ->
  exists w',
    write_retry 5 0 report w = (Ret tt, w')
    /\ dev (ses w') = true /\ writes (bus w') = []
    /\ fg_same (ses w) (ses w')
    /\ sent (bus w') = sent (bus w) ++ [report].
Proof.
  intros Hd Hw. destruct (dev_write_ok report w Hd Hw) as (w' & E & H).
  exists w'. split; [|exact H].
  cbn [write_retry]. rewrite (bind_ret_fwd _ _ _ _ _ E). reflexivity.
Qed.

(** With a transport that takes every write, the loop runs to its end
    as long as the fragment count fits a byte. *)
Lemma send_frags_ok (fuel : nat) :
  forall (data : list Z) (pidx count : Z) (k : nat) (w : world),
    dev (ses w) = true -> writes (bus w) = [] ->
    0 <= pidx < 256 -> 0 <= count < 256 ->
    (frag_count_of data <= 255)%nat ->
    exists w', send_frags fuel data pidx count (56 * k) (Z.of_nat k) w
               = (Ret tt, w').
Proof.
  induction fuel as [|fuel IH]; intros data pidx count k w Hd Hw Hp Hc Hn.
  - exists w. reflexivity.
  - rewrite send_frags_S.
    destruct (56 * k <? length data)%nat eqn:El; [|exists w; reflexivity].
    apply Nat.ltb_lt in El.
    assert (Hk : (k < frag_count_of data)%nat) by (apply frag_count_spec, El).
    pose proof (chunk_at_length data k Hk) as Hlen.
    set (chunk := chunk_at data (56 * k)) in *.
    assert (Eb : bytes_of [2; Z.of_nat (length chunk) + 3; pidx; count;
                           Z.of_nat k + 1] w
                 = (Ret [2; Z.of_nat (length chunk) + 3; pidx; count;
                         Z.of_nat k + 1], w)).
    { unfold bytes_of.
      replace (forallb is_byte _) with true; [reflexivity|].
      symmetry. simpl. unfold is_byte.
      repeat (apply andb_true_intro; split);
        try apply Z.leb_le; try apply Z.ltb_lt; try reflexivity; lia. }
    rewrite (bind_ret_fwd _ _ _ _ _ Eb). rewrite ljust_report.
    set (report := report_of pidx count (Z.of_nat k + 1) chunk).
    destruct (write_retry_ok report w Hd Hw) as (w2 & Ew & Hd2 & Hw2 & _).
    rewrite (bind_ret_fwd _ _ _ _ _ Ew).
    unfold MAX_FRAG_SIZE.
    replace (56 * k + 56)%nat with (56 * S k)%nat by lia.
    replace (Z.of_nat k + 1) with (Z.of_nat (S k)) by lia.
    apply IH; assumption.
Qed.

(** The payloads of the fragments, in order, make up the packet. *)
Lemma chunks_concat (data : list Z) (m : nat) :
  forall k : nat,
    (frag_count_of data - k = m)%nat ->
    concat (map (fun j => chunk_at data (56 * j)) (seq k m))
    = skipn (56 * k) data.
Proof.
  induction m as [|m IH]; intros k Hm; cbn [seq map concat].
  - symmetry. apply skipn_all2.
    pose proof (frag_count_spec data k). lia.
  - rewrite IH by lia. unfold chunk_at, MAX_FRAG_SIZE.
    replace (56 * S k)%nat with (56 + 56 * k)%nat by lia.
    rewrite <- skipn_skipn. apply firstn_skipn.
Qed.

Lemma mod_succ_range (x m : Z) : 0 < m -> 1 <= x mod m + 1 <= m.
Proof. intros H. pose proof (Z.mod_pos_bound x m H). lia. Qed.

End Framing.

(** C8, as stated, fails on a packet of more than [255 * 56] bytes:
    its fragment count, 256, does not fit the count byte of the report
    header, [bytes([...])] raises [ValueError] on the first fragment and
    no report is written. *)
Lemma framing_long_packet_raises :
  frag_count_of (repeat 0 (255 * 56 + 1)) = 256%nat
  /\ fst (_send_report (repeat 0 (255 * 56 + 1))
            (world_of (set_dev true init) [] []))
     = Raise ValueError
  /\ sent (bus (snd (_send_report (repeat 0 (255 * 56 + 1))
                       (world_of (set_dev true init) [] []))))
     = [].
Proof. vm_compute. repeat split. Qed.

(** C8, amended.  For a packet of at most [255 * 56] bytes:
    [_send_report], whenever it returns, has handed over exactly the
    reports of the fragments in order, each laid out as tag, payload
    length + 3, packet index, fragment count, 1-based fragment index,
    payload, zero padding; it does return when the transport takes the
    writes.  There are [ceil(length / 56)] reports of 61 bytes, each
    payload has 1 to 56 bytes and the payloads make up the packet; all
    carry one packet index.  [_get_packet_idx] steps through 1..15 and
    [_get_cmd_id] through 1..127, wrapping to 1. *)
Theorem framing_format (data : list Z) (w : world) :
  (length data <= 255 * 56)%nat ->
  let pidx := packet_idx (ses w) mod 15 + 1 in
  let n := frag_count_of data in
  let expected := reports_from data pidx (Z.of_nat n) 0 n in
  (forall w', _send_report data w = (Ret tt, w') ->
     sent (bus w') = sent (bus w) ++ expected /\ packet_idx (ses w') = pidx)
  /\ (dev (ses w) = true -> writes (bus w) = [] ->
      exists w', _send_report data w = (Ret tt, w'))
  /\ (length data <= 56 * n < length data + 56)%nat
  /\ length expected = n
  /\ Forall (fun r => length r = 61%nat) expected
  /\ (forall k, (k < n)%nat -> (1 <= length (chunk_at data (56 * k)) <= 56)%nat)
  /\ concat (map (fun j => chunk_at data (56 * j)) (seq 0 n)) = data
  /\ 1 <= pidx <= 15
  /\ (forall w0 : world,
        exists p c,
          _get_packet_idx w0
          = (Ret p, mkWorld (set_packet_idx p (ses w0)) (bus w0))
          /\ _get_cmd_id w0 = (Ret c, mkWorld (set_cmd_id c (ses w0)) (bus w0))
          /\ 1 <= p <= 15 /\ 1 <= c <= 127
          /\ (1 <= packet_idx (ses w0) < 15 -> p = packet_idx (ses w0) + 1)
          /\ (packet_idx (ses w0) = 15 \/ packet_idx (ses w0) = 0 -> p = 1)
          /\ (1 <= cmd_id (ses w0) < 127 -> c = cmd_id (ses w0) + 1)
          /\ (cmd_id (ses w0) = 127 \/ cmd_id (ses w0) = 0 -> c = 1)).
Proof.
  intros Hlen pidx n expected.
  assert (Hp : 1 <= pidx <= 15) by (apply mod_succ_range; lia).
  assert (Hn : (length data <= 56 * n < length data + 56)%nat).
  { pose proof (frag_count_spec data n).
    destruct n as [|m] eqn:En; [lia|].
    pose proof (frag_count_spec data m). fold n in H0. lia. }
  assert (Erun : _send_report data w
                 = send_frags (length data) data pidx (Z.of_nat n)
                     (56 * 0) (Z.of_nat 0)
                     (mkWorld (set_packet_idx pidx (ses w)) (bus w)))
    by reflexivity.
  split; [|split; [|split; [exact Hn|split; [|split; [|split; [|split;
    [|split; [exact Hp|]]]]]]]].
  - intros w' H. rewrite Erun in H.
    apply send_frags_sent in H; [|lia].
    destruct H as [Hs (_ & Hpi & _)]. simpl in Hs, Hpi.
    rewrite Nat.sub_0_r in Hs. split; [exact Hs|exact Hpi].
  - intros Hd Hw. rewrite Erun.
    apply send_frags_ok; simpl; try assumption; try lia.
  - unfold expected, reports_from. rewrite length_map, length_seq. reflexivity.
  - unfold expected, reports_from. apply Forall_forall. intros r Hr.
    apply in_map_iff in Hr. destruct Hr as (j & <- & Hj).
    apply in_seq in Hj. apply report_of_length.
    apply (chunk_at_length data j). lia.
  - intros k Hk. apply chunk_at_length. exact Hk.
  - rewrite (chunks_concat data n 0) by lia. reflexivity.
  - intros w0.
    exists (packet_idx (ses w0) mod 15 + 1), (cmd_id (ses w0) mod 127 + 1).
    split; [reflexivity|]. split; [reflexivity|].
    split; [apply mod_succ_range; lia|]. split; [apply mod_succ_range; lia|].
    repeat split.
    + intros H. rewrite Z.mod_small by lia. reflexivity.
    + intros [-> | ->]; reflexivity.
    + intros H. rewrite Z.mod_small by lia. reflexivity.
    + intros [-> | ->]; reflexivity.
Qed.

(** A packet of 60 bytes goes out as two reports, 56 and 4 payload
    bytes, although the first write has to be repeated. *)
Lemma framing_format_witness :
  sent (bus (snd (_send_report (repeat 7 60)
                    (world_of (set_dev true init) [WTimeout] []))))
  = [[2; 59; 1; 2; 1] ++ repeat 7 56;
     [2; 7; 1; 2; 2] ++ repeat 7 4 ++ repeat 0 52].
Proof.
  destruct (framing_format (repeat 7 60)
              (world_of (set_dev true init) [WTimeout] [])) as (H & _).
  - apply Nat.leb_le. vm_compute. reflexivity.
  - destruct (H (snd (_send_report (repeat 7 60)
                        (world_of (set_dev true init) [WTimeout] []))))
      as [E _]; [vm_compute; reflexivity|].
    rewrite E. vm_compute. reflexivity.
Defined.

(** ** What the commands leave alone *)

Section Keeps.

Variable R : world -> world -> Prop.
Hypothesis R_refl : forall w, R w w.
Hypothesis R_trans : forall a b c, R a b -> R b c -> R a c.
Hypothesis R_blocked : keeps R blocked.
Hypothesis R_write : forall report, keeps R (usb_write report).
Hypothesis R_packet_idx : keeps R _get_packet_idx.
Hypothesis R_cmd_id : keeps R _get_cmd_id.

Lemma keeps_ret {A} (a : A) : keeps R (ret a).
Proof. intros w. apply R_refl. Qed.

Lemma keeps_raise {A} (e : exn) : keeps R (@raise A e).
Proof. intros w. apply R_refl. Qed.

Lemma keeps_bind {A B} (c : M A) (k : A -> M B) :
  keeps R c -> (forall a, keeps R (k a)) -> keeps R (bind c k).
Proof.
  intros Hc Hk w. unfold bind. specialize (Hc w).
  destruct (c w) as [[a|e] w1]; simpl in Hc; [|exact Hc].
  eapply R_trans; [exact Hc|apply Hk].
Qed.

Lemma keeps_if {A} (b : bool) (c1 c2 : M A) :
  keeps R c1 -> keeps R c2 -> keeps R (if b then c1 else c2).
Proof. destruct b; auto. Qed.

Lemma keeps_try_pass (c : M unit) : keeps R c -> keeps R (try_pass c).
Proof.
  intros Hc w. unfold try_pass. specialize (Hc w).
  destruct (c w) as [[a|e] w1]; exact Hc.
Qed.

Lemma keeps_get_ses : keeps R get_ses.
Proof. intros w. apply R_refl. Qed.

Lemma keeps_bytes_of (l : list Z) : keeps R (bytes_of l).
Proof. unfold bytes_of. apply keeps_if; [apply keeps_ret|apply keeps_raise]. Qed.

Lemma keeps_pack_B (v : Z) : keeps R (pack_B v).
Proof. unfold pack_B. apply keeps_if; [apply keeps_ret|apply keeps_raise]. Qed.

Lemma keeps_dev_write (report : list Z) : keeps R (dev_write report).
Proof.
  intros w. unfold dev_write. destruct (dev (ses w)); [|apply R_refl].
  apply (keeps_bind blocked (fun _ => usb_write report) R_blocked).
  intros _. apply R_write.
Qed.

Lemma keeps_write_retry (n : nat) :
  forall attempt report, keeps R (write_retry n attempt report).
Proof.
  induction n as [|n IH]; intros attempt report; simpl; [apply keeps_ret|].
  apply keeps_bind; [apply keeps_dev_write|]. intros [| |]; [apply keeps_ret| |];
    (apply keeps_if; [apply keeps_raise|]);
    (apply keeps_bind; [apply R_blocked|intros _; apply IH]).
Qed.

Lemma keeps_send_frags (fuel : nat) :
  forall data pidx count offset fidx,
    keeps R (send_frags fuel data pidx count offset fidx).
Proof.
  induction fuel as [|fuel IH]; intros data pidx count offset fidx.
  - rewrite send_frags_O. apply keeps_ret.
  - rewrite send_frags_S. apply keeps_if; [|apply keeps_ret].
    apply keeps_bind; [apply keeps_bytes_of|]. intros header.
    apply keeps_bind; [apply keeps_write_retry|]. intros _. apply IH.
Qed.

Lemma keeps_send_report (data : list Z) : keeps R (_send_report data).
Proof.
  unfold _send_report. apply keeps_bind; [apply R_packet_idx|].
  intros pidx. apply keeps_send_frags.
Qed.

Lemma keeps_send_cmd (cmd_type : Z) (c : option Z) :
  keeps R (_send_cmd cmd_type c).
Proof.
  unfold _send_cmd.
  apply keeps_bind; [destruct c; [apply keeps_ret|apply R_cmd_id]|].
  intros cid. apply keeps_bind; [apply keeps_pack_B|]. intros b_id.
  apply keeps_bind; [apply keeps_pack_B|]. intros b_type.
  apply keeps_bind; [apply keeps_send_report|]. intros _. apply keeps_ret.
Qed.

End Keeps.

Section Steady.

Lemma ds_same_refl (w : world) : ds_same w w.
Proof. repeat split. Qed.

Lemma ds_same_trans (a b c : world) : ds_same a b -> ds_same b c -> ds_same a c.
Proof.
  unfold ds_same. intros (H1 & H2 & H3 & H4) (K1 & K2 & K3 & K4).
  repeat split; congruence.
Qed.

Lemma ds_blocked : keeps ds_same blocked.
Proof.
  intros w. destruct (blocked_spec w) as (s' & rs' & E & (H1 & _ & _ & H4 & H5) & _).
  rewrite E. repeat split; assumption.
Qed.

Lemma ds_write (report : list Z) : keeps ds_same (usb_write report).
Proof.
  intros w. unfold usb_write.
  destruct (writes (bus w)) as [|[| |] ws]; repeat split.
Qed.

Lemma ds_packet_idx : keeps ds_same _get_packet_idx.
Proof. intros w. repeat split. Qed.

Lemma ds_cmd_id : keeps ds_same _get_cmd_id.
Proof. intros w. repeat split. Qed.

Lemma ds_modify (f : session -> session) :
  (forall s, dev (f s) = dev s /\ device_state (f s) = device_state s
             /\ read_active (f s) = read_active s) ->
  keeps ds_same (modify f).
Proof.
  intros H w. destruct (H (ses w)) as (H1 & H2 & H3).
  repeat split; assumption.
Qed.

Lemma ds_send_report (data : list Z) : keeps ds_same (_send_report data).
Proof.
  exact (keeps_send_report ds_same ds_same_refl ds_same_trans ds_blocked
           ds_write ds_packet_idx data).
Qed.

Lemma ds_send_cmd (cmd_type : Z) (c : option Z) :
  keeps ds_same (_send_cmd cmd_type c).
Proof.
  exact (keeps_send_cmd ds_same ds_same_refl ds_same_trans ds_blocked
           ds_write ds_packet_idx ds_cmd_id cmd_type c).
Qed.

Lemma ds_clear_inbox : keeps ds_same clear_inbox.
Proof. apply ds_modify. intros s. repeat split. Qed.

(** One report leaves the inbox and the event as they are, or adds
    one packet and raises the event. *)
Lemma process_inbox (s : session) (data : list Z) :
  (received_packets (_process_recv_data s data) = received_packets s
   /\ packet_event (_process_recv_data s data) = packet_event s)
  \/ exists p,
       received_packets (_process_recv_data s data) = received_packets s ++ [p]
       /\ packet_event (_process_recv_data s data) = true.
Proof.
  unfold _process_recv_data.
  destruct (valid_report data); [|left; split; reflexivity].
  assert (Ha : received_packets (accept_fragment s data) = received_packets s
               /\ packet_event (accept_fragment s data) = packet_event s).
  { unfold accept_fragment.
    destruct (byte_at data 4 =? 1); [split; reflexivity|].
    destruct ((byte_at data 2 =? recv_packet_idx s)
              && (byte_at data 4 =? recv_last_frag s + 1)); split; reflexivity. }
  destruct Ha as [<- <-].
  generalize (accept_fragment s data). intros t. unfold check_complete.
  destruct ((0 <? recv_frag_count t) && (recv_last_frag t =? recv_frag_count t));
    [|left; split; reflexivity].
  destruct (negb (length (recv_buffer t) <? 4)%nat); [|left; split; reflexivity].
  destruct ((unpack_H (head2 (recv_buffer t)) =? PACK_START)
            && (unpack_H (tail2 (recv_buffer t)) =? PACK_END));
    [|left; split; reflexivity].
  right. eexists. split; reflexivity.
Qed.

Lemma quiet_refl (w : world) : quiet w w.
Proof.
  intros H. split; [exact H|]. split; [reflexivity|]. split; [reflexivity|].
  split; [intros E; exact E|]. left. split; reflexivity.
Qed.

Lemma quiet_trans (a b c : world) : quiet a b -> quiet b c -> quiet a c.
Proof.
  unfold quiet. intros H K Ha.
  destruct (H Ha) as (H1 & H2 & H3 & H4 & H5).
  destruct (K H1) as (K1 & K2 & K3 & K4 & K5).
  split; [exact K1|]. split; [congruence|]. split; [congruence|].
  split; [intros E; apply K4, H4, E|].
  destruct H5 as [[Hi He]|(Ht & Ht' & p & Hi & He)].
  - destruct K5 as [[Ki Ke]|(Kt & Kt' & q & Ki & Ke)].
    + left. split; congruence.
    + right. split.
      * destruct (read_thread (ses a)); [reflexivity|].
        rewrite (H4 eq_refl) in Kt. discriminate Kt.
      * split; [exact Kt'|]. exists q. split; [congruence|exact Ke].
  - destruct K5 as [[Ki Ke]|(Kt & _)]; [|congruence].
    right. split; [exact Ht|]. split; [apply K4, Ht'|].
    exists p. split; congruence.
Qed.

Lemma quiet_blocked : keeps quiet blocked.
Proof.
  intros w Hr. unfold blocked.
  destruct (read_thread (ses w)) eqn:Et.
  - rewrite Hr. cbn [andb].
    destruct (reads (bus w)) as [|[[|b data]|] rs];
      cbn [read_one snd ses read_active dev device_state read_thread
           received_packets packet_event set_read_thread];
      try (split; [exact Hr|]; split; [reflexivity|]; split; [reflexivity|];
           split; [intros E; discriminate E|]; left; split; reflexivity).
    destruct (process_fg (ses w) (b :: data)) as (H1 & _ & _ & H4 & H5).
    split; [congruence|]. split; [exact H1|]. split; [exact H4|].
    split; [intros E; discriminate E|].
    destruct (process_inbox (ses w) (b :: data)) as [Hs|(p & Hi & He)].
    + left. exact Hs.
    + right. split; [reflexivity|]. split; [reflexivity|].
      exists p. split; assumption.
  - cbn [snd]. split; [exact Hr|]. split; [reflexivity|].
    split; [reflexivity|]. split; [intros _; exact Et|].
    left. split; reflexivity.
Qed.

Lemma quiet_write (report : list Z) : keeps quiet (usb_write report).
Proof.
  intros w. unfold usb_write.
  destruct (writes (bus w)) as [|[| |] ws]; apply (quiet_refl w).
Qed.

Lemma quiet_packet_idx : keeps quiet _get_packet_idx.
Proof. intros w. apply (quiet_refl w). Qed.

Lemma quiet_cmd_id : keeps quiet _get_cmd_id.
Proof. intros w. apply (quiet_refl w). Qed.

Lemma quiet_send_cmd (cmd_type : Z) (c : option Z) :
  keeps quiet (_send_cmd cmd_type c).
Proof.
  exact (keeps_send_cmd quiet quiet_refl quiet_trans quiet_blocked
           quiet_write quiet_packet_idx quiet_cmd_id cmd_type c).
Qed.

End Steady.

(** ** Commands against a failing transport *)

Section Transport.

Lemma blocked_writes (w : world) :
  exists w', blocked w = (Ret tt, w')
             /\ writes (bus w') = writes (bus w)
             /\ dev (ses w') = dev (ses w).
Proof.
  destruct (blocked_spec w) as (s' & rs' & E & (H1 & _) & _).
  eexists. split; [exact E|]. split; [reflexivity|exact H1].
Qed.

(** The turn the reader gets inside a write touches neither the
    handle nor the transport's writes. *)
Lemma dev_write_turn (report : list Z) (w : world) :
  dev (ses w) = true ->
  exists w1,
    dev_write report w = usb_write report w1
    /\ writes (bus w1) = writes (bus w)
    /\ sent (bus w1) = sent (bus w)
    /\ fg_same (ses w) (ses w1).
Proof.
  intros Hd. unfold dev_write. rewrite Hd.
  destruct (blocked_spec w) as (s' & rs' & E & Hfg & _).
  rewrite (bind_ret_fwd _ _ _ _ _ E).
  eexists. split; [reflexivity|]. repeat split; apply Hfg.
Qed.

(** A write with its retries fails exactly when all its writes fail. *)
Lemma write_retry_run (n : nat) :
  forall (attempt : Z) (report : list Z) (w : world),
    Z.of_nat n + attempt = 5 -> (0 < n)%nat -> dev (ses w) = true ->
    (all_fail n (writes (bus w)) = true ->
       exists e w',
         write_retry n attempt report w = (Raise e, w')
         /\ is_usb_error e = true
         /\ writes (bus w') = skipn n (writes (bus w))
         /\ dev (ses w') = true)
    /\ (all_fail n (writes (bus w)) = false ->
        exists w', write_retry n attempt report w = (Ret tt, w')).
Proof.
  induction n as [|n IH]; intros attempt report w Hn Hpos Hd; [lia|].
  cbn [write_retry].
  destruct (dev_write_turn report w Hd) as (w1 & Ew & Hw1 & _ & Hfg1).
  assert (Hd1 : dev (ses w1) = true) by (destruct Hfg1 as (H & _); congruence).
  assert (Hfail : forall (e : exn) (w2 : world),
    is_usb_error e = true -> dev (ses w2) = true ->
    (all_fail n (writes (bus w2)) = true ->
       exists e' w',
         (if attempt =? 4 then raise e
          else blocked ;; write_retry n (attempt + 1) report) w2 = (Raise e', w')
         /\ is_usb_error e' = true
         /\ writes (bus w') = skipn n (writes (bus w2)) /\ dev (ses w') = true)
    /\ (all_fail n (writes (bus w2)) = false ->
        exists w',
          (if attempt =? 4 then raise e
           else blocked ;; write_retry n (attempt + 1) report) w2 = (Ret tt, w'))).
  { intros e w2 He Hd2.
    destruct (attempt =? 4) eqn:E4.
    - apply Z.eqb_eq in E4. assert (n = 0%nat) by lia. subst n. split.
      + intros _. exists e, w2. repeat split; assumption.
      + intros H. discriminate H.
    - apply Z.eqb_neq in E4.
      destruct (blocked_writes w2) as (w3 & Eb & Hw3 & Hd3).
      rewrite (bind_ret_fwd _ _ _ _ _ Eb). rewrite Hd2 in Hd3.
      destruct (IH (attempt + 1) report w3 ltac:(lia) ltac:(lia) Hd3) as [I1 I2].
      rewrite Hw3 in I1, I2. split; assumption. }
  rewrite <- Hw1. unfold bind at 1 4. rewrite Ew. unfold usb_write.
  destruct (writes (bus w1)) as [|[| |] ws'].
  - split; [intros H; discriminate H|]. intros _. eexists. reflexivity.
  - split; [intros H; discriminate H|]. intros _. eexists. reflexivity.
  - cbn [all_fail skipn].
    apply (Hfail USBTimeoutError
             (mkWorld (ses w1)
                (mkUsb (present (bus w1)) (claimable (bus w1)) ws'
                   (reads (bus w1)) (sent (bus w1)))));
      [reflexivity|exact Hd1].
  - cbn [all_fail skipn].
    apply (Hfail USBError
             (mkWorld (ses w1)
                (mkUsb (present (bus w1)) (claimable (bus w1)) ws'
                   (reads (bus w1)) (sent (bus w1)))));
      [reflexivity|exact Hd1].
Qed.

Lemma frag_count_single (data : list Z) :
  (0 < length data <= 56)%nat -> frag_count_of data = 1%nat.
Proof.
  intros H. pose proof (frag_count_spec data 0). pose proof (frag_count_spec data 1).
  lia.
Qed.

(** A packet that fits one fragment goes out as one report. *)
Lemma send_report_single (data : list Z) (w : world) :
  (0 < length data <= 56)%nat ->
  let pidx := packet_idx (ses w) mod 15 + 1 in
  _send_report data w
  = (write_retry 5 0 (report_of pidx 1 1 data) ;; ret tt)
      (mkWorld (set_packet_idx pidx (ses w)) (bus w)).
Proof.
  intros Hl pidx. unfold _send_report.
  assert (Ep : _get_packet_idx w
               = (Ret pidx, mkWorld (set_packet_idx pidx (ses w)) (bus w)))
    by reflexivity.
  rewrite (bind_ret_fwd _ _ _ _ _ Ep).
  rewrite (frag_count_single data Hl).
  destruct (length data) as [|fuel] eqn:El; [lia|].
  rewrite send_frags_S. rewrite El.
  replace (0 <? S fuel)%nat with true by (symmetry; apply Nat.ltb_lt; lia).
  assert (Ec : chunk_at data 0 = data)
    by (unfold chunk_at, MAX_FRAG_SIZE; simpl skipn; apply firstn_all2; lia).
  rewrite Ec.
  set (w1 := mkWorld (set_packet_idx pidx (ses w)) (bus w)).
  assert (Hp : 1 <= pidx <= 15) by (apply mod_succ_range; lia).
  assert (Eb : bytes_of [2; Z.of_nat (length data) + 3; pidx; Z.of_nat 1; 0 + 1] w1
               = (Ret [2; Z.of_nat (length data) + 3; pidx; 1; 1], w1)).
  { unfold bytes_of.
    replace (forallb is_byte _) with true; [reflexivity|].
    symmetry. simpl forallb. unfold is_byte.
    repeat (apply andb_true_intro; split);
      try apply Z.leb_le; try apply Z.ltb_lt; try reflexivity; lia. }
  rewrite (bind_ret_fwd _ _ _ _ _ Eb). rewrite ljust_report.
  unfold bind. destruct (write_retry 5 0 (report_of pidx 1 1 data) w1)
    as [[[]|e] w2]; [|reflexivity].
  destruct fuel as [|fuel]; [reflexivity|].
  rewrite send_frags_S.
  replace (0 + MAX_FRAG_SIZE <? length data)%nat with false; [reflexivity|].
  symmetry. apply Nat.ltb_ge. unfold MAX_FRAG_SIZE. lia.
Qed.

Lemma pack_B_ok (v : Z) (w : world) :
  0 <= v < 256 -> pack_B v w = (Ret [v], w).
Proof.
  intros H. unfold pack_B, is_byte.
  replace (0 <=? v) with true by (symmetry; apply Z.leb_le; lia).
  replace (v <? 256) with true by (symmetry; apply Z.ltb_lt; lia).
  reflexivity.
Qed.

(** A command without a given id goes through exactly when one of the
    five writes of its report does; a failure is a USB error. *)
Lemma send_cmd_run (cmd_type : Z) (w : world) :
  0 <= cmd_type < 256 -> dev (ses w) = true ->
  (all_fail 5 (writes (bus w)) = true ->
     exists e w',
       _send_cmd cmd_type None w = (Raise e, w')
       /\ is_usb_error e = true
       /\ writes (bus w') = skipn 5 (writes (bus w))
       /\ dev (ses w') = true)
  /\ (all_fail 5 (writes (bus w)) = false ->
      exists c w', _send_cmd cmd_type None w = (Ret c, w')).
Proof.
  intros Ht Hd. unfold _send_cmd.
  set (c := cmd_id (ses w) mod 127 + 1).
  set (w1 := mkWorld (set_cmd_id c (ses w)) (bus w)).
  assert (Ec : _get_cmd_id w = (Ret c, w1)) by reflexivity.
  rewrite (bind_ret_fwd _ _ _ _ _ Ec).
  assert (Hc : 1 <= c <= 127) by (apply mod_succ_range; lia).
  rewrite (bind_ret_fwd _ _ _ _ _ (pack_B_ok c w1 ltac:(lia))).
  rewrite (bind_ret_fwd _ _ _ _ _ (pack_B_ok cmd_type w1 Ht)).
  set (packet := pack_H PACK_START ++ [c] ++ [cmd_type] ++ pack_H PACK_END).
  assert (Hl : (0 < length packet <= 56)%nat) by (simpl; lia).
  set (w2 := mkWorld (set_packet_idx (packet_idx (ses w1) mod 15 + 1) (ses w1))
               (bus w1)).
  destruct (write_retry_run 5 0
              (report_of (packet_idx (ses w1) mod 15 + 1) 1 1 packet) w2
              ltac:(lia) ltac:(lia) Hd) as [Hfail Hok].
  split; intros Ha.
  - destruct (Hfail Ha) as (e & w' & Ew & He & Hw & Hd').
    exists e, w'. split; [|repeat split; assumption].
    apply bind_raise_fwd. rewrite (send_report_single packet w1 Hl).
    apply bind_raise_fwd. exact Ew.
  - destruct (Hok Ha) as (w' & Ew). exists c, w'.
    unfold bind at 1. rewrite (send_report_single packet w1 Hl).
    rewrite (bind_ret_fwd _ _ _ _ _ Ew). reflexivity.
Qed.

Lemma blocked_bus (w : world) :
  exists w', blocked w = (Ret tt, w')
             /\ writes (bus w') = writes (bus w)
             /\ sent (bus w') = sent (bus w)
             /\ dev (ses w') = dev (ses w).
Proof.
  destruct (blocked_spec w) as (s' & rs' & E & (H1 & _) & _).
  eexists. split; [exact E|]. repeat split. exact H1.
Qed.

(** Five failures in a row: the error is that of the last one, the
    five outcomes are used up and nothing has been handed over. *)
Lemma write_retry_fails (n : nat) :
  forall (attempt : Z) (report : list Z) (w : world),
    Z.of_nat n + attempt = 5 -> (0 < n)%nat -> dev (ses w) = true ->
    all_fail n (writes (bus w)) = true ->
    exists w',
      write_retry n attempt report w
      = (Raise (write_error (nth (n - 1) (writes (bus w)) WOk)), w')
      /\ writes (bus w') = skipn n (writes (bus w))
      /\ sent (bus w') = sent (bus w).
Proof.
  induction n as [|n IH]; intros attempt report w Hn Hpos Hd Ha; [lia|].
  cbn [write_retry].
  destruct (dev_write_turn report w Hd) as (w1 & Ew & Hw1 & Hs1 & Hfg1).
  assert (Hd1 : dev (ses w1) = true) by (destruct Hfg1 as (H & _); congruence).
  assert (G : forall (r : wres) (ws : list wres) (w2 : world),
    dev (ses w2) = true -> writes (bus w2) = ws -> all_fail n ws = true ->
    exists w',
      (if attempt =? 4 then raise (write_error r)
       else blocked ;; write_retry n (attempt + 1) report) w2
      = (Raise (write_error (nth (S n - 1) (r :: ws) WOk)), w')
      /\ writes (bus w') = skipn n ws /\ sent (bus w') = sent (bus w2)).
  { intros r ws w2 Hd2 Hw2 Ha2. destruct (attempt =? 4) eqn:E4.
    - apply Z.eqb_eq in E4. assert (n = 0%nat) by lia. subst n.
      exists w2. repeat split. exact Hw2.
    - apply Z.eqb_neq in E4.
      destruct (blocked_bus w2) as (w3 & Eb & Hw3 & Hs3 & Hd3).
      rewrite (bind_ret_fwd _ _ _ _ _ Eb). rewrite Hd2 in Hd3.
      destruct (IH (attempt + 1) report w3 ltac:(lia) ltac:(lia) Hd3)
        as (w' & E & Hw' & Hs'); [rewrite Hw3, Hw2; exact Ha2|].
      exists w'. rewrite Hw3, Hw2 in E, Hw'. rewrite Hs3 in Hs'.
      split; [|split; [exact Hw'|exact Hs']].
      rewrite E. replace (S n - 1)%nat with (S (n - 1)) by lia. reflexivity. }
  rewrite <- Hw1 in Ha |- *. rewrite <- Hs1.
  unfold bind at 1. rewrite Ew. unfold usb_write.
  destruct (writes (bus w1)) as [|r ws]; [discriminate Ha|].
  destruct r; [discriminate Ha| |]; cbn [all_fail] in Ha; cbn [skipn].
  - apply (G WTimeout ws
             (mkWorld (ses w1)
                (mkUsb (present (bus w1)) (claimable (bus w1)) ws
                   (reads (bus w1)) (sent (bus w1)))) Hd1 eq_refl Ha).
  - apply (G WError ws
             (mkWorld (ses w1)
                (mkUsb (present (bus w1)) (claimable (bus w1)) ws
                   (reads (bus w1)) (sent (bus w1)))) Hd1 eq_refl Ha).
Qed.

(** What a command without a given id does to the transport. *)
Lemma send_cmd_outcome (t : Z) (w : world) :
  0 <= t < 256 -> dev (ses w) = true ->
  let c := cmd_id (ses w) mod 0x7F + 1 in
  let p := packet_idx (ses w) mod 15 + 1 in
  let report :=
    report_of p 1 1 (pack_H PACK_START ++ [c] ++ [t] ++ pack_H PACK_END) in
  (all_fail 5 (writes (bus w)) = false ->
     exists w',
       _send_cmd t None w = (Ret c, w')
       /\ sent (bus w') = sent (bus w) ++ [report]
       /\ dev (ses w') = true)
  /\ (all_fail 5 (writes (bus w)) = true ->
      exists w',
        _send_cmd t None w
        = (Raise (write_error (nth 4 (writes (bus w)) WOk)), w')
        /\ writes (bus w') = skipn 5 (writes (bus w))
        /\ sent (bus w') = sent (bus w)
        /\ is_usb_error (write_error (nth 4 (writes (bus w)) WOk)) = true).
Proof.
  intros Ht Hd c p report. unfold _send_cmd.
  set (w1 := mkWorld (set_cmd_id c (ses w)) (bus w)).
  rewrite (bind_ret_fwd _get_cmd_id _ w w1 c eq_refl).
  assert (Hc : 1 <= c <= 127) by (apply mod_succ_range; lia).
  rewrite (bind_ret_fwd _ _ _ _ _ (pack_B_ok c w1 ltac:(lia))).
  rewrite (bind_ret_fwd _ _ _ _ _ (pack_B_ok t w1 Ht)).
  set (packet := pack_H PACK_START ++ [c] ++ [t] ++ pack_H PACK_END).
  assert (Hl : (0 < length packet <= 56)%nat) by (simpl; lia).
  set (w2 := mkWorld (set_packet_idx p (ses w1)) (bus w1)).
  assert (Er : _send_report packet w1
               = (write_retry 5 0 report ;; ret tt) w2)
    by (apply (send_report_single packet w1 Hl)).
  split; intros Ha.
  - destruct (write_retry_run 5 0 report w2 ltac:(lia) ltac:(lia) Hd)
      as [_ Hok].
    destruct (Hok Ha) as (w' & Ew). exists w'.
    unfold bind at 1. rewrite Er. rewrite (bind_ret_fwd _ _ _ _ _ Ew).
    split; [reflexivity|].
    apply write_retry_sent in Ew; [|lia|lia].
    destruct Ew as [Es (Hd' & _)]. split; [exact Es|].
    rewrite Hd'. exact Hd.
  - destruct (write_retry_fails 5 0 report w2 ltac:(lia) ltac:(lia) Hd Ha)
      as (w' & Ew & Hw' & Hs').
    exists w'. split; [|split; [exact Hw'|split; [exact Hs'|]]].
    + apply bind_raise_fwd. rewrite Er. apply bind_raise_fwd. exact Ew.
    + destruct (nth 4 (writes (bus w)) WOk); reflexivity.
Qed.

Lemma all_fail_add (a b : nat) :
  forall ws, all_fail (a + b) ws = all_fail a ws && all_fail b (skipn a ws).
Proof.
  induction a as [|a IH]; intros ws; [reflexivity|].
  destruct ws as [|[| |] ws]; simpl; try reflexivity; apply IH.
Qed.

End Transport.

(** ** Opening and closing the session *)

Section OpenClose.

Lemma open_attempts_S (n : nat) (w : world) :
  open_attempts (S n) w
  = match (_send_cmd CMD_SEND_MODE None ;; blocked ;;
           modify (set_device_state STATE_SEND)) w with
    | (Ret _, w') => (Ret true, w')
    | (Raise e, w') =>
        if is_usb_error e then (blocked ;; open_attempts n) w'
        else (Raise e, w')
    end.
Proof. reflexivity. Qed.

(** The attempts of [open] fail together exactly when every write of
    every attempt fails; a failure leaves the device state alone and a
    success sets it to [STATE_SEND]. *)
Lemma open_attempts_run (n : nat) :
  forall w : world,
    dev (ses w) = true ->
    (all_fail (n * 5) (writes (bus w)) = true ->
       exists w', open_attempts n w = (Ret false, w')
                  /\ device_state (ses w') = device_state (ses w))
    /\ (all_fail (n * 5) (writes (bus w)) = false ->
        exists w', open_attempts n w = (Ret true, w')
                   /\ device_state (ses w') = STATE_SEND).
Proof.
  induction n as [|n IH]; intros w Hd.
  - split; [|intros H; discriminate H].
    intros _. exists w. split; reflexivity.
  - change (S n * 5)%nat with (5 + n * 5)%nat. rewrite all_fail_add.
    rewrite open_attempts_S.
    destruct (send_cmd_run CMD_SEND_MODE w ltac:(unfold CMD_SEND_MODE; lia) Hd)
      as [Hfail Hok].
    pose proof (ds_send_cmd CMD_SEND_MODE None w) as Hds.
    destruct (all_fail 5 (writes (bus w))) eqn:E5; cbn [andb].
    + destruct (Hfail eq_refl) as (e & w1 & Ec & He & Hw1 & Hd1).
      rewrite Ec in Hds. destruct Hds as (_ & Hs1 & _). simpl in Hs1.
      rewrite (bind_raise_fwd _ _ _ _ _ Ec). rewrite He.
      destruct (blocked_spec w1) as (s2 & rs2 & Eb & (Hd2 & _ & _ & Hs2 & _) & _).
      rewrite (bind_ret_fwd _ _ _ _ _ Eb).
      match goal with
      | |- context [open_attempts n ?w2] =>
          destruct (IH w2) as [I1 I2]; [simpl; congruence|]
      end.
      simpl in I1, I2.
      split; intros Ha; rewrite <- Hw1 in Ha.
      * destruct (I1 Ha) as (w' & E' & Hs'). exists w'.
        split; [exact E'|]. rewrite Hs'. congruence.
      * apply I2, Ha.
    + split; [intros H; discriminate H|]. intros _.
      destruct (Hok eq_refl) as (c & w1 & Ec).
      rewrite (bind_ret_fwd _ _ _ _ _ Ec).
      destruct (blocked_spec w1) as (s2 & rs2 & Eb & _).
      rewrite (bind_ret_fwd _ _ _ _ _ Eb).
      eexists. split; reflexivity.
Qed.

(** [open] once the dongle is found and its interface claimed. *)
Lemma open_claimed (w : world) :
  present (bus w) = true -> claimable (bus w) = true ->
  open w
  = (blocked ;; open_attempts 3)
      (mkWorld (start_reader (set_dev true (ses w)))
         (mkUsb (present (bus w)) (claimable (bus w)) (writes (bus w))
            (skipn 10 (reads (bus w))) (sent (bus w)))).
Proof.
  destruct w as [s [p cl ws rs st]]. cbn [bus present claimable].
  intros -> ->. reflexivity.
Qed.

(** [open] when the interface cannot be claimed: the handle is kept,
    nothing else has happened. *)
Lemma open_unclaimed (w : world) :
  present (bus w) = true -> claimable (bus w) = false ->
  open w = (Raise USBError, mkWorld (set_dev true (ses w)) (bus w)).
Proof.
  destruct w as [s [p cl ws rs st]]. cbn [bus present claimable].
  intros -> ->. reflexivity.
Qed.

(** [open]: no device, or a device and fifteen failing writes, give
    [False]; an interface that cannot be claimed raises; anything else
    gives [True] and the state [STATE_SEND]. *)
Lemma open_run (w : world) :
  (present (bus w) = false ->
     exists w', open w = (Ret false, w')
                /\ device_state (ses w') = device_state (ses w))
  /\ (present (bus w) = true -> claimable (bus w) = false ->
      exists w', open w = (Raise USBError, w')
                 /\ device_state (ses w') = device_state (ses w))
  /\ (present (bus w) = true -> claimable (bus w) = true ->
      all_fail 15 (writes (bus w)) = true ->
      exists w', open w = (Ret false, w')
                 /\ device_state (ses w') = device_state (ses w))
  /\ (present (bus w) = true -> claimable (bus w) = true ->
      all_fail 15 (writes (bus w)) = false ->
      exists w', open w = (Ret true, w')
                 /\ device_state (ses w') = STATE_SEND).
Proof.
  split; [|split].
  - intros Hp. unfold open. rewrite Hp. eexists. split; reflexivity.
  - intros Hp Hc. rewrite (open_unclaimed w Hp Hc). eexists.
    split; reflexivity.
  - assert (G : present (bus w) = true -> claimable (bus w) = true ->
      (all_fail 15 (writes (bus w)) = true ->
         exists w', open w = (Ret false, w')
                    /\ device_state (ses w') = device_state (ses w))
      /\ (all_fail 15 (writes (bus w)) = false ->
          exists w', open w = (Ret true, w')
                     /\ device_state (ses w') = STATE_SEND)).
    { intros Hp Hc. rewrite (open_claimed w Hp Hc).
      match goal with
      | |- context [(blocked ;; open_attempts 3) ?w0] => set (w3 := w0)
      end.
      destruct (blocked_spec w3)
        as (s4 & rs4 & Eb & (Hd4 & _ & _ & Hs4 & _) & _).
      rewrite (bind_ret_fwd _ _ _ _ _ Eb).
      match goal with
      | |- context [open_attempts 3 ?w4] =>
          destruct (open_attempts_run 3 w4) as [I1 I2]; [simpl; exact Hd4|]
      end.
      simpl in I1, I2, Hs4. rewrite Hs4 in I1.
      split; intros Ha; [apply I1, Ha|apply I2, Ha]. }
    split; intros Hp Hc Ha; apply (G Hp Hc); exact Ha.
Qed.

(** [close] on a session with a handle. *)
Lemma close_run (w : world) :
  dev (ses w) = true ->
  exists w',
    close w = (Ret tt, w')
    /\ dev (ses w') = false
    /\ read_active (ses w') = false
    /\ device_state (ses w') = device_state (ses w)
    /\ (read_thread (ses w) = false -> read_thread (ses w') = false)
    /\ ((received_packets (ses w') = received_packets (ses w)
         /\ packet_event (ses w') = packet_event (ses w))
        \/ (read_thread (ses w) = true /\ read_thread (ses w') = false
            /\ exists p,
                 received_packets (ses w') = received_packets (ses w) ++ [p]
                 /\ packet_event (ses w') = true)).
Proof.
  intros Hd. unfold close.
  assert (Eg : get_ses w = (Ret (ses w), w)) by reflexivity.
  rewrite (bind_ret_fwd _ _ _ _ _ Eg). rewrite Hd.
  set (w1 := mkWorld (set_read_active false (ses w)) (bus w)).
  assert (Em : modify (set_read_active false) w = (Ret tt, w1)) by reflexivity.
  rewrite (bind_ret_fwd _ _ _ _ _ Em).
  assert (Hq : keeps quiet (try_pass (_send_cmd CMD_IDLE_MODE None ;; ret tt))).
  { apply (keeps_try_pass quiet).
    apply (keeps_bind quiet quiet_trans); [apply quiet_send_cmd|].
    intros _. apply (keeps_ret quiet quiet_refl). }
  specialize (Hq w1 eq_refl).
  assert (Et : exists w2,
             try_pass (_send_cmd CMD_IDLE_MODE None ;; ret tt) w1 = (Ret tt, w2)).
  { unfold try_pass.
    destruct ((_send_cmd CMD_IDLE_MODE None ;; ret tt) w1) as [[u|e] w2];
      eexists; reflexivity. }
  destruct Et as (w2 & Et). rewrite Et in Hq. cbn [snd] in Hq.
  destruct Hq as (H1 & H2 & H3 & H4 & H5).
  rewrite (bind_ret_fwd _ _ _ _ _ Et).
  eexists. split; [reflexivity|].
  cbn [ses dev read_active device_state read_thread received_packets
       packet_event set_dev].
  split; [reflexivity|]. split; [exact H1|]. split; [exact H3|].
  split; [exact H4|]. exact H5.
Qed.

(** What [close] does to the transport: the idle command goes out
    once, or five writes fail. *)
Lemma close_bus (w : world) :
  dev (ses w) = true ->
  let c := cmd_id (ses w) mod 0x7F + 1 in
  let p := packet_idx (ses w) mod 15 + 1 in
  let report :=
    report_of p 1 1
      (pack_H PACK_START ++ [c] ++ [CMD_IDLE_MODE] ++ pack_H PACK_END) in
  (all_fail 5 (writes (bus w)) = false ->
     sent (bus (snd (close w))) = sent (bus w) ++ [report])
  /\ (all_fail 5 (writes (bus w)) = true ->
      sent (bus (snd (close w))) = sent (bus w)
      /\ writes (bus (snd (close w))) = skipn 5 (writes (bus w))).
Proof.
  intros Hd c p report. unfold close.
  rewrite (bind_ret_fwd get_ses _ w w (ses w) eq_refl). rewrite Hd.
  set (w1 := mkWorld (set_read_active false (ses w)) (bus w)).
  rewrite (bind_ret_fwd (modify (set_read_active false)) _ w w1 tt eq_refl).
  destruct (send_cmd_outcome CMD_IDLE_MODE w1
              ltac:(unfold CMD_IDLE_MODE; lia) Hd) as [Hok Hfail].
  split; intros Ha.
  - destruct (Hok Ha) as (w2 & E & Hs & _).
    assert (Et : try_pass (_send_cmd CMD_IDLE_MODE None ;; ret tt) w1
                 = (Ret tt, w2))
      by (unfold try_pass, bind; rewrite E; reflexivity).
    rewrite (bind_ret_fwd _ _ _ _ _ Et). exact Hs.
  - destruct (Hfail Ha) as (w2 & E & Hw & Hs & _).
    assert (Et : try_pass (_send_cmd CMD_IDLE_MODE None ;; ret tt) w1
                 = (Ret tt, w2))
      by (unfold try_pass, bind; rewrite E; reflexivity).
    rewrite (bind_ret_fwd _ _ _ _ _ Et). split; [exact Hs|exact Hw].
Qed.

End OpenClose.

(** C2, as stated, fails: with a dongle that takes the writes and
    never sends anything back, [open] returns [True] on the first
    attempt; it sends the command with [_send_cmd] and does not look
    for a reply. *)
Lemma open_without_reply_returns_true :
  fst (open (mkWorld init (mkUsb true true [] [] []))) = Ret true
  /\ received_packets
       (ses (snd (open (mkWorld init (mkUsb true true [] [] []))))) = []
  /\ length (sent (bus (snd (open (mkWorld init (mkUsb true true [] [] []))))))
     = 1%nat.
Proof. vm_compute. repeat split. Qed.

(** C2, amended.  [open] returns [False] exactly when the dongle is
    not found, or its interface is claimed and all fifteen writes of
    the three set-send-mode attempts (five tries each) time out or
    fail; it returns [True] as soon as one write goes through, reply
    or not.  When the dongle is found and its interface cannot be
    claimed, [open] does not return: it raises [USBError]. *)
Theorem open_result (w : world) :
  fst (open w)
  = if present (bus w) then
      if claimable (bus w)
      then Ret (negb (all_fail 15 (writes (bus w))))
      else Raise USBError
    else Ret false.
Proof.
  destruct (open_run w) as (H0 & Hc & H1 & H2).
  destruct (present (bus w)).
  - destruct (claimable (bus w)).
    + destruct (all_fail 15 (writes (bus w))).
      * destruct (H1 eq_refl eq_refl eq_refl) as (w' & E & _).
        rewrite E. reflexivity.
      * destruct (H2 eq_refl eq_refl eq_refl) as (w' & E & _).
        rewrite E. reflexivity.
    + destruct (Hc eq_refl eq_refl) as (w' & E & _). rewrite E. reflexivity.
  - destruct (H0 eq_refl) as (w' & E & _). rewrite E. reflexivity.
Qed.

(** C9, as stated, fails: after opening, a confirmed switch to send
    mode and [close], the reply is still in the inbox and the device
    state is still [STATE_SEND]. *)
Lemma close_keeps_inbox_and_state :
  fst ((open ;; set_mode ModeSend ;; close)
         (mkWorld init
            (mkUsb true true []
               (repeat None 13
                ++ [Some [1; 10; 1; 1; 1; 0x53; 0x54; 2; 83; 9; 0x45; 0x4E]; None])
               [])))
  = Ret tt
  /\ received_packets (ses (snd ((open ;; set_mode ModeSend ;; close)
         (mkWorld init
            (mkUsb true true []
               (repeat None 13
                ++ [Some [1; 10; 1; 1; 1; 0x53; 0x54; 2; 83; 9; 0x45; 0x4E]; None])
               [])))))
     = [[2; 83; 9]]
  /\ device_state (ses (snd ((open ;; set_mode ModeSend ;; close)
         (mkWorld init
            (mkUsb true true []
               (repeat None 13
                ++ [Some [1; 10; 1; 1; 1; 0x53; 0x54; 2; 83; 9; 0x45; 0x4E]; None])
               [])))))
     = STATE_SEND.
Proof. vm_compute. repeat split. Qed.

(** C9, amended.  [close] on a session with a handle returns without
    raising, with [read_active] cleared and the handle dropped.  The
    idle command has been tried: its report has gone out once, or
    five writes have failed and nothing has gone out.  The device
    state is what it was.  The inbox is not cleared: it holds what it
    held, and one packet more if the read the thread was in came back
    with the last fragment of one, the event being raised then; with
    no thread left, inbox and event are what they were. *)
Theorem close_effect (w : world) :
  dev (ses w) = true ->
  let w' := snd (close w) in
  let c := cmd_id (ses w) mod 0x7F + 1 in
  let p := packet_idx (ses w) mod 15 + 1 in
  let report :=
    report_of p 1 1
      (pack_H PACK_START ++ [c] ++ [CMD_IDLE_MODE] ++ pack_H PACK_END) in
  fst (close w) = Ret tt
  /\ dev (ses w') = false
  /\ read_active (ses w') = false
  /\ device_state (ses w') = device_state (ses w)
  /\ (all_fail 5 (writes (bus w)) = false ->
      sent (bus w') = sent (bus w) ++ [report])
  /\ (all_fail 5 (writes (bus w)) = true ->
      sent (bus w') = sent (bus w)
      /\ writes (bus w') = skipn 5 (writes (bus w)))
  /\ (read_thread (ses w) = false ->
      received_packets (ses w') = received_packets (ses w)
      /\ packet_event (ses w') = packet_event (ses w))
  /\ ((received_packets (ses w') = received_packets (ses w)
       /\ packet_event (ses w') = packet_event (ses w))
      \/ exists pkt,
           received_packets (ses w') = received_packets (ses w) ++ [pkt]
           /\ packet_event (ses w') = true).
Proof.
  intros Hd w' c p report.
  destruct (close_bus w Hd) as [Bok Bfail].
  destruct (close_run w Hd) as (w2 & E & H1 & H2 & H3 & H4 & H5).
  unfold w'. rewrite E in *. cbn [fst snd] in *.
  split; [reflexivity|]. split; [exact H1|]. split; [exact H2|].
  split; [exact H3|]. split; [exact Bok|]. split; [exact Bfail|].
  split.
  - intros Ht. destruct H5 as [H5|(Ht' & _)]; [exact H5|congruence].
  - destruct H5 as [H5|(_ & _ & pkt & H5)]; [left; exact H5|].
    right. exists pkt. exact H5.
Qed.

(** A session whose reader is in a read that comes back with a
    one-fragment packet while [close] runs, on a transport whose first
    two writes fail: the handle is dropped, the idle command has gone
    out at the third try, the old packet is still in the inbox and the
    new one has joined it. *)
Lemma close_effect_witness :
  let w :=
    world_of (mkSession true 2 2 9 true true [[2; 83; 9]] false [] 1 0 1)
      [WTimeout; WError]
      [Some [1; 10; 3; 1; 1; 0x53; 0x54; 7; 68; 5; 0x45; 0x4E]] in
  dev (ses (snd (close w))) = false
  /\ device_state (ses (snd (close w))) = 9
  /\ sent (bus (snd (close w)))
     = [report_of 3 1 1 [0x53; 0x54; 3; 76; 0x45; 0x4E]]
  /\ received_packets (ses (snd (close w))) = [[2; 83; 9]; [7; 68; 5]].
Proof.
  intros w.
  destruct (close_effect w eq_refl) as (_ & H1 & _ & H2 & H3 & _ & _ & H4).
  split; [exact H1|]. split; [exact H2|]. split; [exact (H3 eq_refl)|].
  destruct H4 as [[H4 _]|(pkt & H4 & _)]; vm_compute in H4 |- *.
  - discriminate H4.
  - reflexivity.
Defined.

(** ** Who writes the device state *)

Lemma ds_bind {A B} (c : M A) (k : A -> M B) :
  keeps ds_same c -> (forall a, keeps ds_same (k a)) -> keeps ds_same (bind c k).
Proof. apply (keeps_bind ds_same ds_same_trans). Qed.

Lemma ds_ret {A} (a : A) : keeps ds_same (ret a).
Proof. apply (keeps_ret ds_same ds_same_refl). Qed.

Lemma ds_if {A} (b : bool) (c1 c2 : M A) :
  keeps ds_same c1 -> keeps ds_same c2 -> keeps ds_same (if b then c1 else c2).
Proof. apply (keeps_if ds_same). Qed.

Lemma ds_bytes_of (l : list Z) : keeps ds_same (bytes_of l).
Proof. apply (keeps_bytes_of ds_same ds_same_refl). Qed.

Lemma ds_pack_B (v : Z) : keeps ds_same (pack_B v).
Proof. apply (keeps_pack_B ds_same ds_same_refl). Qed.

Lemma ds_get_ses : keeps ds_same get_ses.
Proof. apply (keeps_get_ses ds_same ds_same_refl). Qed.

(** Peels one link off a chain of binds, the link being kept by [H]. *)
Ltac ds_link H := apply ds_bind; [apply H|intros ?].

Section DeviceState.

Lemma ds_set_event (ev : bool) : keeps ds_same (modify (set_event ev)).
Proof. apply ds_modify. intros s. repeat split. Qed.

Lemma ds_wait_ack (polls : nat) : forall c, keeps ds_same (wait_ack polls c).
Proof.
  induction polls as [|polls IH]; intros c; cbn [wait_ack]; [apply ds_ret|].
  apply ds_bind; [apply ds_blocked|]. intros _.
  apply ds_bind; [apply ds_get_ses|]. intros s.
  apply ds_if; [|apply IH].
  destruct (find_packet (is_output_ack c) (received_packets s));
    [apply ds_ret|].
  apply ds_bind; [apply ds_set_event|]. intros _. apply IH.
Qed.

Lemma ds_wait_data (polls : nat) : keeps ds_same (wait_data polls).
Proof.
  induction polls as [|polls IH]; cbn [wait_data]; [apply ds_ret|].
  apply ds_bind; [apply ds_blocked|]. intros _.
  apply ds_bind; [apply ds_get_ses|]. intros s.
  apply ds_if; [|apply IH].
  destruct (find_packet is_data (received_packets s)); [apply ds_ret|].
  apply ds_bind; [apply ds_set_event|]. intros _. apply IH.
Qed.

(** The state a command leaves is the state its first part leaves
    when the rest keeps it. *)
Lemma bind_snd_ds {A B} (c : M A) (k : A -> M B) (w : world) :
  (forall a, keeps ds_same (k a)) ->
  device_state (ses (snd (bind c k w))) = device_state (ses (snd (c w))).
Proof.
  intros Hk. unfold bind. destruct (c w) as [[a|e] w1]; [|reflexivity].
  apply (Hk a w1).
Qed.

(** The wait loop writes the state only next to a matching reply. *)
Lemma wait_reply_run (polls : nat) :
  forall (c t : Z) (w : world),
    exists r w',
      wait_reply polls c t w = (r, w')
      /\ ((r = Ret false /\ device_state (ses w') = device_state (ses w))
          \/ (r = Ret true
              /\ exists pkt,
                   In pkt (received_packets (ses w'))
                   /\ is_reply c t pkt = true
                   /\ device_state (ses w')
                      = if (length pkt <? 3)%nat then device_state (ses w)
                        else byte_at pkt 2)).
Proof.
  induction polls as [|polls IH]; intros c t w; cbn [wait_reply].
  - exists (Ret false), w. split; [reflexivity|]. left. split; reflexivity.
  - destruct (blocked_spec w) as (s1 & rs1 & Eb & (_ & _ & _ & Hs1 & _) & _).
    rewrite (bind_ret_fwd _ _ _ _ _ Eb).
    set (w1 := mkWorld s1 _).
    assert (Eg : get_ses w1 = (Ret s1, w1)) by reflexivity.
    rewrite (bind_ret_fwd _ _ _ _ _ Eg).
    destruct (packet_event s1).
    + destruct (find_packet (is_reply c t) (received_packets s1)) as [pkt|] eqn:Ef.
      * apply find_some in Ef. destruct Ef as [Hin Hrep].
        destruct (length pkt <? 3)%nat eqn:E3.
        -- exists (Ret true), w1. split; [reflexivity|]. right.
           split; [reflexivity|]. exists pkt. rewrite E3.
           repeat split; assumption.
        -- eexists (Ret true), _. split; [reflexivity|]. right.
           split; [reflexivity|]. exists pkt. rewrite E3.
           repeat split; assumption.
      * set (w2 := mkWorld (set_event false s1) (bus w1)).
        assert (Em : modify (set_event false) w1 = (Ret tt, w2)) by reflexivity.
        rewrite (bind_ret_fwd _ _ _ _ _ Em).
        destruct (IH c t w2) as (r & w' & E & H). exists r, w'.
        split; [exact E|]. simpl in H. rewrite Hs1 in H. exact H.
    + destruct (IH c t w1) as (r & w' & E & H). exists r, w'.
      split; [exact E|]. simpl in H. rewrite Hs1 in H. exact H.
Qed.

(** [_send_cmd_wait]: the state changes only on the path that returns
    [True], and then to the third byte of a packet of the inbox that
    carries the id and the type of this command. *)
Lemma send_cmd_wait_run (t : Z) (polls : nat) (w : world) :
  let r := fst (_send_cmd_wait t polls w) in
  let w' := snd (_send_cmd_wait t polls w) in
  (r = Ret true
   /\ exists pkt,
        In pkt (received_packets (ses w'))
        /\ is_reply (cmd_id (ses w) mod 0x7F + 1) t pkt = true
        /\ device_state (ses w')
           = if (length pkt <? 3)%nat then device_state (ses w)
             else byte_at pkt 2)
  \/ (r <> Ret true /\ device_state (ses w') = device_state (ses w)).
Proof.
  unfold _send_cmd_wait.
  set (c := cmd_id (ses w) mod 127 + 1).
  set (w2 := mkWorld (set_inbox [] false (set_cmd_id c (ses w))) (bus w)).
  change ((cmd_id <- _get_cmd_id ;; clear_inbox ;;
           _send_cmd t (Some cmd_id) ;; wait_reply polls cmd_id t) w)
    with ((_send_cmd t (Some c) ;; wait_reply polls c t) w2).
  pose proof (ds_send_cmd t (Some c) w2) as (_ & Hs3 & _).
  unfold bind. destruct (_send_cmd t (Some c) w2) as [[c'|e] w3]; simpl in Hs3.
  - destruct (wait_reply_run polls c t w3) as (r & w' & E & H).
    rewrite E. simpl. rewrite Hs3 in H. simpl in H.
    destruct H as [[-> H]|[-> H]].
    + right. split; [discriminate|exact H].
    + left. split; [reflexivity|exact H].
  - right. simpl. split; [discriminate|exact Hs3].
Qed.

End DeviceState.

Section Operations.

Lemma send_ir_state (ir_data : list Z) (freq : Z) (w : world) :
  device_state (ses (snd (send_ir ir_data freq w)))
  = if device_state (ses w) =? STATE_SEND then device_state (ses w)
    else device_state (ses (snd (_send_cmd_wait CMD_SEND_MODE REPLY_POLLS w))).
Proof.
  unfold send_ir.
  rewrite (bind_ret_fwd get_ses _ w w (ses w) eq_refl).
  rewrite bind_snd_ds.
  - destruct (device_state (ses w) =? STATE_SEND); reflexivity.
  - intros switched. apply ds_if; [apply ds_ret|].
    ds_link ds_cmd_id. ds_link ds_pack_B. ds_link ds_pack_B.
    ds_link ds_bytes_of. ds_link ds_clear_inbox. ds_link ds_send_report.
    apply ds_wait_ack.
Qed.

Lemma receive_ir_state (polls : nat) (w : world) :
  device_state (ses (snd (receive_ir polls w)))
  = match _send_cmd_wait CMD_RECV_MODE REPLY_POLLS w with
    | (Ret true, w1) =>
        device_state (ses (snd (_send_cmd_wait CMD_CANCEL REPLY_POLLS w1)))
    | (_, w1) => device_state (ses w1)
    end.
Proof.
  unfold receive_ir. unfold bind at 1.
  destruct (_send_cmd_wait CMD_RECV_MODE REPLY_POLLS w) as [[[|]|e] w1];
    try reflexivity.
  cbn [negb]. apply bind_snd_ds. intros _.
  ds_link ds_clear_inbox. ds_link ds_send_cmd. apply ds_wait_data.
Qed.

Lemma close_state (w : world) :
  device_state (ses (snd (close w))) = device_state (ses w).
Proof.
  destruct (dev (ses w)) eqn:Hd.
  - destruct (close_run w Hd) as (w' & E & _ & _ & H & _).
    rewrite E. exact H.
  - unfold close. rewrite (bind_ret_fwd get_ses _ w w (ses w) eq_refl).
    rewrite Hd. reflexivity.
Qed.

Lemma open_state (w : world) :
  (fst (open w) = Ret true
   /\ device_state (ses (snd (open w))) = STATE_SEND)
  \/ ((fst (open w) = Ret false \/ fst (open w) = Raise USBError)
      /\ device_state (ses (snd (open w))) = device_state (ses w)).
Proof.
  destruct (open_run w) as (H0 & Hc & H1 & H2).
  destruct (present (bus w)).
  - destruct (claimable (bus w)).
    + destruct (all_fail 15 (writes (bus w))).
      * destruct (H1 eq_refl eq_refl eq_refl) as (w' & E & H). rewrite E.
        right. split; [left; reflexivity|exact H].
      * destruct (H2 eq_refl eq_refl eq_refl) as (w' & E & H). rewrite E.
        left. split; [reflexivity|exact H].
    + destruct (Hc eq_refl eq_refl) as (w' & E & H). rewrite E.
      right. split; [right; reflexivity|exact H].
  - destruct (H0 eq_refl) as (w' & E & H). rewrite E. right.
    split; [left; reflexivity|exact H].
Qed.

End Operations.

(** C3, as stated, fails: [open] on a dongle that takes the writes and
    sends nothing moves the device state from 0 to [STATE_SEND] while
    nothing has been read and the inbox is empty. *)
Lemma open_sets_state_without_reply :
  device_state (ses (mkWorld init (mkUsb true true [] [] []))) = 0
  /\ device_state (ses (snd (open (mkWorld init (mkUsb true true [] [] [])))))
     = STATE_SEND
  /\ received_packets (ses (snd (open (mkWorld init (mkUsb true true [] [] [])))))
     = [].
Proof. vm_compute. repeat split. Qed.

(** C3, amended.  The device state is written in two places.
    [_send_cmd_wait] writes it only on the path that returns [True],
    next to a packet of the inbox that carries the id and the type of
    the command, and the value is that packet's third byte.  [open]
    writes [STATE_SEND] once a set-send-mode command has been sent,
    without a reply, and leaves the state alone when it returns
    [False] or raises.  Nothing else writes it: the reader, [close],
    [_send_cmd] and [_send_report] leave it alone, and [set_mode],
    [send_ir] and [receive_ir] leave what their [_send_cmd_wait] calls
    left. *)
Theorem device_state_writes (w : world) :
  (forall (t : Z) (polls : nat),
     let r := fst (_send_cmd_wait t polls w) in
     let w' := snd (_send_cmd_wait t polls w) in
     (r = Ret true
      /\ exists pkt,
           In pkt (received_packets (ses w'))
           /\ is_reply (cmd_id (ses w) mod 0x7F + 1) t pkt = true
           /\ device_state (ses w')
              = if (length pkt <? 3)%nat then device_state (ses w)
                else byte_at pkt 2)
     \/ (r <> Ret true /\ device_state (ses w') = device_state (ses w)))
  /\ ((fst (open w) = Ret true
       /\ device_state (ses (snd (open w))) = STATE_SEND)
      \/ ((fst (open w) = Ret false \/ fst (open w) = Raise USBError)
          /\ device_state (ses (snd (open w))) = device_state (ses w)))
  /\ device_state (ses (snd (close w))) = device_state (ses w)
  /\ (forall data,
        device_state (_process_recv_data (ses w) data) = device_state (ses w))
  /\ device_state (ses (snd (blocked w))) = device_state (ses w)
  /\ (forall t c,
        device_state (ses (snd (_send_cmd t c w))) = device_state (ses w))
  /\ (forall data,
        device_state (ses (snd (_send_report data w))) = device_state (ses w))
  /\ (forall m,
        set_mode m w
        = _send_cmd_wait
            (match m with
             | ModeSend => CMD_SEND_MODE
             | ModeReceive => CMD_RECV_MODE
             | ModeIdle => CMD_IDLE_MODE
             end) REPLY_POLLS w)
  /\ (forall ir_data freq,
        device_state (ses (snd (send_ir ir_data freq w)))
        = if device_state (ses w) =? STATE_SEND then device_state (ses w)
          else device_state
                 (ses (snd (_send_cmd_wait CMD_SEND_MODE REPLY_POLLS w))))
  /\ (forall polls,
        device_state (ses (snd (receive_ir polls w)))
        = match _send_cmd_wait CMD_RECV_MODE REPLY_POLLS w with
          | (Ret true, w1) =>
              device_state
                (ses (snd (_send_cmd_wait CMD_CANCEL REPLY_POLLS w1)))
          | (_, w1) => device_state (ses w1)
          end).
Proof.
  split; [intros t polls; apply send_cmd_wait_run|].
  split; [apply open_state|].
  split; [apply close_state|].
  split; [intros data; apply (process_fg (ses w) data)|].
  split; [apply (ds_blocked w)|].
  split; [intros t c; apply (ds_send_cmd t c w)|].
  split; [intros data; apply (ds_send_report data w)|].
  split; [intros m; reflexivity|].
  split; [intros ir_data freq; apply send_ir_state|].
  intros polls. apply receive_ir_state.
Qed.

(** A switch to send mode answered by the reply [id 1, 'S', state 9]. *)
Lemma device_state_writes_witness :
  device_state
    (ses (snd (_send_cmd_wait CMD_SEND_MODE REPLY_POLLS
                 (world_of (start_reader (set_dev true init)) []
                    [Some [1; 10; 7; 1; 1; 0x53; 0x54; 1; 83; 9; 0x45; 0x4E];
                     None]))))
  = STATE_SEND.
Proof.
  destruct (proj1 (device_state_writes
              (world_of (start_reader (set_dev true init)) []
                 [Some [1; 10; 7; 1; 1; 0x53; 0x54; 1; 83; 9; 0x45; 0x4E];
                  None])) CMD_SEND_MODE REPLY_POLLS)
    as [(_ & pkt & Hin & _ & Hs)|(Hr & _)].
  - rewrite Hs. vm_compute in Hin. destruct Hin as [<-|[]]. reflexivity.
  - exfalso. apply Hr. vm_compute. reflexivity.
Defined.

(** * Further properties *)

(** ** The encoder's running remainder *)

Section Encoder.

Lemma check_upto_spec (f : Z -> bool) (n : nat) :
  forall lo : Z,
    check_upto f n lo = true ->
    forall k, lo <= k < lo + Z.of_nat n -> f k = true.
Proof.
  induction n as [|n IH]; intros lo H k Hk; [lia|].
  cbn [check_upto] in H. apply andb_prop in H. destruct H as [H0 H1].
  destruct (Z.eq_dec k lo) as [->|Hne]; [exact H0|].
  apply (IH (lo + 1) H1). lia.
Qed.

(** What one block looks like, with and without the high bit. *)
Lemma block_bytes (b : Z) :
  1 <= b <= 127 ->
  Z.land b 0x7F = b /\ Z.land b 0x80 = 0
  /\ Z.land (Z.lor b 0x80) 0x7F = b /\ Z.land (Z.lor b 0x80) 0x80 = 0x80
  /\ 128 <= Z.lor b 0x80 < 256.
Proof.
  intros Hb.
  assert (H : check_upto
                (fun b => (Z.land b 0x7F =? b) && (Z.land b 0x80 =? 0)
                          && (Z.land (Z.lor b 0x80) 0x7F =? b)
                          && (Z.land (Z.lor b 0x80) 0x80 =? 0x80)
                          && (128 <=? Z.lor b 0x80) && (Z.lor b 0x80 <? 256))
                127 1 = true) by (vm_compute; reflexivity).
  assert (Hr : 1 <= b < 1 + Z.of_nat 127) by lia. clear Hb.
  apply (check_upto_spec _ _ _ H b) in Hr. rename Hr into Hb.
  repeat (apply andb_prop in Hb; destruct Hb as [Hb ?]).
  repeat split;
    try (apply Z.eqb_eq; assumption);
    try (apply Z.leb_le; assumption);
    try (apply Z.ltb_lt; assumption).
Qed.

Lemma ticks_sum_app (l1 l2 : list Z) :
  ticks_sum (l1 ++ l2) = ticks_sum l1 + ticks_sum l2.
Proof. induction l1 as [|b l1 IH]; simpl; [reflexivity|]. rewrite IH. lia. Qed.

(** The block loop appends to what is there. *)
Lemma emit_blocks_app (fuel : nat) :
  forall (ticks : Z) (is_high : bool) (res : list Z),
    emit_blocks fuel ticks is_high res
    = res ++ emit_blocks fuel ticks is_high [].
Proof.
  induction fuel as [|fuel IH]; intros ticks is_high res; simpl.
  - rewrite app_nil_r. reflexivity.
  - destruct (0 <? ticks); [|rewrite app_nil_r; reflexivity].
    rewrite IH. rewrite (IH _ _ [_]). rewrite app_assoc. reflexivity.
Qed.

(** With [Z.to_nat ticks] turns the loop emits all the ticks, in
    blocks of 1 to 127 ticks that all carry the flag. *)
Lemma emit_blocks_spec (fuel : nat) :
  forall (ticks : Z) (is_high : bool),
    0 <= ticks -> (Z.to_nat ticks <= fuel)%nat ->
    ticks_sum (emit_blocks fuel ticks is_high []) = ticks
    /\ Forall playable (emit_blocks fuel ticks is_high [])
    /\ Forall (fun b => negb (Z.land b 0x80 =? 0) = is_high)
         (emit_blocks fuel ticks is_high []).
Proof.
  induction fuel as [|fuel IH]; intros ticks is_high Ht Hf.
  - simpl. assert (ticks = 0) by lia. subst. repeat split; constructor.
  - cbn [emit_blocks]. destruct (0 <? ticks) eqn:E.
    + apply Z.ltb_lt in E. unfold MAX_BLOCK_SIZE.
      set (block := Z.min ticks 127).
      assert (Hb : 1 <= block <= 127) by (unfold block; lia).
      destruct (block_bytes block Hb) as (L1 & L2 & H1 & H2 & H3).
      rewrite emit_blocks_app.
      destruct (IH (ticks - block) is_high ltac:(unfold block; lia)
                  ltac:(unfold block; lia)) as (I1 & I2 & I3).
      cbn [app ticks_sum]. rewrite I1.
      destruct is_high.
      * rewrite H1. split; [lia|]. split; constructor; try assumption.
        -- unfold playable. rewrite H1. lia.
        -- rewrite H2. reflexivity.
      * rewrite L1. split; [lia|]. split; constructor; try assumption.
        -- unfold playable. rewrite L1. lia.
        -- rewrite L2. reflexivity.
    + apply Z.ltb_ge in E. assert (ticks = 0) by lia. subst.
      repeat split; constructor.
Qed.

Lemma add_pulse_result (count : Z) (is_high : bool) (e : enc) :
  let ticks :=
    (pulse_time e + count * NEC_PULSE_SIZE - sender_time e) / IR_TICK_SIZE in
  result (add_pulse count is_high e)
  = result e ++ emit_blocks (Z.to_nat ticks) ticks is_high []
  /\ pulse_time (add_pulse count is_high e)
     = pulse_time e + count * NEC_PULSE_SIZE
  /\ sender_time (add_pulse count is_high e)
     = sender_time e + ticks * IR_TICK_SIZE.
Proof.
  intros ticks. unfold add_pulse. fold ticks. cbn [result pulse_time sender_time].
  rewrite emit_blocks_app. repeat split.
Qed.

Lemma add_pulse_in_step (count : Z) (is_high : bool) (e : enc) :
  0 <= count -> in_step e ->
  in_step (add_pulse count is_high e)
  /\ pulse_time (add_pulse count is_high e)
     = pulse_time e + count * NEC_PULSE_SIZE
  /\ exists blocks,
       result (add_pulse count is_high e) = result e ++ blocks
       /\ Forall playable blocks
       /\ Forall (fun b => negb (Z.land b 0x80 =? 0) = is_high) blocks.
Proof.
  intros Hc [Hgap Hsum].
  destruct (add_pulse_result count is_high e) as (Er & Ep & Es).
  set (ticks := (pulse_time e + count * NEC_PULSE_SIZE - sender_time e)
                / IR_TICK_SIZE) in *.
  unfold NEC_PULSE_SIZE, IR_TICK_SIZE in *.
  assert (Ht : 0 <= ticks) by (apply Z.div_pos; lia).
  destruct (emit_blocks_spec (Z.to_nat ticks) ticks is_high Ht (le_n _))
    as (S1 & S2 & S3).
  pose proof (Z.div_mod (pulse_time e + count * 1125 - sender_time e) 32
                ltac:(lia)) as Hdm.
  pose proof (Z.mod_pos_bound (pulse_time e + count * 1125 - sender_time e) 32
                ltac:(lia)) as Hmb.
  fold ticks in Hdm.
  split; [|split; [exact Ep|]].
  - unfold in_step, IR_TICK_SIZE. rewrite Er, Ep, Es, ticks_sum_app, S1.
    split; lia.
  - eexists. split; [exact Er|]. split; assumption.
Qed.

End Encoder.

Section EncoderTotals.

Lemma in_step_start : in_step (mkEnc [] 0 0).
Proof. unfold in_step, IR_TICK_SIZE. simpl. lia. Qed.

(** One pulse keeps the encoder in step and its bytes playable. *)
Lemma add_pulse_sound (count : Z) (is_high : bool) (e : enc) :
  0 <= count -> in_step e -> Forall playable (result e) ->
  in_step (add_pulse count is_high e)
  /\ Forall playable (result (add_pulse count is_high e))
  /\ pulse_time (add_pulse count is_high e)
     = pulse_time e + count * NEC_PULSE_SIZE.
Proof.
  intros Hc Hs Hp.
  destruct (add_pulse_in_step count is_high e Hc Hs)
    as (Hs' & Ept & blocks & Er & Hb & _).
  split; [exact Hs'|]. split; [|exact Ept].
  rewrite Er. apply Forall_app. split; assumption.
Qed.

Lemma data_bits_sound (n : nat) :
  forall (full_code : Z) (e : enc),
    in_step e -> Forall playable (result e) ->
    in_step (data_bits n full_code e)
    /\ Forall playable (result (data_bits n full_code e))
    /\ pulse_time (data_bits n full_code e)
       = pulse_time e + bits_units n full_code * NEC_PULSE_SIZE.
Proof.
  induction n as [|n IH]; intros fc e Hs Hp; cbn [data_bits bits_units].
  - split; [exact Hs|]. split; [exact Hp|lia].
  - destruct (add_pulse_sound 1 true e ltac:(lia) Hs Hp) as (S1 & P1 & T1).
    set (c := if Z.land fc 1 =? 0 then 1 else 3).
    assert (Hc : 0 <= c) by (unfold c; destruct (Z.land fc 1 =? 0); lia).
    destruct (add_pulse_sound c false _ Hc S1 P1) as (S2 & P2 & T2).
    destruct (IH (Z.shiftr fc 1) _ S2 P2) as (S3 & P3 & T3).
    split; [exact S3|]. split; [exact P3|]. rewrite T3, T2, T1. fold c. lia.
Qed.

(** In step, the ticks emitted are the whole ticks of the pulse clock. *)
Lemma in_step_ticks (e : enc) :
  in_step e -> ticks_sum (result e) = pulse_time e / IR_TICK_SIZE.
Proof.
  unfold in_step, IR_TICK_SIZE. intros [Hg Hs].
  apply Z.div_unique with (pulse_time e - sender_time e); lia.
Qed.

End EncoderTotals.

(** X1. Whatever pulses are asked for, in whatever order, the bytes
    written so far are all playable and their ticks add up to the whole
    number of device ticks in the time asked for: rounding never
    accumulates. *)
Theorem pulses_no_drift (pulses : list (Z * bool)) :
  Forall (fun p => 0 <= fst p) pulses ->
  let e := fold_left (fun e p => add_pulse (fst p) (snd p) e) pulses
             (mkEnc [] 0 0) in
  Forall playable (result e)
  /\ ticks_sum (result e)
     = fold_right Z.add 0 (map fst pulses) * NEC_PULSE_SIZE / IR_TICK_SIZE.
Proof.
  intros Hp e.
  assert (G : forall e0,
    in_step e0 -> Forall playable (result e0) ->
    let e1 := fold_left (fun e p => add_pulse (fst p) (snd p) e) pulses e0 in
    in_step e1 /\ Forall playable (result e1)
    /\ pulse_time e1
       = pulse_time e0 + fold_right Z.add 0 (map fst pulses) * NEC_PULSE_SIZE).
  { induction Hp as [|[c h] pulses Hc _ IH]; intros e0 Hs0 Hp0; simpl.
    - split; [exact Hs0|]. split; [exact Hp0|lia].
    - simpl in Hc.
      destruct (add_pulse_sound c h e0 Hc Hs0 Hp0) as (S1 & P1 & T1).
      destruct (IH _ S1 P1) as (S2 & P2 & T2).
      split; [exact S2|]. split; [exact P2|]. rewrite T2, T1. lia. }
  destruct (G (mkEnc [] 0 0) in_step_start (Forall_nil _)) as (S1 & P1 & T1).
  fold e in S1, P1, T1. split; [exact P1|].
  rewrite (in_step_ticks e S1), T1. reflexivity.
Qed.

(** The pulses of the repeat code. *)
Lemma pulses_no_drift_witness :
  ticks_sum encode_nec_repeat = 93 * 1125 / 32
  /\ Forall playable encode_nec_repeat.
Proof.
  destruct (pulses_no_drift [(16, true); (4, false); (1, true); (72, false)])
    as [H1 H2].
  - repeat constructor; simpl; lia.
  - split; [exact H2|exact H1].
Defined.

Section FrameTotals.

Lemma encode_frame_sound (full_code : Z) :
  Forall playable (encode_frame full_code)
  /\ ticks_sum (encode_frame full_code)
     = frame_units full_code * NEC_PULSE_SIZE / IR_TICK_SIZE.
Proof.
  assert (G : let e := add_pulse 72 false (add_pulse 1 true
                (data_bits 32 full_code
                   (add_pulse 8 false (add_pulse 16 true (mkEnc [] 0 0))))) in
              in_step e /\ Forall playable (result e)
              /\ pulse_time e = frame_units full_code * NEC_PULSE_SIZE).
  { destruct (add_pulse_sound 16 true _ ltac:(lia) in_step_start (Forall_nil _))
      as (S1 & P1 & T1).
    destruct (add_pulse_sound 8 false _ ltac:(lia) S1 P1) as (S2 & P2 & T2).
    destruct (data_bits_sound 32 full_code _ S2 P2) as (S3 & P3 & T3).
    destruct (add_pulse_sound 1 true _ ltac:(lia) S3 P3) as (S4 & P4 & T4).
    destruct (add_pulse_sound 72 false _ ltac:(lia) S4 P4) as (S5 & P5 & T5).
    split; [exact S5|]. split; [exact P5|].
    rewrite T5, T4, T3, T2, T1. unfold frame_units. cbn [pulse_time]. lia. }
  destruct G as (S1 & P1 & T1).
  split; [exact P1|].
  change (encode_frame full_code) with
    (result (add_pulse 72 false (add_pulse 1 true
       (data_bits 32 full_code
          (add_pulse 8 false (add_pulse 16 true (mkEnc [] 0 0))))))).
  rewrite (in_step_ticks _ S1), T1. reflexivity.
Qed.

Lemma land_255_range (x : Z) : 0 <= Z.land x 0xFF < 0 + Z.of_nat 256.
Proof.
  change (Z.land x 0xFF) with (Z.land x (Z.ones 8)).
  rewrite Z.land_ones by lia. change (2 ^ 8) with 256.
  pose proof (Z.mod_pos_bound x 256 eq_refl). lia.
Qed.

Lemma encode_nec_frame (code : Z) :
  encode_nec code
  = encode_frame
      (standard_frame (Z.land (Z.shiftr code 8) 0xFF) (Z.land code 0xFF)).
Proof. reflexivity. Qed.

(** A standard frame has sixteen 1 bits and sixteen 0 bits: 96 units. *)
Lemma standard_frame_units (addr cmd : Z) :
  0 <= addr < 0 + Z.of_nat 256 -> 0 <= cmd < 0 + Z.of_nat 256 ->
  bits_units 32 (standard_frame addr cmd) = 96.
Proof.
  intros Ha Hc.
  assert (H : check_upto
                (fun a => check_upto
                            (fun c => bits_units 32 (standard_frame a c) =? 96)
                            256 0)
                256 0 = true) by (vm_compute; reflexivity).
  apply (check_upto_spec _ _ _ H addr) in Ha.
  apply (check_upto_spec _ _ _ Ha cmd) in Hc.
  apply Z.eqb_eq. exact Hc.
Qed.

End FrameTotals.

(** X2. Every frame leaves [encode_frame] as playable bytes whose
    ticks add up to the whole ticks of the frame's duration; the
    extended encoder is such a frame. *)
Theorem encode_frame_ticks (full_code : Z) :
  Forall playable (encode_frame full_code)
  /\ ticks_sum (encode_frame full_code)
     = frame_units full_code * NEC_PULSE_SIZE / IR_TICK_SIZE
  /\ (forall address command,
        Forall playable (encode_nec_extended address command)).
Proof.
  destruct (encode_frame_sound full_code) as [H1 H2].
  split; [exact H1|]. split; [exact H2|].
  intros address command. apply encode_frame_sound.
Qed.

(** X3. Every code of [encode_nec] lasts the same, 193 NEC units or
    6785 device ticks: with the inverted bytes, sixteen of the 32 spaces
    are long whatever the address and the command. *)
Theorem encode_nec_duration (code : Z) :
  Forall playable (encode_nec code) /\ ticks_sum (encode_nec code) = 6785.
Proof.
  rewrite encode_nec_frame.
  destruct (encode_frame_sound
              (standard_frame (Z.land (Z.shiftr code 8) 0xFF)
                 (Z.land code 0xFF))) as [H1 H2].
  split; [exact H1|]. rewrite H2. unfold frame_units.
  rewrite standard_frame_units by apply land_255_range.
  reflexivity.
Qed.

(** ** The shape of an encoded frame *)

Section FrameShape.

(** In step, a pulse of [count] units takes the whole ticks of its
    length or one more. *)
Lemma pulse_ticks (count : Z) (e : enc) :
  0 <= count -> in_step e ->
  let ticks :=
    (pulse_time e + count * NEC_PULSE_SIZE - sender_time e) / IR_TICK_SIZE in
  count * 1125 / 32 <= ticks <= count * 1125 / 32 + 1.
Proof.
  intros Hc [Hg _] ticks. unfold ticks, NEC_PULSE_SIZE, IR_TICK_SIZE in *.
  pose proof (Z.div_mod (pulse_time e + count * 1125 - sender_time e) 32
                ltac:(lia)).
  pose proof (Z.mod_pos_bound (pulse_time e + count * 1125 - sender_time e) 32
                ltac:(lia)).
  pose proof (Z.div_mod (count * 1125) 32 ltac:(lia)).
  pose proof (Z.mod_pos_bound (count * 1125) 32 ltac:(lia)).
  lia.
Qed.

(** A pulse whose ticks are known emits the blocks of those ticks. *)
Lemma add_pulse_blocks (count : Z) (is_high : bool) (e : enc) (t : Z) :
  (pulse_time e + count * NEC_PULSE_SIZE - sender_time e) / IR_TICK_SIZE = t ->
  result (add_pulse count is_high e)
  = result e ++ emit_blocks (Z.to_nat t) t is_high [].
Proof.
  intros <-. apply add_pulse_result.
Qed.

Lemma land_1_cases (x : Z) : Z.land x 1 = 0 \/ Z.land x 1 = 1.
Proof.
  change (Z.land x 1) with (Z.land x (Z.ones 1)).
  rewrite Z.land_ones by lia. change (2 ^ 1) with 2.
  pose proof (Z.mod_pos_bound x 2 eq_refl). lia.
Qed.

(** The mark and the space of one data bit. *)
Lemma bit_pulses (full_code : Z) (e : enc) :
  in_step e ->
  let e' := add_pulse (if Z.land full_code 1 =? 0 then 1 else 3) false
              (add_pulse 1 true e) in
  in_step e'
  /\ exists m s,
       result e' = result e ++ [m; s]
       /\ is_mark m /\ is_space (Z.land full_code 1) s.
Proof.
  intros Hs e'.
  destruct (add_pulse_in_step 1 true e ltac:(lia) Hs) as (S1 & _ & _).
  pose proof (pulse_ticks 1 e ltac:(lia) Hs) as T1. cbv zeta in T1.
  change (1 * 1125 / 32) with 35 in T1.
  assert (Em : exists m, result (add_pulse 1 true e) = result e ++ [m]
                         /\ is_mark m).
  { assert (C : (pulse_time e + 1 * NEC_PULSE_SIZE - sender_time e)
                / IR_TICK_SIZE = 35
                \/ (pulse_time e + 1 * NEC_PULSE_SIZE - sender_time e)
                   / IR_TICK_SIZE = 36) by lia.
    destruct C as [C|C]; rewrite (add_pulse_blocks _ _ _ _ C).
    - exists 163. split; [reflexivity|left; reflexivity].
    - exists 164. split; [reflexivity|right; reflexivity]. }
  destruct Em as (m & Em & Hm).
  set (e1 := add_pulse 1 true e) in *.
  assert (Es : exists s,
             result e' = result e1 ++ [s] /\ is_space (Z.land full_code 1) s
             /\ in_step e').
  { unfold e'. destruct (land_1_cases full_code) as [B|B]; rewrite B.
    - change (0 =? 0) with true. cbv iota.
      destruct (add_pulse_in_step 1 false e1 ltac:(lia) S1) as (S2 & _ & _).
      pose proof (pulse_ticks 1 e1 ltac:(lia) S1) as T2. cbv zeta in T2.
      change (1 * 1125 / 32) with 35 in T2.
      assert (C : (pulse_time e1 + 1 * NEC_PULSE_SIZE - sender_time e1)
                  / IR_TICK_SIZE = 35
                  \/ (pulse_time e1 + 1 * NEC_PULSE_SIZE - sender_time e1)
                     / IR_TICK_SIZE = 36) by lia.
      destruct C as [C|C]; rewrite (add_pulse_blocks _ _ _ _ C).
      + exists 35. split; [reflexivity|]. split; [|exact S2].
        left. split; [reflexivity|left; reflexivity].
      + exists 36. split; [reflexivity|]. split; [|exact S2].
        left. split; [reflexivity|right; reflexivity].
    - change (1 =? 0) with false. cbv iota.
      destruct (add_pulse_in_step 3 false e1 ltac:(lia) S1) as (S2 & _ & _).
      pose proof (pulse_ticks 3 e1 ltac:(lia) S1) as T2. cbv zeta in T2.
      change (3 * 1125 / 32) with 105 in T2.
      assert (C : (pulse_time e1 + 3 * NEC_PULSE_SIZE - sender_time e1)
                  / IR_TICK_SIZE = 105
                  \/ (pulse_time e1 + 3 * NEC_PULSE_SIZE - sender_time e1)
                     / IR_TICK_SIZE = 106) by lia.
      destruct C as [C|C]; rewrite (add_pulse_blocks _ _ _ _ C).
      + exists 105. split; [reflexivity|]. split; [|exact S2].
        right. split; [reflexivity|left; reflexivity].
      + exists 106. split; [reflexivity|]. split; [|exact S2].
        right. split; [reflexivity|right; reflexivity]. }
  destruct Es as (s & Es & Hsp & S2).
  split; [exact S2|]. exists m, s.
  split; [|split; assumption].
  rewrite Es, Em, <- app_assoc. reflexivity.
Qed.

Lemma data_bits_shape (n : nat) :
  forall (full_code : Z) (e : enc),
    in_step e ->
    in_step (data_bits n full_code e)
    /\ exists l,
         result (data_bits n full_code e) = result e ++ l
         /\ bits_encoded (frame_bits n full_code) l.
Proof.
  induction n as [|n IH]; intros fc e Hs; cbn [data_bits frame_bits].
  - split; [exact Hs|]. exists []. rewrite app_nil_r. split; [reflexivity|exact I].
  - destruct (bit_pulses fc e Hs) as (S1 & m & s & E1 & Hm & Hsp).
    destruct (IH (Z.shiftr fc 1) _ S1) as (S2 & l & E2 & Hl).
    split; [exact S2|]. exists (m :: s :: l).
    split; [|cbn [bits_encoded]; repeat split; assumption].
    rewrite E2, E1, <- app_assoc. reflexivity.
Qed.

Lemma bits_encoded_length (bits : list Z) :
  forall l, bits_encoded bits l -> length l = (2 * length bits)%nat.
Proof.
  induction bits as [|b bits IH]; intros [|m [|s l]] H; simpl in H;
    try contradiction; [reflexivity|].
  destruct H as (_ & _ & H). apply IH in H. simpl. lia.
Qed.

Lemma frame_bits_length (n : nat) :
  forall x, length (frame_bits n x) = n.
Proof. induction n as [|n IH]; intros x; simpl; [|rewrite IH]; reflexivity. Qed.

(** Leader, data bits, stop pulse, trailer. *)
Lemma encode_frame_parts (full_code : Z) :
  exists bitbytes stop trailer,
    encode_frame full_code
    = [255; 255; 255; 255; 182; 127; 127; 27] ++ bitbytes ++ [stop] ++ trailer
    /\ bits_encoded (frame_bits 32 full_code) bitbytes
    /\ is_mark stop
    /\ (trailer = repeat 127 19 ++ [118] \/ trailer = repeat 127 19 ++ [119]).
Proof.
  unfold encode_frame.
  set (e2 := add_pulse 8 false (add_pulse 16 true (mkEnc [] 0 0))).
  assert (E2 : e2 = mkEnc [255; 255; 255; 255; 182; 127; 127; 27] 27000 26976)
    by (vm_compute; reflexivity).
  assert (S2 : in_step e2)
    by (rewrite E2; unfold in_step, IR_TICK_SIZE; simpl; lia).
  destruct (data_bits_shape 32 full_code e2 S2) as (S3 & l & E3 & Hl).
  set (e3 := data_bits 32 full_code e2) in *.
  destruct (add_pulse_in_step 1 true e3 ltac:(lia) S3) as (S4 & _ & _).
  pose proof (pulse_ticks 1 e3 ltac:(lia) S3) as T4. cbv zeta in T4.
  change (1 * 1125 / 32) with 35 in T4.
  assert (E4 : exists stop, result (add_pulse 1 true e3) = result e3 ++ [stop]
                            /\ is_mark stop).
  { assert (C : (pulse_time e3 + 1 * NEC_PULSE_SIZE - sender_time e3)
                / IR_TICK_SIZE = 35
                \/ (pulse_time e3 + 1 * NEC_PULSE_SIZE - sender_time e3)
                   / IR_TICK_SIZE = 36) by lia.
    destruct C as [C|C]; rewrite (add_pulse_blocks _ _ _ _ C).
    - exists 163. split; [reflexivity|left; reflexivity].
    - exists 164. split; [reflexivity|right; reflexivity]. }
  destruct E4 as (stop & E4 & Hstop).
  set (e4 := add_pulse 1 true e3) in *.
  pose proof (pulse_ticks 72 e4 ltac:(lia) S4) as T5. cbv zeta in T5.
  change (72 * 1125 / 32) with 2531 in T5.
  assert (E5 : exists trailer,
             result (add_pulse 72 false e4) = result e4 ++ trailer
             /\ (trailer = repeat 127 19 ++ [118]
                 \/ trailer = repeat 127 19 ++ [119])).
  { assert (C : (pulse_time e4 + 72 * NEC_PULSE_SIZE - sender_time e4)
                / IR_TICK_SIZE = 2531
                \/ (pulse_time e4 + 72 * NEC_PULSE_SIZE - sender_time e4)
                   / IR_TICK_SIZE = 2532) by lia.
    destruct C as [C|C]; rewrite (add_pulse_blocks _ _ _ _ C).
    - exists (emit_blocks (Z.to_nat 2531) 2531 false []).
      split; [reflexivity|left; vm_compute; reflexivity].
    - exists (emit_blocks (Z.to_nat 2532) 2532 false []).
      split; [reflexivity|right; vm_compute; reflexivity]. }
  destruct E5 as (trailer & E5 & Htr).
  exists l, stop, trailer.
  split; [|repeat split; assumption].
  rewrite E5, E4, E3, E2. cbn [result]. rewrite <- !app_assoc. reflexivity.
Qed.

End FrameShape.

(** X4. Every frame is encoded in 93 bytes: the same eight bytes of
    leader, two bytes for each of the 32 bits, lowest bit first (a mark
    of 35 or 36 ticks and a space of 35 or 36 ticks for a 0, of 105 or
    106 for a 1), one stop mark and twenty bytes of trailer. *)
Theorem encode_frame_shape (full_code : Z) :
  length (encode_frame full_code) = 93%nat
  /\ exists bitbytes stop trailer,
       encode_frame full_code
       = [255; 255; 255; 255; 182; 127; 127; 27] ++ bitbytes ++ [stop]
         ++ trailer
       /\ bits_encoded (frame_bits 32 full_code) bitbytes
       /\ is_mark stop
       /\ (trailer = repeat 127 19 ++ [118]
           \/ trailer = repeat 127 19 ++ [119]).
Proof.
  destruct (encode_frame_parts full_code)
    as (l & stop & trailer & E & Hl & Hstop & Htr).
  split; [|exists l, stop, trailer; repeat split; assumption].
  rewrite E, !length_app, (bits_encoded_length _ _ Hl), frame_bits_length.
  destruct Htr as [-> | ->]; reflexivity.
Qed.

(** ** Reading an encoded frame back *)

Section ReadBack.

Lemma timings_of_app (l1 l2 : list Z) :
  timings_of (l1 ++ l2) = timings_of l1 ++ timings_of l2.
Proof.
  induction l1 as [|b l1 IH]; [reflexivity|].
  cbn [app timings_of]. destruct (0 <? Z.land b 127); rewrite IH; reflexivity.
Qed.

Lemma timings_of_playable (l : list Z) :
  Forall playable l -> length (timings_of l) = length l.
Proof.
  induction 1 as [|b l [_ Hb] _ IH]; [reflexivity|].
  cbn [timings_of]. replace (0 <? Z.land b 127) with true
    by (symmetry; apply Z.ltb_lt; lia).
  simpl. rewrite IH. reflexivity.
Qed.

(** The two timing entries of one data bit. *)
Lemma bit_timings (bit m s : Z) (l : list Z) :
  is_mark m -> is_space bit s ->
  exists dm ds,
    timings_of (m :: s :: l) = (true, dm) :: (false, ds) :: timings_of l
    /\ (if 2000 <? ds then 1 else 0) = bit.
Proof.
  intros [-> | ->] [[-> [-> | ->]] | [-> [-> | ->]]];
    do 2 eexists; (split; [reflexivity|reflexivity]).
Qed.

Lemma tget_here (pre : list timing) (x : timing) (rest : list timing) :
  tget (pre ++ x :: rest) (tlen pre) = x.
Proof. unfold tget, tlen. rewrite Nat2Z.id. apply nth_middle. Qed.

Lemma tget_next (pre : list timing) (x y : timing) (rest : list timing) :
  tget (pre ++ x :: y :: rest) (tlen pre + 1) = y.
Proof.
  unfold tget, tlen.
  replace (Z.to_nat (Z.of_nat (length pre) + 1)) with (length (pre ++ [x]))
    by (rewrite length_app; simpl; lia).
  change (pre ++ x :: y :: rest) with (pre ++ [x] ++ y :: rest).
  rewrite app_assoc. apply nth_middle.
Qed.

(** Reading the entries of encoded bits gives the bits. *)
Lemma read_bits_encoded (bits : list Z) :
  forall (l : list Z) (pre post : list timing) (acc : list Z),
    bits_encoded bits l ->
    read_bits (length bits) (pre ++ timings_of l ++ post) (tlen pre) acc
    = Some (acc ++ bits).
Proof.
  induction bits as [|bit bits IH]; intros l pre post acc H.
  - simpl. rewrite app_nil_r. reflexivity.
  - destruct l as [|m [|s l]]; simpl in H; try contradiction.
    destruct H as (Hm & Hs & Hl).
    destruct (bit_timings bit m s l Hm Hs) as (dm & ds & Et & Eb).
    rewrite Et. cbn [length read_bits app].
    match goal with
    | |- context [?a <=? ?b] =>
        assert (Hlt : (a <=? b) = false)
          by (apply Z.leb_gt; unfold tlen; rewrite length_app; simpl length; lia)
    end.
    rewrite Hlt, tget_here, tget_next. cbn [negb orb]. cbv iota.
    rewrite Eb.
    apply eq_trans
      with (read_bits (length bits)
              ((pre ++ [(true, dm); (false, ds)]) ++ timings_of l ++ post)
              (tlen (pre ++ [(true, dm); (false, ds)])) (acc ++ [bit])).
    + f_equal.
      * rewrite <- app_assoc. reflexivity.
      * unfold tlen. rewrite length_app. simpl. lia.
    + rewrite (IH l _ post (acc ++ [bit]) Hl). rewrite <- app_assoc.
      reflexivity.
Qed.

(** OR-ing in something shifted past all the bits is adding it. *)
Lemma lor_shiftl_add (a b n : Z) :
  0 <= n -> 0 <= a < 2 ^ n -> Z.lor a (Z.shiftl b n) = a + b * 2 ^ n.
Proof.
  intros Hn Ha.
  assert (E : Z.land a (Z.shiftl b n) = 0).
  { apply Z.bits_inj'. intros k Hk. rewrite Z.land_spec, Z.bits_0.
    destruct (Z.lt_ge_cases k n) as [Hlt|Hge].
    - rewrite (Z.shiftl_spec_low b n k Hlt). apply andb_false_r.
    - replace (Z.testbit a k) with false; [reflexivity|].
      symmetry. destruct (Z.eq_dec a 0) as [->|Hne]; [apply Z.bits_0|].
      apply Z.bits_above_log2; [lia|].
      apply Z.log2_lt_pow2; [lia|].
      apply Z.lt_le_trans with (2 ^ n); [lia|].
      apply Z.pow_le_mono_r; lia. }
  rewrite <- Z.lxor_lor by exact E.
  rewrite <- Z.add_nocarry_lxor by exact E.
  rewrite Z.shiftl_mul_pow2 by exact Hn. reflexivity.
Qed.

Lemma assemble_frame_bits (n : nat) :
  forall x i acc : Z,
    0 <= i -> 0 <= acc < 2 ^ i ->
    assemble (frame_bits n x) i acc = acc + 2 ^ i * (x mod 2 ^ Z.of_nat n).
Proof.
  induction n as [|n IH]; intros x i acc Hi Hacc.
  - simpl. rewrite Z.mod_1_r. lia.
  - cbn [frame_bits assemble].
    assert (Hb : Z.land x 1 = x mod 2).
    { change (Z.land x 1) with (Z.land x (Z.ones 1)).
      rewrite Z.land_ones by lia. reflexivity. }
    pose proof (Z.mod_pos_bound x 2 eq_refl) as Hb2.
    rewrite Hb.
    rewrite (lor_shiftl_add acc (x mod 2) i Hi Hacc).
    assert (Hp : 2 ^ (i + 1) = 2 * 2 ^ i)
      by (rewrite Z.pow_add_r by lia; lia).
    assert (Hpos : 0 < 2 ^ i) by (apply Z.pow_pos_nonneg; lia).
    rewrite IH by nia.
    rewrite Z.shiftr_div_pow2 by lia. change (2 ^ 1) with 2.
    rewrite Nat2Z.inj_succ, Z.pow_succ_r by lia.
    assert (Hn : 0 < 2 ^ Z.of_nat n) by (apply Z.pow_pos_nonneg; lia).
    rewrite (Z.rem_mul_r x 2 (2 ^ Z.of_nat n)) by lia.
    rewrite Hp. ring.
Qed.

Lemma bits_encoded_timings (bits : list Z) :
  forall l, bits_encoded bits l -> length (timings_of l) = length l.
Proof.
  induction bits as [|b bits IH]; intros [|m [|s l]] H; simpl in H;
    try contradiction; [reflexivity|].
  destruct H as (Hm & Hs & H).
  destruct (bit_timings b m s l Hm Hs) as (dm & ds & E & _).
  rewrite E. simpl. rewrite (IH l H). reflexivity.
Qed.

Lemma leader_timings (rest : list Z) :
  timings_of ([255; 255; 255; 255; 182; 127; 127; 27] ++ rest)
  = [(true, 4064); (true, 4064); (true, 4064); (true, 4064); (true, 1728);
     (false, 4064); (false, 4064); (false, 864)] ++ timings_of rest.
Proof. reflexivity. Qed.

(** The timings of a frame: eight leader entries, the entries of the
    bits, and 21 more. *)
Lemma encode_frame_timings (full_code : Z) :
  exists bitbytes tail,
    bits_encoded (frame_bits 32 full_code) bitbytes
    /\ timings_of (encode_frame full_code)
       = [(true, 4064); (true, 4064); (true, 4064); (true, 4064);
          (true, 1728); (false, 4064); (false, 4064); (false, 864)]
         ++ timings_of bitbytes ++ tail
    /\ length tail = 21%nat.
Proof.
  destruct (encode_frame_parts full_code)
    as (l & stop & trailer & E & Hl & Hstop & Htr).
  exists l, (timings_of ([stop] ++ trailer)).
  split; [exact Hl|]. split.
  - rewrite E, leader_timings, timings_of_app. reflexivity.
  - destruct Hstop as [-> | ->]; destruct Htr as [-> | ->]; reflexivity.
Qed.

Lemma frame_bits_value (full_code : Z) :
  assemble (frame_bits 32 full_code) 0 0 = full_code mod 2 ^ 32.
Proof.
  rewrite (assemble_frame_bits 32 full_code 0 0) by lia.
  change (Z.of_nat 32) with 32. change (2 ^ 0) with 1. lia.
Qed.

(** With the leader joined, the decoder reads the frame. *)
Lemma decode_joined (full_code : Z) :
  let frame := full_code mod 2 ^ 32 in
  decode_timings (join_leader (timings_of (encode_frame full_code)))
  = Some (Z.lor (Z.shiftl (frame_addr frame) 8) (frame_cmd frame)).
Proof.
  intros frame.
  destruct (encode_frame_timings full_code) as (l & tail & Hl & Et & Htail).
  rewrite Et. unfold join_leader. cbn [app skipn].
  set (ts := (true, 17984) :: (false, 8992) :: timings_of l ++ tail).
  assert (Hlen : tlen ts = 87).
  { unfold ts, tlen. cbn [length]. rewrite length_app, Htail.
    assert (E : length (timings_of l) = 64%nat)
      by (rewrite (bits_encoded_timings _ _ Hl), (bits_encoded_length _ _ Hl),
            frame_bits_length; reflexivity).
    rewrite E. reflexivity. }
  assert (Hf : find_leader ts 0 = 0) by reflexivity.
  assert (R : read_bits 32 ts (0 + 2) [] = Some (frame_bits 32 full_code)).
  { pose proof (read_bits_encoded _ l [(true, 17984); (false, 8992)] tail []
                  Hl) as R.
    rewrite frame_bits_length in R. exact R. }
  unfold decode_timings. cbv zeta. rewrite Hlen, Hf, R.
  change (87 <? 2) with false.
  change ((0 <? 0) || (87 <=? 0 + 65)) with false. cbv iota.
  rewrite frame_bits_value. fold frame.
  destruct (negb (inversion_ok frame)); reflexivity.
Qed.

End ReadBack.

Section Packing.

(** Four bytes packed into a frame come back out of it. *)
Lemma pack4 (b0 b1 b2 b3 : Z) :
  0 <= b0 < 256 -> 0 <= b1 < 256 -> 0 <= b2 < 256 -> 0 <= b3 < 256 ->
  let frame :=
    Z.lor (Z.lor (Z.lor b0 (Z.shiftl b1 8)) (Z.shiftl b2 16)) (Z.shiftl b3 24) in
  frame mod 2 ^ 32 = frame
  /\ frame_addr frame = b0 /\ frame_addr_inv frame = b1
  /\ frame_cmd frame = b2 /\ frame_cmd_inv frame = b3.
Proof.
  intros H0 H1 H2 H3 frame.
  assert (E : frame = b0 + b1 * 2 ^ 8 + b2 * 2 ^ 16 + b3 * 2 ^ 24).
  { unfold frame.
    rewrite (lor_shiftl_add b0 b1 8) by (change (2 ^ 8) with 256; lia).
    rewrite (lor_shiftl_add _ b2 16)
      by (change (2 ^ 8) with 256; change (2 ^ 16) with 65536; lia).
    rewrite (lor_shiftl_add _ b3 24)
      by (change (2 ^ 8) with 256; change (2 ^ 16) with 65536;
          change (2 ^ 24) with 16777216; lia).
    reflexivity. }
  change (2 ^ 8) with 256 in E. change (2 ^ 16) with 65536 in E.
  change (2 ^ 24) with 16777216 in E.
  unfold frame_addr, frame_addr_inv, frame_cmd, frame_cmd_inv.
  change 0xFF with (Z.ones 8).
  rewrite !Z.land_ones, !Z.shiftr_div_pow2 by lia.
  change (2 ^ 8) with 256. change (2 ^ 16) with 65536.
  change (2 ^ 24) with 16777216. change (2 ^ 32) with 4294967296.
  generalize dependent frame. intros frame ->.
  repeat split.
  - apply Z.mod_small. lia.
  - symmetry. apply Z.mod_unique with (b1 + b2 * 256 + b3 * 65536); lia.
  - replace ((b0 + b1 * 256 + b2 * 65536 + b3 * 16777216) / 256)
      with (b1 + b2 * 256 + b3 * 65536)
      by (apply Z.div_unique with b0; lia).
    symmetry. apply Z.mod_unique with (b2 + b3 * 256); lia.
  - replace ((b0 + b1 * 256 + b2 * 65536 + b3 * 16777216) / 65536)
      with (b2 + b3 * 256)
      by (apply Z.div_unique with (b0 + b1 * 256); lia).
    symmetry. apply Z.mod_unique with b3; lia.
  - replace ((b0 + b1 * 256 + b2 * 65536 + b3 * 16777216) / 16777216)
      with b3
      by (apply Z.div_unique with (b0 + b1 * 256 + b2 * 65536); lia).
    apply Z.mod_small. lia.
Qed.

Lemma byte_range (x : Z) : 0 <= Z.land x 0xFF < 256.
Proof. pose proof (land_255_range x). lia. Qed.

Lemma inv8_range (x : Z) : 0 <= inv8 x < 256.
Proof. unfold inv8. apply byte_range. Qed.

(** A byte and its inverse differ in every bit. *)
Lemma inv8_lxor (a : Z) : 0 <= a < 256 -> Z.lxor a (inv8 a) = 0xFF.
Proof.
  intros Ha.
  assert (H : check_upto (fun a => Z.lxor a (inv8 a) =? 0xFF) 256 0 = true)
    by (vm_compute; reflexivity).
  apply Z.eqb_eq. apply (check_upto_spec _ _ _ H a). lia.
Qed.

(** Address byte and inverse, packed as an extended address. *)
Lemma inverted_address (a : Z) :
  0 <= a < 256 ->
  Z.land (Z.lor a (Z.shiftl (inv8 a) 8)) 0xFF = a
  /\ Z.land (Z.shiftr (Z.lor a (Z.shiftl (inv8 a) 8)) 8) 0xFF = inv8 a.
Proof.
  intros Ha.
  assert (H : check_upto
                (fun a =>
                   (Z.land (Z.lor a (Z.shiftl (inv8 a) 8)) 0xFF =? a)
                   && (Z.land (Z.shiftr (Z.lor a (Z.shiftl (inv8 a) 8)) 8) 0xFF
                       =? inv8 a)) 256 0 = true)
    by (vm_compute; reflexivity).
  assert (Hr : 0 <= a < 0 + Z.of_nat 256) by lia.
  apply (check_upto_spec _ _ _ H a) in Hr.
  apply andb_prop in Hr. destruct Hr as [H1 H2].
  split; apply Z.eqb_eq; assumption.
Qed.

Lemma low16 (code : Z) :
  Z.lor (Z.shiftl (Z.land (Z.shiftr code 8) 0xFF) 8) (Z.land code 0xFF)
  = code mod 65536.
Proof.
  rewrite Z.lor_comm.
  rewrite lor_shiftl_add; [|lia|change (2 ^ 8) with 256; apply byte_range].
  change 0xFF with (Z.ones 8).
  rewrite !Z.land_ones, Z.shiftr_div_pow2 by lia. change (2 ^ 8) with 256.
  change 65536 with (256 * 256). rewrite Z.rem_mul_r by lia. lia.
Qed.

End Packing.

(** X5. The decoder's bit loop, started behind the eight leader
    entries of an encoded frame, reads the 32 bits of the frame, lowest
    first, and they assemble to the frame. *)
Theorem encode_frame_read_back (full_code : Z) :
  read_bits 32 (timings_of (encode_frame full_code)) 8 []
  = Some (frame_bits 32 full_code)
  /\ assemble (frame_bits 32 full_code) 0 0 = full_code mod 2 ^ 32.
Proof.
  split; [|apply frame_bits_value].
  destruct (encode_frame_timings full_code) as (l & tail & Hl & Et & _).
  rewrite Et.
  pose proof (read_bits_encoded _ l
                [(true, 4064); (true, 4064); (true, 4064); (true, 4064);
                 (true, 1728); (false, 4064); (false, 4064); (false, 864)]
                tail [] Hl) as R.
  rewrite frame_bits_length in R. exact R.
Qed.

(** X6. With the leader's entries joined, [decode_timings] gives the
    code back from what [encode_nec] wrote, the low 16 bits of the
    argument, and the frame passes both inversion checks. *)
Theorem decode_joined_standard (code : Z) :
  decode_timings (join_leader (timings_of (encode_nec code)))
  = Some (code mod 65536)
  /\ inversion_ok
       (standard_frame (Z.land (Z.shiftr code 8) 0xFF) (Z.land code 0xFF))
     = true.
Proof.
  set (a := Z.land (Z.shiftr code 8) 0xFF).
  set (c := Z.land code 0xFF).
  assert (Ha : 0 <= a < 256) by apply byte_range.
  assert (Hc : 0 <= c < 256) by apply byte_range.
  destruct (pack4 a (inv8 a) c (inv8 c) Ha (inv8_range a) Hc (inv8_range c))
    as (Em & E0 & E1 & E2 & E3).
  fold (standard_frame a c) in Em, E0, E1, E2, E3.
  split.
  - rewrite encode_nec_frame. fold a c. rewrite decode_joined.
    cbv zeta. rewrite Em, E0, E2. unfold a, c. rewrite low16. reflexivity.
  - unfold inversion_ok. rewrite E0, E1, E2, E3.
    rewrite (inv8_lxor a Ha), (inv8_lxor c Hc). reflexivity.
Qed.

(** X7. From an extended code, [decode_timings] (leader joined)
    returns the low address byte and the command: the high address byte
    is not in the result. *)
Theorem decode_joined_extended (address command : Z) :
  decode_timings
    (join_leader (timings_of (encode_nec_extended address command)))
  = Some (Z.lor (Z.shiftl (Z.land address 0xFF) 8) (Z.land command 0xFF)).
Proof.
  change (encode_nec_extended address command)
    with (encode_frame (extended_frame address command)).
  rewrite decode_joined. cbv zeta.
  destruct (pack4 (Z.land address 0xFF) (Z.land (Z.shiftr address 8) 0xFF)
              (Z.land command 0xFF) (inv8 (Z.land command 0xFF))
              (byte_range _) (byte_range _) (byte_range _) (inv8_range _))
    as (Em & E0 & _ & E2 & _).
  fold (extended_frame address command) in Em, E0, E2.
  rewrite Em, E0, E2. reflexivity.
Qed.

(** X8. A standard code is the extended code whose high address byte
    is the inverted low one. *)
Theorem standard_is_extended (code : Z) :
  let a := Z.land (Z.shiftr code 8) 0xFF in
  encode_nec code
  = encode_nec_extended (Z.lor a (Z.shiftl (inv8 a) 8)) code.
Proof.
  intros a. unfold encode_nec, encode_nec_extended. fold a.
  destruct (inverted_address a (byte_range _)) as [E0 E1].
  rewrite E0, E1. reflexivity.
Qed.

(** ** The frequency table *)

Section Frequencies.

Lemma index_from_some (freq : Z) (l : list Z) :
  forall i j,
    index_from freq l i = Some j ->
    i <= j < i + Z.of_nat (length l) /\ nth (Z.to_nat (j - i)) l 0 = freq.
Proof.
  induction l as [|x l IH]; intros i j H; simpl in H; [discriminate|].
  destruct (x =? freq) eqn:E.
  - inversion H; subst. apply Z.eqb_eq in E.
    rewrite Z.sub_diag. simpl length. split; [lia|exact E].
  - apply IH in H. destruct H as [Hr Hn]. simpl length. split; [lia|].
    replace (Z.to_nat (j - i)) with (S (Z.to_nat (j - (i + 1)))) by lia.
    exact Hn.
Qed.

Lemma index_from_none (freq : Z) (l : list Z) :
  forall i, index_from freq l i = None -> ~ In freq l.
Proof.
  induction l as [|x l IH]; intros i H; simpl in H; [intros []|].
  destruct (x =? freq) eqn:E; [discriminate|].
  apply Z.eqb_neq in E. intros [Hx|Hin]; [contradiction|].
  exact (IH _ H Hin).
Qed.

Lemma index_from_in (freq : Z) (l : list Z) :
  forall i, In freq l -> exists j, index_from freq l i = Some j.
Proof.
  intros i Hin. destruct (index_from freq l i) as [j|] eqn:E.
  - exists j. reflexivity.
  - exfalso. exact (index_from_none _ _ _ E Hin).
Qed.

End Frequencies.

(** X9. [get_freq_index] always answers with an index of the table;
    going back through [get_freq_by_index] gives the frequency asked
    for when the table has it, and the default 38000 Hz (index 0) when
    it has not. *)
Theorem freq_index_round_trip (freq : Z) :
  0 <= get_freq_index freq < 30
  /\ (In freq IR_FREQ_TABLE ->
      get_freq_by_index (get_freq_index freq) = freq)
  /\ (~ In freq IR_FREQ_TABLE ->
      get_freq_index freq = 0
      /\ get_freq_by_index (get_freq_index freq) = DEFAULT_FREQ).
Proof.
  unfold get_freq_index.
  destruct (index_from freq IR_FREQ_TABLE 0) as [j|] eqn:E.
  - apply index_from_some in E. destruct E as [Hr Hn].
    change (Z.of_nat (length IR_FREQ_TABLE)) with 30 in Hr.
    rewrite Z.sub_0_r in Hn.
    assert (Eg : get_freq_by_index j = freq).
    { unfold get_freq_by_index.
      change (Z.of_nat (length IR_FREQ_TABLE)) with 30.
      replace (0 <=? j) with true by (symmetry; apply Z.leb_le; lia).
      replace (j <? 30) with true by (symmetry; apply Z.ltb_lt; lia).
      exact Hn. }
    split; [lia|]. split; [intros _; exact Eg|].
    intros Hn'. exfalso. apply Hn'. rewrite <- Hn.
    apply nth_In. change (length IR_FREQ_TABLE) with 30%nat. lia.
  - split; [lia|]. split.
    + intros Hin. exfalso. exact (index_from_none _ _ _ E Hin).
    + intros _. split; reflexivity.
Qed.

Lemma freq_index_round_trip_witness :
  get_freq_by_index (get_freq_index 36000) = 36000
  /\ get_freq_by_index (get_freq_index 999999) = 38000.
Proof.
  destruct (freq_index_round_trip 36000) as (_ & H1 & _).
  destruct (freq_index_round_trip 999999) as (_ & _ & H2).
  split.
  - apply H1. simpl. tauto.
  - apply H2. simpl. intros H.
    repeat (destruct H as [H|H]; [discriminate H|]). exact H.
Defined.

(** X10. Every index of the table comes back from its own frequency,
    so no frequency is listed twice; an index outside the table reads
    as the default frequency and so comes back as 0. *)
Theorem freq_by_index_round_trip (index : Z) :
  (0 <= index < 30 -> get_freq_index (get_freq_by_index index) = index)
  /\ (~ 0 <= index < 30 ->
      get_freq_by_index index = DEFAULT_FREQ
      /\ get_freq_index (get_freq_by_index index) = 0).
Proof.
  split.
  - intros Hi.
    assert (H : check_upto
                  (fun i => get_freq_index (get_freq_by_index i) =? i) 30 0
                = true) by (vm_compute; reflexivity).
    apply Z.eqb_eq. apply (check_upto_spec _ _ _ H index). lia.
  - intros Hi.
    assert (E : get_freq_by_index index = DEFAULT_FREQ).
    { unfold get_freq_by_index.
      change (Z.of_nat (length IR_FREQ_TABLE)) with 30.
      destruct (0 <=? index) eqn:E0; [|reflexivity].
      destruct (index <? 30) eqn:E1; [|reflexivity].
      apply Z.leb_le in E0. apply Z.ltb_lt in E1. lia. }
    split; [exact E|]. rewrite E. reflexivity.
Qed.

Lemma freq_by_index_round_trip_witness :
  get_freq_index (get_freq_by_index 29) = 29
  /\ get_freq_by_index 999 = 38000.
Proof.
  destruct (freq_by_index_round_trip 29) as [H1 _].
  destruct (freq_by_index_round_trip 999) as [_ H2].
  split; [apply H1; lia|apply H2; lia].
Defined.

(** ** Framing and reassembly, end to end *)

Section RoundTrip.

Lemma wrapped_slices (s0 s1 e0 e1 : Z) (body : list Z) :
  let buf := [s0; s1] ++ body ++ [e0; e1] in
  head2 buf = [s0; s1] /\ tail2 buf = [e0; e1]
  /\ strip_markers buf = body /\ (length buf <? 4)%nat = false.
Proof.
  intros buf.
  assert (Hl : length buf = (length body + 4)%nat)
    by (unfold buf; rewrite !length_app; simpl; lia).
  split; [reflexivity|]. split; [|split].
  - unfold tail2. rewrite Hl.
    replace (length body + 4 - 2)%nat with (length ([s0; s1] ++ body))
      by (rewrite length_app; simpl; lia).
    unfold buf. rewrite app_assoc, skipn_app, skipn_all, Nat.sub_diag.
    reflexivity.
  - unfold strip_markers. rewrite Hl.
    replace (length body + 4 - 2)%nat with (length ([s0; s1] ++ body))
      by (rewrite length_app; simpl; lia).
    unfold buf. rewrite app_assoc, firstn_app, firstn_all, Nat.sub_diag.
    simpl firstn. rewrite app_nil_r. reflexivity.
  - apply Nat.ltb_ge. lia.
Qed.

(** The completion check on a whole, wrapped packet. *)
Lemma check_complete_publishes (s : session) (body : list Z) :
  0 < recv_frag_count s -> recv_last_frag s = recv_frag_count s ->
  recv_buffer s = pack_H PACK_START ++ body ++ pack_H PACK_END ->
  received_packets (check_complete s) = received_packets s ++ [body]
  /\ packet_event (check_complete s) = true
  /\ recv_frag_count (check_complete s) = 0.
Proof.
  intros Hc Hl Hb. unfold check_complete.
  replace (0 <? recv_frag_count s) with true by (symmetry; apply Z.ltb_lt, Hc).
  replace (recv_last_frag s =? recv_frag_count s) with true
    by (symmetry; apply Z.eqb_eq, Hl).
  cbn [andb]. cbv iota. rewrite Hb.
  change (pack_H PACK_START) with [83; 84].
  change (pack_H PACK_END) with [69; 78].
  destruct (wrapped_slices 83 84 69 78 body) as (H1 & H2 & H3 & H4).
  cbv zeta in H1, H2, H3, H4. rewrite H4, H1, H2, H3.
  repeat split.
Qed.

Lemma inbound_report_fields (pidx count fidx : Z) (chunk pad : list Z) :
  (1 <= length chunk <= 56)%nat ->
  let r := inbound_report pidx count fidx chunk pad in
  valid_report r = true
  /\ byte_at r 2 = pidx /\ byte_at r 3 = count /\ byte_at r 4 = fidx
  /\ payload_of r (byte_at r 1 - 3) = chunk.
Proof.
  intros Hl r. unfold r, inbound_report. cbn [app].
  unfold valid_report, payload_of, byte_at. cbn [nth length skipn].
  replace (Z.of_nat (length chunk) + 3 - 3) with (Z.of_nat (length chunk))
    by lia.
  replace (Z.of_nat (length chunk) <=? 0) with false
    by (symmetry; apply Z.leb_gt; lia).
  replace (56 <? Z.of_nat (length chunk)) with false
    by (symmetry; apply Z.ltb_ge; lia).
  rewrite Nat2Z.id, firstn_app, firstn_all, Nat.sub_diag.
  simpl firstn. rewrite app_nil_r. repeat split.
Qed.

Variable body : list Z.
Variable pidx : Z.
Variable pad : nat -> list Z.

Let packet := pack_H PACK_START ++ body ++ pack_H PACK_END.
Let n := frag_count_of packet.

Let report (k : nat) : list Z :=
  inbound_report pidx (Z.of_nat n) (Z.of_nat k + 1)
    (chunk_at packet (56 * k)) (pad k).

(** Fragments [1 .. k] have been accepted. *)
Let mid (k : nat) (s : session) : Prop :=
  recv_buffer s = firstn (56 * k) packet
  /\ recv_packet_idx s = pidx
  /\ recv_frag_count s = Z.of_nat n
  /\ recv_last_frag s = Z.of_nat k.

Lemma packet_frag_count : (1 <= n)%nat.
Proof.
  pose proof (frag_count_spec packet 0) as H.
  assert (0 < length packet)%nat
    by (unfold packet; rewrite !length_app; simpl; lia).
  fold n in H. lia.
Qed.

Lemma firstn_next (k : nat) :
  (k < n)%nat ->
  firstn (56 * k) packet ++ chunk_at packet (56 * k)
  = firstn (56 * (k + 1)) packet.
Proof.
  intros Hk. apply frag_count_spec in Hk.
  unfold chunk_at, MAX_FRAG_SIZE.
  rewrite <- (firstn_skipn (56 * k) packet) at 3.
  replace (56 * (k + 1))%nat
    with (length (firstn (56 * k) packet) + 56)%nat
    by (rewrite length_firstn; lia).
  rewrite firstn_app_2. reflexivity.
Qed.

(** Accepting fragment [k+1] after fragments [1 .. k]. *)
Lemma accept_step (k : nat) (s : session) :
  (k < n)%nat -> k = 0%nat \/ mid k s ->
  let t := accept_fragment s (report k) in
  _process_recv_data s (report k) = check_complete t
  /\ mid (k + 1) t
  /\ received_packets t = received_packets s
  /\ packet_event t = packet_event s.
Proof.
  intros Hk Hs t.
  destruct (inbound_report_fields pidx (Z.of_nat n) (Z.of_nat k + 1)
              (chunk_at packet (56 * k)) (pad k)
              (chunk_at_length packet k Hk)) as (Hv & H2 & H3 & H4 & Hp).
  fold (report k) in Hv, H2, H3, H4, Hp.
  split; [unfold _process_recv_data; rewrite Hv; reflexivity|].
  unfold t, accept_fragment. rewrite H2, H3, H4, Hp.
  destruct Hs as [-> | (Mb & Mp & Mc & Ml)].
  - change (Z.of_nat 0 + 1 =? 1) with true. cbv iota.
    unfold mid.
    cbn [recv_buffer recv_packet_idx recv_frag_count recv_last_frag
         received_packets packet_event set_reassembly]. rewrite <- (firstn_next 0 Hk). repeat split.
  - destruct (Z.of_nat k + 1 =? 1) eqn:E1.
    + apply Z.eqb_eq in E1. assert (k = 0%nat) by lia. subst k.
      unfold mid.
      cbn [recv_buffer recv_packet_idx recv_frag_count recv_last_frag
           received_packets packet_event set_reassembly]. rewrite <- (firstn_next 0 Hk). repeat split.
    + rewrite Mp, Ml, !Z.eqb_refl. cbn [andb]. cbv iota.
      unfold mid.
      cbn [recv_buffer recv_packet_idx recv_frag_count recv_last_frag
           received_packets packet_event set_reassembly]. rewrite <- (firstn_next k Hk), Mb, Mc.
      repeat split; try assumption. lia.
Qed.

(** The rest of the packet, fed after fragments [1 .. k]. *)
Lemma feed_rest (m : nat) :
  forall (k : nat) (s : session),
    (k + S m = n)%nat -> k = 0%nat \/ mid k s ->
    let s' := feed s (inbound_reports packet pidx pad k (S m)) in
    received_packets s' = received_packets s ++ [body]
    /\ packet_event s' = true
    /\ recv_frag_count s' = 0.
Proof.
  induction m as [|m IH]; intros k s Hk Hs s'.
  - destruct (accept_step k s ltac:(lia) Hs) as (Ep & (Mb & Mp & Mc & Ml) & Ei & Ee).
    unfold s', feed, inbound_reports. cbn [seq map fold_left].
    fold n. fold (report k). rewrite Ep.
    rewrite <- Ei.
    apply check_complete_publishes.
    + rewrite Mc. pose proof packet_frag_count as H. unfold n in *. lia.
    + rewrite Mc, Ml. unfold n in *. lia.
    + rewrite Mb. apply firstn_all2.
      change (length packet <= 56 * (k + 1))%nat.
      pose proof (frag_count_spec packet n) as H. unfold n in *. lia.
  - destruct (accept_step k s ltac:(lia) Hs) as (Ep & M & Ei & Ee).
    unfold s', feed, inbound_reports.
    change (seq k (S (S m))) with (k :: seq (S k) (S m)).
    cbn [map fold_left]. fold n. fold (report k). rewrite Ep.
    set (t := accept_fragment s (report k)) in *.
    assert (Et : check_complete t = t).
    { apply check_complete_settled. unfold settled.
      destruct M as (_ & _ & Mc & Ml). rewrite Mc, Ml. lia. }
    rewrite Et.
    replace (k + 1)%nat with (S k) in M by lia.
    destruct (IH (S k) t ltac:(lia) (or_intror M)) as (I1 & I2 & I3).
    unfold feed, inbound_reports in I1, I2, I3. fold n in I1, I2, I3.
    rewrite I1, Ei. repeat split; assumption.
Qed.

End RoundTrip.

(** X11. The reassembler undoes the framing.  Whatever state the
    session is in, feeding it the fragments of a marker-wrapped packet
    in order, each as a report tagged 1 with any packet index, any
    padding and the fragment count [ceil(length / 56)], puts exactly the
    packet's body at the end of the inbox and raises the event.  The
    reports [_send_report] writes for the packet are such reports once
    their tag 2 is replaced by 1. *)
Theorem reassembly_round_trip (body : list Z) (pidx : Z)
    (pad : nat -> list Z) (s : session) :
  let packet := pack_H PACK_START ++ body ++ pack_H PACK_END in
  let n := frag_count_of packet in
  let s' := feed s (inbound_reports packet pidx pad 0 n) in
  (received_packets s' = received_packets s ++ [body]
   /\ packet_event s' = true
   /\ recv_frag_count s' = 0)
  /\ map (fun r => 0x01 :: tl r) (reports_from packet pidx (Z.of_nat n) 0 n)
     = inbound_reports packet pidx
         (fun j => repeat 0 (56 - length (chunk_at packet (56 * j)))) 0 n.
Proof.
  intros packet n s'. split.
  - pose proof (packet_frag_count body) as Hn. fold packet in Hn. fold n in Hn.
    unfold s'. destruct n as [|m] eqn:E; [lia|].
    apply (feed_rest body pidx pad m 0 s); [|left; reflexivity].
    fold packet. fold n. rewrite E. reflexivity.
  - unfold reports_from, inbound_reports. rewrite map_map. reflexivity.
Qed.

(** X12. One report never takes anything out of the inbox and adds
    at most one packet to it; when it adds one, the event is raised and
    the buffer it came from is the packet between the two markers.  The
    buffer stays a byte sequence. *)
Theorem inbox_grows_by_wrapped (s : session) (data : list Z) :
  all_bytes (recv_buffer s) -> all_bytes data ->
  let s' := _process_recv_data s data in
  all_bytes (recv_buffer s')
  /\ ((received_packets s' = received_packets s
       /\ packet_event s' = packet_event s)
      \/ exists p,
           received_packets s' = received_packets s ++ [p]
           /\ packet_event s' = true
           /\ recv_buffer s' = pack_H PACK_START ++ p ++ pack_H PACK_END
           /\ recv_frag_count s' = 0).
Proof.
  intros Hs Hd s'. unfold s', _process_recv_data.
  destruct (valid_report data); [|split; [exact Hs|left; split; reflexivity]].
  pose proof (accept_fragment_bytes s data Hs Hd) as Hb.
  destruct (accept_fragment_inbox s data) as (Ei & Ee & _).
  set (t := accept_fragment s data) in *.
  destruct (check_complete_keeps t) as (Eb & _).
  split; [rewrite Eb; exact Hb|]. rewrite Eb, <- Ei, <- Ee.
  unfold check_complete.
  destruct ((0 <? recv_frag_count t) && (recv_last_frag t =? recv_frag_count t));
    [|left; split; reflexivity].
  destruct (length (recv_buffer t) <? 4)%nat eqn:E4; cbn [negb]; cbv iota;
    [left; split; reflexivity|].
  apply Nat.ltb_ge in E4.
  destruct (unpack_H (head2 (recv_buffer t)) =? PACK_START) eqn:Es;
    [|left; split; reflexivity].
  destruct (unpack_H (tail2 (recv_buffer t)) =? PACK_END) eqn:Ee';
    [|left; split; reflexivity].
  cbn [andb]. cbv iota. right. exists (strip_markers (recv_buffer t)).
  split; [reflexivity|]. split; [reflexivity|]. split; [|reflexivity].
  apply Z.eqb_eq in Es, Ee'.
  destruct (unpack_markers_ok (recv_buffer t) Hb E4 Es Ee') as [Hh Ht].
  pose proof (strip_markers_split (recv_buffer t) E4) as E.
  rewrite Hh, Ht in E. exact E.
Qed.

Lemma inbox_grows_by_wrapped_witness :
  received_packets
    (_process_recv_data
       (_process_recv_data init [1; 7; 5; 2; 1; 0x53; 0x54; 1; 83])
       [1; 6; 5; 2; 2; 9; 0x45; 0x4E])
  = [[1; 83; 9]].
Proof.
  destruct (inbox_grows_by_wrapped
              (_process_recv_data init [1; 7; 5; 2; 1; 0x53; 0x54; 1; 83])
              [1; 6; 5; 2; 2; 9; 0x45; 0x4E]) as (_ & [[H _]|(p & H & _ & _)]).
  - repeat constructor; vm_compute; discriminate.
  - repeat constructor; vm_compute; discriminate.
  - vm_compute in H. discriminate H.
  - vm_compute. reflexivity.
Defined.

(** ** A dongle that sends nothing *)

Section Silent.

Lemma reader_run_silent (rs : list (option (list Z))) (s : session) :
  Forall (fun r => r = None) rs ->
  fst (reader_run rs s) = s
  /\ Forall (fun r => r = None) (snd (reader_run rs s)).
Proof.
  intros H. destruct H as [|r rs Hr Hrs]; simpl.
  - split; [reflexivity|constructor].
  - subst r. split; [reflexivity|exact Hrs].
Qed.

Lemma hush_refl (w : world) : hush w w.
Proof. intros H. repeat split. exact H. Qed.

Lemma hush_trans (a b c : world) : hush a b -> hush b c -> hush a c.
Proof.
  unfold hush. intros H K Ha. destruct (H Ha) as (H1 & H2 & H3).
  destruct (K H1) as (K1 & K2 & K3). repeat split; congruence.
Qed.

Lemma hush_blocked : keeps hush blocked.
Proof.
  intros w Hs. unfold blocked. destruct w as [s [p cl ws rs st]].
  unfold silent in *. cbn [ses bus present claimable writes reads sent] in *.
  destruct (read_thread s); [|repeat split; exact Hs].
  destruct (read_active s && dev s).
  - destruct (reader_run_silent rs s Hs) as [E1 E2].
    destruct (reader_run rs s) as [s' rs']. simpl in E1, E2. subst s'.
    repeat split. exact E2.
  - destruct Hs as [|r rs Hr Hrs]; [repeat split; constructor|].
    subst r. repeat split. exact Hrs.
Qed.

Lemma hush_write (report : list Z) : keeps hush (usb_write report).
Proof.
  intros w. unfold usb_write.
  destruct (writes (bus w)) as [|[| |] ws]; intros Hs; repeat split; exact Hs.
Qed.

Lemma hush_packet_idx : keeps hush _get_packet_idx.
Proof. intros w Hs. repeat split. exact Hs. Qed.

Lemma hush_cmd_id : keeps hush _get_cmd_id.
Proof. intros w Hs. repeat split. exact Hs. Qed.

Lemma hush_send_cmd (cmd_type : Z) (c : option Z) :
  keeps hush (_send_cmd cmd_type c).
Proof.
  exact (keeps_send_cmd hush hush_refl hush_trans hush_blocked
           hush_write hush_packet_idx hush_cmd_id cmd_type c).
Qed.

(** With nothing coming in and no event pending, the reply wait runs
    out; the foreground fields, the inbox, the event and the transport's
    writes are left as they are. *)
Lemma wait_reply_silent (polls : nat) :
  forall (c t : Z) (w : world),
    silent w -> packet_event (ses w) = false ->
    exists w',
      wait_reply polls c t w = (Ret false, w')
      /\ silent w'
      /\ received_packets (ses w') = received_packets (ses w)
      /\ fg_same (ses w) (ses w')
      /\ writes (bus w') = writes (bus w)
      /\ sent (bus w') = sent (bus w).
Proof.
  induction polls as [|polls IH]; intros c t w Hs He.
  - exists w. split; [reflexivity|]. split; [exact Hs|].
    split; [reflexivity|]. split; [apply fg_same_refl|]. split; reflexivity.
  - cbn [wait_reply].
    pose proof (hush_blocked w Hs) as (Hs1 & Hi1 & He1).
    destruct (blocked_spec w) as (s1 & rs1 & Eb & Hfg1 & _).
    rewrite Eb in Hs1, Hi1, He1. cbn [snd ses] in Hs1, Hi1, He1.
    rewrite (bind_ret_fwd _ _ _ _ _ Eb).
    set (w1 := mkWorld s1 _) in *.
    rewrite (bind_ret_fwd get_ses _ w1 w1 s1 eq_refl).
    rewrite He1, He.
    destruct (IH c t w1 Hs1 ltac:(unfold w1; cbn [ses]; congruence))
      as (w' & E & Hs' & Hi' & Hfg' & Hw' & Ht').
    exists w'. split; [exact E|]. split; [exact Hs'|].
    split; [rewrite Hi'; exact Hi1|].
    split; [eapply fg_same_trans; eassumption|].
    split; [rewrite Hw'; reflexivity|rewrite Ht'; reflexivity].
Qed.

(** A command whose id is given, on a transport that takes the write. *)
Lemma send_cmd_some_ok (t c : Z) (w : world) :
  0 <= t < 256 -> 0 <= c < 256 ->
  dev (ses w) = true -> writes (bus w) = [] ->
  let p := packet_idx (ses w) mod 15 + 1 in
  exists w',
    _send_cmd t (Some c) w = (Ret c, w')
    /\ dev (ses w') = true /\ writes (bus w') = []
    /\ device_state (ses w') = device_state (ses w)
    /\ cmd_id (ses w') = cmd_id (ses w)
    /\ sent (bus w')
       = sent (bus w)
         ++ [report_of p 1 1
               (pack_H PACK_START ++ [c] ++ [t] ++ pack_H PACK_END)].
Proof.
  intros Ht Hc Hd Hw p. unfold _send_cmd.
  rewrite (bind_ret_fwd (ret c) _ w w c eq_refl).
  rewrite (bind_ret_fwd _ _ _ _ _ (pack_B_ok c w Hc)).
  rewrite (bind_ret_fwd _ _ _ _ _ (pack_B_ok t w Ht)).
  set (packet := pack_H PACK_START ++ [c] ++ [t] ++ pack_H PACK_END).
  assert (Hl : (0 < length packet <= 56)%nat) by (simpl; lia).
  unfold bind at 1. rewrite (send_report_single packet w Hl). fold p.
  destruct (write_retry_ok (report_of p 1 1 packet)
              (mkWorld (set_packet_idx p (ses w)) (bus w)) Hd Hw)
    as (w' & E & Hd' & Hw' & (_ & _ & Hc' & Hs' & _) & Ht').
  rewrite (bind_ret_fwd _ _ _ _ _ E).
  exists w'. split; [reflexivity|]. split; [exact Hd'|]. split; [exact Hw'|].
  split; [exact Hs'|]. split; [exact Hc'|exact Ht'].
Qed.

(** [_send_cmd_wait] against a silent dongle: the command goes out
    as one report, no reply comes, the answer is [False]. *)
Lemma send_cmd_wait_silent (t : Z) (polls : nat) (w : world) :
  0 <= t < 256 -> dev (ses w) = true -> writes (bus w) = [] -> silent w ->
  exists w',
    _send_cmd_wait t polls w = (Ret false, w')
    /\ device_state (ses w') = device_state (ses w)
    /\ received_packets (ses w') = []
    /\ length (sent (bus w')) = S (length (sent (bus w)))
    /\ dev (ses w') = true /\ writes (bus w') = [] /\ silent w'.
Proof.
  intros Ht Hd Hw Hs. unfold _send_cmd_wait.
  set (c := cmd_id (ses w) mod 127 + 1).
  assert (Hc : 1 <= c <= 127) by (apply mod_succ_range; lia).
  set (w2 := mkWorld (set_inbox [] false (set_cmd_id c (ses w))) (bus w)).
  change ((cmd_id <- _get_cmd_id ;; clear_inbox ;;
           _send_cmd t (Some cmd_id) ;; wait_reply polls cmd_id t) w)
    with ((_send_cmd t (Some c) ;; wait_reply polls c t) w2).
  destruct (send_cmd_some_ok t c w2 Ht ltac:(lia) Hd Hw)
    as (w3 & E3 & Hd3 & Hw3 & Hs3 & _ & Ht3).
  pose proof (hush_send_cmd t (Some c) w2 Hs) as (Hq3 & Hi3 & He3).
  rewrite E3 in Hq3, Hi3, He3. cbn [snd] in Hq3, Hi3, He3.
  rewrite (bind_ret_fwd _ _ _ _ _ E3).
  destruct (wait_reply_silent polls c t w3 Hq3 He3)
    as (w4 & E4 & Hq4 & Hi4 & (Hd4 & _ & _ & Hs4 & _) & Hw4 & Ht4).
  exists w4. split; [exact E4|].
  split; [rewrite Hs4, Hs3; reflexivity|].
  split; [rewrite Hi4, Hi3; reflexivity|].
  split; [rewrite Ht4, Ht3, length_app; cbn [length bus sent w2]; lia|].
  split; [congruence|]. split; [congruence|exact Hq4].
Qed.

End Silent.

(** X13. Against a dongle that takes the writes and sends nothing,
    every operation that waits for a reply gives up: [set_mode] returns
    [False], [send_ir] outside send mode returns [False], [receive_ir]
    returns [None]; the device state is left alone and exactly one
    report, the mode command, has gone out. *)
Theorem silent_dongle_refuses (w : world) :
  dev (ses w) = true -> writes (bus w) = [] -> silent w ->
  (forall m, exists w',
      set_mode m w = (Ret false, w')
      /\ device_state (ses w') = device_state (ses w)
      /\ length (sent (bus w')) = S (length (sent (bus w))))
  /\ (forall ir_data freq,
        device_state (ses w) <> STATE_SEND ->
        exists w',
          send_ir ir_data freq w = (Ret false, w')
          /\ device_state (ses w') = device_state (ses w)
          /\ length (sent (bus w')) = S (length (sent (bus w))))
  /\ (forall polls, exists w',
        receive_ir polls w = (Ret None, w')
        /\ device_state (ses w') = device_state (ses w)
        /\ length (sent (bus w')) = S (length (sent (bus w)))).
Proof.
  intros Hd Hw Hs. split; [|split].
  - intros m. unfold set_mode.
    destruct (send_cmd_wait_silent
                (match m with
                 | ModeSend => CMD_SEND_MODE
                 | ModeReceive => CMD_RECV_MODE
                 | ModeIdle => CMD_IDLE_MODE
                 end) REPLY_POLLS w) as (w' & E & H1 & _ & H2 & _);
      try assumption;
      [destruct m; unfold CMD_SEND_MODE, CMD_RECV_MODE, CMD_IDLE_MODE; lia|].
    exists w'. repeat split; assumption.
  - intros ir_data freq Hne. unfold send_ir.
    rewrite (bind_ret_fwd get_ses _ w w (ses w) eq_refl).
    replace (device_state (ses w) =? STATE_SEND) with false
      by (symmetry; apply Z.eqb_neq; exact Hne).
    cbn [negb].
    destruct (send_cmd_wait_silent CMD_SEND_MODE REPLY_POLLS w)
      as (w' & E & H1 & _ & H2 & _); try assumption;
      [unfold CMD_SEND_MODE, CMD_RECV_MODE; lia|].
    rewrite (bind_ret_fwd _ _ _ _ _ E). exists w'.
    repeat split; assumption.
  - intros polls. unfold receive_ir.
    destruct (send_cmd_wait_silent CMD_RECV_MODE REPLY_POLLS w)
      as (w' & E & H1 & _ & H2 & _); try assumption;
      [unfold CMD_SEND_MODE, CMD_RECV_MODE; lia|].
    rewrite (bind_ret_fwd _ _ _ _ _ E). exists w'.
    repeat split; assumption.
Qed.

Lemma silent_dongle_refuses_witness :
  fst (set_mode ModeReceive
         (world_of (start_reader (set_dev true init)) []
            [None; None; None]))
  = Ret false.
Proof.
  destruct (silent_dongle_refuses
              (world_of (start_reader (set_dev true init)) []
                 [None; None; None])) as (H & _).
  - reflexivity.
  - reflexivity.
  - repeat constructor.
  - destruct (H ModeReceive) as (w' & E & _). rewrite E. reflexivity.
Defined.

(** ** Sending and receiving *)

Section SendReceive.

Lemma get_freq_index_range (freq : Z) : 0 <= get_freq_index freq < 30.
Proof.
  unfold get_freq_index.
  destruct (index_from freq IR_FREQ_TABLE 0) as [j|] eqn:E; [|lia].
  apply index_from_some in E.
  change (Z.of_nat (length IR_FREQ_TABLE)) with 30 in E. lia.
Qed.

(** [_send_report] on a transport that takes every write. *)
Lemma send_report_ok (data : list Z) (w : world) :
  (length data <= 255 * 56)%nat ->
  dev (ses w) = true -> writes (bus w) = [] ->
  let p := packet_idx (ses w) mod 15 + 1 in
  let n := frag_count_of data in
  exists w',
    _send_report data w = (Ret tt, w')
    /\ sent (bus w') = sent (bus w) ++ reports_from data p (Z.of_nat n) 0 n
    /\ fg_same (set_packet_idx p (ses w)) (ses w').
Proof.
  intros Hlen Hd Hw p n.
  assert (Hp : 1 <= p <= 15) by (apply mod_succ_range; lia).
  assert (Hn : (n <= 255)%nat).
  { pose proof (frag_count_spec data 255). fold n in H. lia. }
  assert (Erun : _send_report data w
                 = send_frags (length data) data p (Z.of_nat n)
                     (56 * 0) (Z.of_nat 0)
                     (mkWorld (set_packet_idx p (ses w)) (bus w)))
    by reflexivity.
  destruct (send_frags_ok (length data) data p (Z.of_nat n) 0
              (mkWorld (set_packet_idx p (ses w)) (bus w)))
    as (w' & E); try assumption; try lia.
  exists w'. rewrite Erun. split; [exact E|].
  apply send_frags_sent in E; [|lia]. destruct E as [Es Hfg].
  rewrite Nat.sub_0_r in Es. split; [exact Es|exact Hfg].
Qed.

(** The acknowledgment wait answers [True] whatever comes in. *)
Lemma wait_ack_true (polls : nat) :
  forall (c : Z) (w : world),
    exists w', wait_ack polls c w = (Ret true, w')
               /\ sent (bus w') = sent (bus w).
Proof.
  induction polls as [|polls IH]; intros c w; cbn [wait_ack].
  - exists w. split; reflexivity.
  - destruct (blocked_spec w) as (s1 & rs1 & Eb & _).
    rewrite (bind_ret_fwd _ _ _ _ _ Eb).
    set (w1 := mkWorld s1 _).
    rewrite (bind_ret_fwd get_ses _ w1 w1 s1 eq_refl).
    destruct (packet_event s1).
    + destruct (find_packet (is_output_ack c) (received_packets s1)).
      * exists w1. split; reflexivity.
      * set (w2 := mkWorld (set_event false s1) (bus w1)).
        rewrite (bind_ret_fwd (modify (set_event false)) _ w1 w2 tt eq_refl).
        destruct (IH c w2) as (w' & E & Hs). exists w'.
        split; [exact E|exact Hs].
    + destruct (IH c w1) as (w' & E & Hs). exists w'.
      split; [exact E|exact Hs].
Qed.

(** What the signal wait can answer. *)
Lemma wait_data_result (polls : nat) :
  forall (w w' : world) (d : list Z),
    wait_data polls w = (Ret (Some d), w') ->
    exists pkt,
      In pkt (received_packets (ses w')) /\ is_data pkt = true
      /\ d = skipn 2 pkt.
Proof.
  induction polls as [|polls IH]; intros w w' d H; cbn [wait_data] in H.
  - discriminate H.
  - destruct (blocked_spec w) as (s1 & rs1 & Eb & _).
    rewrite (bind_ret_fwd _ _ _ _ _ Eb) in H.
    set (w1 := mkWorld s1 _) in *.
    rewrite (bind_ret_fwd get_ses _ w1 w1 s1 eq_refl) in H.
    destruct (packet_event s1).
    + destruct (find_packet is_data (received_packets s1)) as [pkt|] eqn:Ef.
      * inversion H; subst. apply find_some in Ef. exists pkt.
        split; [apply Ef|]. split; [apply Ef|reflexivity].
      * set (w2 := mkWorld (set_event false s1) (bus w1)) in *.
        rewrite (bind_ret_fwd (modify (set_event false)) _ w1 w2 tt eq_refl)
          in H.
        exact (IH _ _ _ H).
    + exact (IH _ _ _ H).
Qed.

End SendReceive.

(** X14. In send mode, on a transport that takes the writes,
    [send_ir] answers [True] whatever the dongle sends back, an
    acknowledgment or nothing: it has written the reports of one data
    packet, markers around command id, ['D'], the frequency index and the
    signal. *)
Theorem send_ir_optimistic (ir_data : list Z) (freq : Z) (w : world) :
  device_state (ses w) = STATE_SEND ->
  dev (ses w) = true -> writes (bus w) = [] ->
  (length ir_data + 7 <= 255 * 56)%nat ->
  let c := cmd_id (ses w) mod 0x7F + 1 in
  let p := packet_idx (ses w) mod 15 + 1 in
  let packet :=
    pack_H PACK_START ++ [c] ++ [CMD_DATA] ++ [get_freq_index freq]
    ++ ir_data ++ pack_H PACK_END in
  exists w',
    send_ir ir_data freq w = (Ret true, w')
    /\ sent (bus w')
       = sent (bus w)
         ++ reports_from packet p (Z.of_nat (frag_count_of packet)) 0
              (frag_count_of packet).
Proof.
  intros Hst Hd Hw Hlen c p packet. unfold send_ir.
  rewrite (bind_ret_fwd get_ses _ w w (ses w) eq_refl).
  rewrite Hst, Z.eqb_refl. cbn [negb].
  rewrite (bind_ret_fwd (ret true) _ w w true eq_refl). cbn [negb].
  set (w1 := mkWorld (set_cmd_id c (ses w)) (bus w)).
  rewrite (bind_ret_fwd _get_cmd_id _ w w1 c eq_refl).
  assert (Hc : 1 <= c <= 127) by (apply mod_succ_range; lia).
  rewrite (bind_ret_fwd _ _ _ _ _ (pack_B_ok c w1 ltac:(lia))).
  rewrite (bind_ret_fwd _ _ _ _ _
             (pack_B_ok CMD_DATA w1 ltac:(unfold CMD_DATA; lia))).
  pose proof (get_freq_index_range freq) as Hf.
  assert (Ebf : bytes_of [get_freq_index freq] w1
                = (Ret [get_freq_index freq], w1)).
  { unfold bytes_of, is_byte. cbn [forallb].
    replace (0 <=? get_freq_index freq) with true
      by (symmetry; apply Z.leb_le; lia).
    replace (get_freq_index freq <? 256) with true
      by (symmetry; apply Z.ltb_lt; lia).
    reflexivity. }
  rewrite (bind_ret_fwd _ _ _ _ _ Ebf).
  set (w2 := mkWorld (set_inbox [] false (ses w1)) (bus w1)).
  rewrite (bind_ret_fwd clear_inbox _ w1 w2 tt eq_refl).
  fold packet.
  assert (Hpl : (length packet <= 255 * 56)%nat).
  { unfold packet. rewrite !length_app. simpl length. lia. }
  destruct (send_report_ok packet w2 Hpl Hd Hw) as (w3 & E3 & Hs3 & _).
  rewrite (bind_ret_fwd _ _ _ _ _ E3).
  destruct (wait_ack_true 20 c w3) as (w4 & E4 & Hs4).
  exists w4. split; [exact E4|]. rewrite Hs4, Hs3. reflexivity.
Qed.

(** A signal of 60 bytes at 38 kHz goes out in two reports and is
    taken as sent although the dongle answers nothing. *)
Lemma send_ir_optimistic_witness :
  fst (send_ir (repeat 0x23 60) 38000
         (world_of (set_device_state STATE_SEND
                      (start_reader (set_dev true init)))
            [] [None]))
  = Ret true.
Proof.
  destruct (send_ir_optimistic (repeat 0x23 60) 38000
              (world_of (set_device_state STATE_SEND
                           (start_reader (set_dev true init)))
                 [] [None])) as (w' & E & _).
  - reflexivity.
  - reflexivity.
  - reflexivity.
  - apply Nat.leb_le. vm_compute. reflexivity.
  - rewrite E. reflexivity.
Defined.

(** X15. [receive_ir] hands out nothing but the tail of a data
    packet: a result is the packet behind its two header bytes, for a
    packet that is in the inbox and has ['D'] as its second byte.  With
    no time to wait it never hands out a signal. *)
Theorem receive_ir_result (polls : nat) (w w' : world) (d : list Z) :
  receive_ir polls w = (Ret (Some d), w') ->
  polls <> 0%nat
  /\ exists pkt,
       In pkt (received_packets (ses w'))
       /\ (2 <= length pkt)%nat /\ byte_at pkt 1 = CMD_DATA
       /\ d = skipn 2 pkt.
Proof.
  intros H. unfold receive_ir in H.
  apply bind_ret_inv in H. destruct H as (ok & w1 & _ & H).
  destruct ok; cbn [negb] in H; [|discriminate H].
  apply bind_ret_inv in H. destruct H as (ok2 & w2 & _ & H).
  apply bind_ret_inv in H. destruct H as ([] & w3 & _ & H).
  apply bind_ret_inv in H. destruct H as (c & w4 & _ & H).
  split; [intros ->; discriminate H|].
  apply wait_data_result in H. destruct H as (pkt & Hin & Hd & ->).
  exists pkt. unfold is_data in Hd. apply andb_prop in Hd.
  destruct Hd as [Hl Hb]. apply Z.eqb_eq in Hb.
  apply negb_true_iff, Nat.ltb_ge in Hl.
  repeat split; assumption.
Qed.

(** The mode reply, the cancel reply and a data packet arrive in turn,
    each while its command is being written. *)
Lemma receive_ir_result_witness :
  fst (receive_ir 2
         (world_of (start_reader (set_dev true init)) []
            [Some [1; 10; 1; 1; 1; 0x53; 0x54; 1; 82; 19; 0x45; 0x4E]; None;
             None;
             Some [1; 10; 2; 1; 1; 0x53; 0x54; 2; 67; 19; 0x45; 0x4E]; None;
             None;
             Some [1; 11; 3; 1; 1; 0x53; 0x54; 3; 68; 0xA3; 0x23; 0x45; 0x4E];
             None]))
  = Ret (Some [0xA3; 0x23]).
Proof.
  assert (E : receive_ir 2
         (world_of (start_reader (set_dev true init)) []
            [Some [1; 10; 1; 1; 1; 0x53; 0x54; 1; 82; 19; 0x45; 0x4E]; None;
             None;
             Some [1; 10; 2; 1; 1; 0x53; 0x54; 2; 67; 19; 0x45; 0x4E]; None;
             None;
             Some [1; 11; 3; 1; 1; 0x53; 0x54; 3; 68; 0xA3; 0x23; 0x45; 0x4E];
             None])
         = (Ret (Some [0xA3; 0x23]),
            snd (receive_ir 2
         (world_of (start_reader (set_dev true init)) []
            [Some [1; 10; 1; 1; 1; 0x53; 0x54; 1; 82; 19; 0x45; 0x4E]; None;
             None;
             Some [1; 10; 2; 1; 1; 0x53; 0x54; 2; 67; 19; 0x45; 0x4E]; None;
             None;
             Some [1; 11; 3; 1; 1; 0x53; 0x54; 3; 68; 0xA3; 0x23; 0x45; 0x4E];
             None]))))
    by (vm_compute; reflexivity).
  destruct (receive_ir_result _ _ _ _ E) as (_ & pkt & _ & _ & _ & _).
  rewrite E. reflexivity.
Defined.

(** ** Sessions that are not open *)

Section Closed.

(** Without a handle the first write raises [AttributeError]. *)
Lemma send_report_closed (data : list Z) (w : world) :
  (0 < length data <= 255 * 56)%nat -> dev (ses w) = false ->
  exists w',
    _send_report data w = (Raise AttributeError, w')
    /\ bus w' = bus w
    /\ device_state (ses w') = device_state (ses w).
Proof.
  intros Hl Hd. unfold _send_report.
  set (p := packet_idx (ses w) mod 15 + 1).
  set (w1 := mkWorld (set_packet_idx p (ses w)) (bus w)).
  rewrite (bind_ret_fwd _get_packet_idx _ w w1 p eq_refl).
  assert (Hp : 1 <= p <= 15) by (apply mod_succ_range; lia).
  pose proof (frag_count_spec data 255) as Hn.
  pose proof (frag_count_spec data 0) as Hn0.
  destruct (length data) as [|fuel] eqn:El; [lia|].
  rewrite send_frags_S. rewrite El.
  replace (0 <? S fuel)%nat with true by (symmetry; apply Nat.ltb_lt; lia).
  pose proof (chunk_at_length data 0 ltac:(lia)) as Hc.
  change (56 * 0)%nat with 0%nat in Hc.
  assert (Eb : bytes_of [2; Z.of_nat (length (chunk_at data 0)) + 3; p;
                         Z.of_nat (frag_count_of data); 0 + 1] w1
               = (Ret [2; Z.of_nat (length (chunk_at data 0)) + 3; p;
                       Z.of_nat (frag_count_of data); 0 + 1], w1)).
  { unfold bytes_of.
    replace (forallb is_byte _) with true; [reflexivity|].
    symmetry. simpl forallb. unfold is_byte.
    repeat (apply andb_true_intro; split);
      try apply Z.leb_le; try apply Z.ltb_lt; try reflexivity; lia. }
  rewrite (bind_ret_fwd _ _ _ _ _ Eb).
  exists w1. split; [|split; reflexivity].
  apply bind_raise_fwd. cbn [write_retry]. apply bind_raise_fwd.
  unfold dev_write, w1. cbn [ses dev set_packet_idx]. rewrite Hd. reflexivity.
Qed.

Lemma send_cmd_closed (t : Z) (c : option Z) (w : world) :
  0 <= t < 256 ->
  match c with Some c => 0 <= c < 256 | None => True end ->
  dev (ses w) = false ->
  exists w',
    _send_cmd t c w = (Raise AttributeError, w')
    /\ bus w' = bus w
    /\ device_state (ses w') = device_state (ses w).
Proof.
  intros Ht Hc Hd. unfold _send_cmd.
  assert (G : forall cid w0,
    0 <= cid < 256 -> dev (ses w0) = false ->
    exists w',
      (b_id <- pack_B cid ;; b_type <- pack_B t ;;
       _send_report (pack_H PACK_START ++ b_id ++ b_type ++ pack_H PACK_END) ;;
       ret cid) w0 = (Raise AttributeError, w')
      /\ bus w' = bus w0 /\ device_state (ses w') = device_state (ses w0)).
  { intros cid w0 Hcid Hd0.
    rewrite (bind_ret_fwd _ _ _ _ _ (pack_B_ok cid w0 Hcid)).
    rewrite (bind_ret_fwd _ _ _ _ _ (pack_B_ok t w0 Ht)).
    destruct (send_report_closed
                (pack_H PACK_START ++ [cid] ++ [t] ++ pack_H PACK_END) w0)
      as (w' & E & H); [simpl; lia|exact Hd0|].
    exists w'. split; [apply bind_raise_fwd; exact E|exact H]. }
  destruct c as [c|].
  - rewrite (bind_ret_fwd (ret c) _ w w c eq_refl). apply G; assumption.
  - set (cid := cmd_id (ses w) mod 127 + 1).
    set (w1 := mkWorld (set_cmd_id cid (ses w)) (bus w)).
    rewrite (bind_ret_fwd _get_cmd_id _ w w1 cid eq_refl).
    assert (Hcid : 1 <= cid <= 127) by (apply mod_succ_range; lia).
    destruct (G cid w1 ltac:(lia) Hd) as (w' & E & H1 & H2).
    exists w'. split; [exact E|]. split; [exact H1|exact H2].
Qed.

Lemma send_cmd_wait_closed (t : Z) (polls : nat) (w : world) :
  0 <= t < 256 -> dev (ses w) = false ->
  exists w',
    _send_cmd_wait t polls w = (Raise AttributeError, w')
    /\ bus w' = bus w
    /\ device_state (ses w') = device_state (ses w).
Proof.
  intros Ht Hd. unfold _send_cmd_wait.
  set (c := cmd_id (ses w) mod 127 + 1).
  assert (Hc : 1 <= c <= 127) by (apply mod_succ_range; lia).
  set (w2 := mkWorld (set_inbox [] false (set_cmd_id c (ses w))) (bus w)).
  change ((cmd_id <- _get_cmd_id ;; clear_inbox ;;
           _send_cmd t (Some cmd_id) ;; wait_reply polls cmd_id t) w)
    with ((_send_cmd t (Some c) ;; wait_reply polls c t) w2).
  destruct (send_cmd_closed t (Some c) w2 Ht ltac:(simpl; lia) Hd)
    as (w' & E & H).
  exists w'. split; [apply bind_raise_fwd; exact E|exact H].
Qed.

End Closed.

(** X16. On a session without a handle, never opened or closed, the
    sending operations do not answer [False]: [set_mode], [receive_ir]
    and [send_ir] raise [AttributeError] at their first write, and
    nothing reaches the transport. *)
Theorem closed_session_raises (w : world) :
  dev (ses w) = false ->
  (forall m, exists w',
      set_mode m w = (Raise AttributeError, w') /\ bus w' = bus w)
  /\ (forall polls, exists w',
        receive_ir polls w = (Raise AttributeError, w') /\ bus w' = bus w)
  /\ (forall ir_data freq,
        (length ir_data + 7 <= 255 * 56)%nat ->
        exists w',
          send_ir ir_data freq w = (Raise AttributeError, w')
          /\ bus w' = bus w).
Proof.
  intros Hd. split; [|split].
  - intros m. unfold set_mode.
    destruct (send_cmd_wait_closed
                (match m with
                 | ModeSend => CMD_SEND_MODE
                 | ModeReceive => CMD_RECV_MODE
                 | ModeIdle => CMD_IDLE_MODE
                 end) REPLY_POLLS w) as (w' & E & H & _);
      [destruct m; unfold CMD_SEND_MODE, CMD_RECV_MODE, CMD_IDLE_MODE; lia
      |exact Hd|].
    exists w'. split; assumption.
  - intros polls. unfold receive_ir.
    destruct (send_cmd_wait_closed CMD_RECV_MODE REPLY_POLLS w)
      as (w' & E & H & _); [unfold CMD_RECV_MODE; lia|exact Hd|].
    exists w'. split; [apply bind_raise_fwd; exact E|exact H].
  - intros ir_data freq Hlen. unfold send_ir.
    rewrite (bind_ret_fwd get_ses _ w w (ses w) eq_refl).
    destruct (device_state (ses w) =? STATE_SEND); cbn [negb].
    + rewrite (bind_ret_fwd (ret true) _ w w true eq_refl). cbn [negb].
      set (c := cmd_id (ses w) mod 127 + 1).
      set (w1 := mkWorld (set_cmd_id c (ses w)) (bus w)).
      rewrite (bind_ret_fwd _get_cmd_id _ w w1 c eq_refl).
      assert (Hc : 1 <= c <= 127) by (apply mod_succ_range; lia).
      rewrite (bind_ret_fwd _ _ _ _ _ (pack_B_ok c w1 ltac:(lia))).
      rewrite (bind_ret_fwd _ _ _ _ _
                 (pack_B_ok CMD_DATA w1 ltac:(unfold CMD_DATA; lia))).
      pose proof (get_freq_index_range freq) as Hf.
      assert (Ebf : bytes_of [get_freq_index freq] w1
                    = (Ret [get_freq_index freq], w1)).
      { unfold bytes_of, is_byte. cbn [forallb].
        replace (0 <=? get_freq_index freq) with true
          by (symmetry; apply Z.leb_le; lia).
        replace (get_freq_index freq <? 256) with true
          by (symmetry; apply Z.ltb_lt; lia).
        reflexivity. }
      rewrite (bind_ret_fwd _ _ _ _ _ Ebf).
      set (w2 := mkWorld (set_inbox [] false (ses w1)) (bus w1)).
      rewrite (bind_ret_fwd clear_inbox _ w1 w2 tt eq_refl).
      match goal with
      | |- context [_send_report ?packet] =>
          destruct (send_report_closed packet w2) as (w' & E & H & _);
            [rewrite !length_app; simpl length; lia|exact Hd|]
      end.
      exists w'. split; [apply bind_raise_fwd; exact E|exact H].
    + destruct (send_cmd_wait_closed CMD_SEND_MODE REPLY_POLLS w)
        as (w' & E & H & _); [unfold CMD_SEND_MODE; lia|exact Hd|].
      exists w'. split; [apply bind_raise_fwd; exact E|exact H].
Qed.

Lemma closed_session_raises_witness :
  fst (send_nec 0x00FF (mkWorld init (mkUsb true true [] [] [])))
  = Raise AttributeError.
Proof.
  destruct (closed_session_raises (mkWorld init (mkUsb true true [] [] [])) eq_refl)
    as (_ & _ & H).
  destruct (H (encode_nec 0x00FF) 38000) as (w' & E & _).
  - apply Nat.leb_le. vm_compute. reflexivity.
  - unfold send_nec. rewrite E. reflexivity.
Defined.

Section Handle.

Lemma conn_same_refl (w : world) : conn_same w w.
Proof. split; reflexivity. Qed.

Lemma conn_same_trans (a b c : world) :
  conn_same a b -> conn_same b c -> conn_same a c.
Proof. unfold conn_same. intros [H1 H2] [K1 K2]. split; congruence. Qed.

Lemma conn_blocked : keeps conn_same blocked.
Proof.
  intros w. destruct (blocked_spec w) as (s' & rs' & E & (H1 & _ & _ & _ & H5) & _).
  rewrite E. split; assumption.
Qed.

Lemma conn_write (report : list Z) : keeps conn_same (usb_write report).
Proof.
  intros w. unfold usb_write.
  destruct (writes (bus w)) as [|[| |] ws]; split; reflexivity.
Qed.

Lemma conn_send_cmd (t : Z) (c : option Z) : keeps conn_same (_send_cmd t c).
Proof.
  apply (keeps_send_cmd conn_same conn_same_refl conn_same_trans conn_blocked
           conn_write).
  - intros w. split; reflexivity.
  - intros w. split; reflexivity.
Qed.

(** The attempts of [open] leave handle and reader switch alone. *)
Lemma conn_open_attempts (n : nat) : keeps conn_same (open_attempts n).
Proof.
  induction n as [|n IH]; intros w; [apply conn_same_refl|].
  rewrite open_attempts_S.
  assert (Hc : keeps conn_same
                 (_send_cmd CMD_SEND_MODE None ;; blocked ;;
                  modify (set_device_state STATE_SEND))).
  { apply (keeps_bind conn_same conn_same_trans); [apply conn_send_cmd|].
    intros _. apply (keeps_bind conn_same conn_same_trans); [apply conn_blocked|].
    intros _ w0. split; reflexivity. }
  specialize (Hc w).
  destruct ((_send_cmd CMD_SEND_MODE None ;; blocked ;;
             modify (set_device_state STATE_SEND)) w) as [[u|e] w1];
    cbn [snd] in *; [exact Hc|].
  destruct (is_usb_error e); [|exact Hc].
  eapply conn_same_trans; [exact Hc|].
  apply (keeps_bind conn_same conn_same_trans); [apply conn_blocked|].
  intros _. exact IH.
Qed.

End Handle.

(** X17. [close] never raises, whatever the transport does to the
    idle command; it always leaves the session without a handle, and a
    second [close] does nothing at all. *)
Theorem close_never_raises (w : world) :
  fst (close w) = Ret tt
  /\ is_connected (ses (snd (close w))) = false
  /\ close (snd (close w)) = (Ret tt, snd (close w))
  /\ (dev (ses w) = false -> close w = (Ret tt, w)).
Proof.
  assert (Hoff : forall w0, dev (ses w0) = false -> close w0 = (Ret tt, w0)).
  { intros w0 H0. unfold close.
    rewrite (bind_ret_fwd get_ses _ w0 w0 (ses w0) eq_refl).
    rewrite H0. reflexivity. }
  destruct (dev (ses w)) eqn:Hd.
  - destruct (close_run w Hd) as (w' & E & H1 & _).
    rewrite E. cbn [fst snd]. unfold is_connected.
    split; [reflexivity|]. split; [exact H1|]. split; [apply Hoff, H1|].
    intros H. discriminate H.
  - rewrite (Hoff w Hd). cbn [fst snd]. unfold is_connected.
    split; [reflexivity|]. split; [exact Hd|]. split; [apply Hoff, Hd|].
    intros _. reflexivity.
Qed.

Lemma close_never_raises_witness :
  close (mkWorld init (mkUsb false true [WError] [] []))
  = (Ret tt, mkWorld init (mkUsb false true [WError] [] [])).
Proof.
  destruct (close_never_raises (mkWorld init (mkUsb false true [WError] [] [])))
    as (_ & _ & _ & H).
  apply H. reflexivity.
Defined.

(** X18. What [open] leaves behind does not depend on its answer.
    When the dongle is found and its interface claimed, the session
    keeps the handle and the reader stays switched on even if all
    three attempts failed and [open] returned [False].  When the
    interface cannot be claimed, [open] raises [USBError] with the
    handle already stored, the reader not started and nothing written
    or read.  When the dongle is not found, there is no handle and
    nothing has been written or read. *)
Theorem open_keeps_handle (w : world) :
  (present (bus w) = true -> claimable (bus w) = true ->
     is_connected (ses (snd (open w))) = true
     /\ read_active (ses (snd (open w))) = true)
  /\ (present (bus w) = true -> claimable (bus w) = false ->
      fst (open w) = Raise USBError
      /\ is_connected (ses (snd (open w))) = true
      /\ read_active (ses (snd (open w))) = read_active (ses w)
      /\ read_thread (ses (snd (open w))) = read_thread (ses w)
      /\ bus (snd (open w)) = bus w)
  /\ (present (bus w) = false ->
      fst (open w) = Ret false
      /\ is_connected (ses (snd (open w))) = false
      /\ bus (snd (open w)) = bus w).
Proof.
  split; [|split].
  - intros Hp Hc. rewrite (open_claimed w Hp Hc).
    assert (H : keeps conn_same (blocked ;; open_attempts 3)).
    { apply (keeps_bind conn_same conn_same_trans); [apply conn_blocked|].
      intros _. apply conn_open_attempts. }
    match goal with
    | |- context [(blocked ;; open_attempts 3) ?w3] =>
        destruct (H w3) as [H1 H2]
    end.
    unfold is_connected. rewrite H1, H2. split; reflexivity.
  - intros Hp Hc. rewrite (open_unclaimed w Hp Hc). repeat split.
  - intros Hp. unfold open. rewrite Hp. repeat split.
Qed.

(** A dongle that is there but fails all fifteen writes, and one whose
    interface another program holds. *)
Lemma open_keeps_handle_witness :
  (fst (open (mkWorld init (mkUsb true true (repeat WTimeout 15) [] [])))
   = Ret false
   /\ is_connected
        (ses (snd (open (mkWorld init
                           (mkUsb true true (repeat WTimeout 15) [] [])))))
      = true)
  /\ (fst (open (mkWorld init (mkUsb true false [] [] []))) = Raise USBError
      /\ is_connected
           (ses (snd (open (mkWorld init (mkUsb true false [] [] [])))))
         = true
      /\ read_active
           (ses (snd (open (mkWorld init (mkUsb true false [] [] [])))))
         = false).
Proof.
  split.
  - split; [vm_compute; reflexivity|].
    apply (proj1 (open_keeps_handle
                    (mkWorld init (mkUsb true true (repeat WTimeout 15) [] []))));
      reflexivity.
  - destruct (proj1 (proj2 (open_keeps_handle
                (mkWorld init (mkUsb true false [] [] []))))
               eq_refl eq_refl) as (H1 & H2 & H3 & _).
    split; [exact H1|]. split; [exact H2|exact H3].
Defined.

(** ** The write retry policy *)

(** X19. One report is written with up to five tries.  If one of the
    first five writes goes through, [_send_cmd] returns the fresh
    command id and the report has been handed over exactly once.  If all
    five fail, it raises the error of the fifth failure, a timeout or a
    USB error, with five outcomes used up and nothing handed over. *)
Theorem send_cmd_retry_policy (t : Z) (w : world) :
  0 <= t < 256 -> dev (ses w) = true ->
  let c := cmd_id (ses w) mod 0x7F + 1 in
  let p := packet_idx (ses w) mod 15 + 1 in
  let report :=
    report_of p 1 1 (pack_H PACK_START ++ [c] ++ [t] ++ pack_H PACK_END) in
  (all_fail 5 (writes (bus w)) = false ->
     exists w',
       _send_cmd t None w = (Ret c, w')
       /\ sent (bus w') = sent (bus w) ++ [report])
  /\ (all_fail 5 (writes (bus w)) = true ->
      exists w',
        _send_cmd t None w
        = (Raise (write_error (nth 4 (writes (bus w)) WOk)), w')
        /\ writes (bus w') = skipn 5 (writes (bus w))
        /\ sent (bus w') = sent (bus w)).
Proof.
  intros Ht Hd c p report.
  destruct (send_cmd_outcome t w Ht Hd) as [Hok Hfail].
  split; intros Ha.
  - destruct (Hok Ha) as (w' & E & Hs & _). exists w'. split; assumption.
  - destruct (Hfail Ha) as (w' & E & Hw & Hs & _). exists w'.
    split; [exact E|]. split; assumption.
Qed.

(** Four failed writes and a fifth that goes through; five that fail,
    the last one with a USB error. *)
Lemma send_cmd_retry_policy_witness :
  fst (_send_cmd CMD_IDLE_MODE None
         (world_of (set_dev true init)
            [WTimeout; WError; WTimeout; WTimeout; WOk] []))
  = Ret 1
  /\ fst (_send_cmd CMD_IDLE_MODE None
            (world_of (set_dev true init)
               [WTimeout; WTimeout; WTimeout; WTimeout; WError; WOk] []))
     = Raise USBError.
Proof.
  split.
  - destruct (send_cmd_retry_policy CMD_IDLE_MODE
                (world_of (set_dev true init)
                   [WTimeout; WError; WTimeout; WTimeout; WOk] []))
      as [H _]; [unfold CMD_IDLE_MODE; lia|reflexivity|].
    destruct (H eq_refl) as (w' & E & _). rewrite E. reflexivity.
  - destruct (send_cmd_retry_policy CMD_IDLE_MODE
                (world_of (set_dev true init)
                   [WTimeout; WTimeout; WTimeout; WTimeout; WError; WOk] []))
      as [_ H]; [unfold CMD_IDLE_MODE; lia|reflexivity|].
    destruct (H eq_refl) as (w' & E & _). rewrite E. reflexivity.
Defined.

(** ** From the command line to the wire *)

Section CommandLine.

Import Cli.

Lemma send_cmd_none_ok (t : Z) (w : world) :
  0 <= t < 256 -> dev (ses w) = true -> writes (bus w) = [] ->
  exists c w',
    _send_cmd t None w = (Ret c, w')
    /\ dev (ses w') = true /\ writes (bus w') = []
    /\ device_state (ses w') = device_state (ses w)
    /\ length (sent (bus w')) = S (length (sent (bus w))).
Proof.
  intros Ht Hd Hw.
  set (c := cmd_id (ses w) mod 0x7F + 1).
  assert (Hc : 1 <= c <= 127) by (apply mod_succ_range; lia).
  change (_send_cmd t None w)
    with (_send_cmd t (Some c) (mkWorld (set_cmd_id c (ses w)) (bus w))).
  destruct (send_cmd_some_ok t c (mkWorld (set_cmd_id c (ses w)) (bus w))
              Ht ltac:(lia) Hd Hw) as (w' & E & Hd' & Hw' & Hs' & _ & Ht').
  exists c, w'. split; [exact E|]. split; [exact Hd'|]. split; [exact Hw'|].
  split; [exact Hs'|]. rewrite Ht', length_app. cbn [length bus]. lia.
Qed.

(** A turn of the reader on a ready session. *)
Lemma blocked_ready (w : world) :
  ready w ->
  exists w', blocked w = (Ret tt, w') /\ ready w'
             /\ sent (bus w') = sent (bus w).
Proof.
  intros (Hd & Hw & Hs).
  destruct (blocked_spec w) as (s' & rs' & E & (H1 & _ & _ & H4 & _) & _).
  eexists. split; [exact E|]. split; [|reflexivity].
  unfold ready. cbn [ses bus dev writes device_state].
  rewrite H1, H4. repeat split; assumption.
Qed.

(** Pending write outcomes: none before, none after. *)
Let calm (w w' : world) : Prop :=
  writes (bus w) = [] -> writes (bus w') = [].

Lemma calm_refl (w : world) : calm w w.
Proof. intros H. exact H. Qed.

Lemma calm_trans (a b c : world) : calm a b -> calm b c -> calm a c.
Proof. unfold calm. auto. Qed.

Lemma calm_blocked : keeps calm blocked.
Proof.
  intros w H. destruct (blocked_spec w) as (s' & rs' & E & _).
  rewrite E. exact H.
Qed.

Lemma calm_write (report : list Z) : keeps calm (usb_write report).
Proof.
  intros w H. unfold usb_write. rewrite H. reflexivity.
Qed.

Lemma calm_send_report (data : list Z) : keeps calm (_send_report data).
Proof.
  apply (keeps_send_report calm calm_refl calm_trans calm_blocked calm_write).
  intros w H. exact H.
Qed.

Lemma calm_wait_ack (polls : nat) : forall c, keeps calm (wait_ack polls c).
Proof.
  induction polls as [|polls IH]; intros c; cbn [wait_ack];
    [apply (keeps_ret calm calm_refl)|].
  apply (keeps_bind calm calm_trans); [apply calm_blocked|]. intros _.
  apply (keeps_bind calm calm_trans); [apply (keeps_get_ses calm calm_refl)|].
  intros s. apply (keeps_if calm); [|apply IH].
  destruct (find_packet (is_output_ack c) (received_packets s));
    [apply (keeps_ret calm calm_refl)|].
  apply (keeps_bind calm calm_trans); [|intros _; apply IH].
  intros w H. exact H.
Qed.

(** [send_ir] on a ready session: it answers [True], stays ready and
    has written one report for each fragment of the data packet. *)
Lemma send_ir_ready (ir_data : list Z) (freq : Z) (w : world) :
  ready w -> (length ir_data + 7 <= 255 * 56)%nat ->
  exists w',
    send_ir ir_data freq w = (Ret true, w') /\ ready w'
    /\ length (sent (bus w'))
       = (length (sent (bus w)) + (length ir_data + 7 + 55) / 56)%nat.
Proof.
  intros (Hd & Hw & Hst) Hlen. unfold send_ir.
  rewrite (bind_ret_fwd get_ses _ w w (ses w) eq_refl).
  rewrite Hst, Z.eqb_refl. cbn [negb].
  rewrite (bind_ret_fwd (ret true) _ w w true eq_refl). cbn [negb].
  set (c := cmd_id (ses w) mod 127 + 1).
  set (w1 := mkWorld (set_cmd_id c (ses w)) (bus w)).
  rewrite (bind_ret_fwd _get_cmd_id _ w w1 c eq_refl).
  assert (Hc : 1 <= c <= 127) by (apply mod_succ_range; lia).
  rewrite (bind_ret_fwd _ _ _ _ _ (pack_B_ok c w1 ltac:(lia))).
  rewrite (bind_ret_fwd _ _ _ _ _
             (pack_B_ok CMD_DATA w1 ltac:(unfold CMD_DATA; lia))).
  pose proof (get_freq_index_range freq) as Hf.
  assert (Ebf : bytes_of [get_freq_index freq] w1
                = (Ret [get_freq_index freq], w1)).
  { unfold bytes_of, is_byte. cbn [forallb].
    replace (0 <=? get_freq_index freq) with true
      by (symmetry; apply Z.leb_le; lia).
    replace (get_freq_index freq <? 256) with true
      by (symmetry; apply Z.ltb_lt; lia).
    reflexivity. }
  rewrite (bind_ret_fwd _ _ _ _ _ Ebf).
  set (w2 := mkWorld (set_inbox [] false (ses w1)) (bus w1)).
  rewrite (bind_ret_fwd clear_inbox _ w1 w2 tt eq_refl).
  set (packet := pack_H PACK_START ++ [c] ++ [CMD_DATA]
                 ++ [get_freq_index freq] ++ ir_data ++ pack_H PACK_END).
  assert (Hpl : length packet = (length ir_data + 7)%nat).
  { unfold packet. rewrite !length_app. simpl length. lia. }
  destruct (send_report_ok packet w2 ltac:(lia) Hd Hw)
    as (w3 & E3 & Hs3 & (D3 & _ & _ & S3 & _)).
  pose proof (calm_send_report packet w2 Hw) as W3. rewrite E3 in W3.
  cbn [snd] in W3.
  rewrite (bind_ret_fwd _ _ _ _ _ E3).
  destruct (wait_ack_true 20 c w3) as (w4 & E4 & Hs4).
  pose proof (ds_wait_ack 20 c w3) as (D4 & S4 & _).
  pose proof (calm_wait_ack 20 c w3 W3) as W4.
  rewrite E4 in D4, S4, W4. cbn [snd] in D4, S4, W4.
  exists w4. split; [exact E4|]. split.
  - unfold ready. rewrite D4, S4, D3, S3. repeat split; assumption.
  - rewrite Hs4, Hs3, length_app. unfold reports_from.
    rewrite length_map, length_seq. unfold frag_count_of, MAX_FRAG_SIZE.
    rewrite Hpl. f_equal. f_equal. lia.
Qed.

Lemma encode_nec_length (code : Z) : length (encode_nec code) = 93%nat.
Proof.
  rewrite encode_nec_frame.
  destruct (encode_frame_parts
              (standard_frame (Z.land (Z.shiftr code 8) 0xFF)
                 (Z.land code 0xFF)))
    as (l & stop & trailer & E & Hl & _ & Htr).
  rewrite E, !length_app, (bits_encoded_length _ _ Hl), frame_bits_length.
  destruct Htr as [-> | ->]; reflexivity.
Qed.

(** One send of a NEC code on a ready session: two reports. *)
Lemma send_nec_ready (code : Z) (w : world) :
  ready w ->
  exists w',
    send_nec code w = (Ret true, w') /\ ready w'
    /\ length (sent (bus w')) = (length (sent (bus w)) + 2)%nat.
Proof.
  intros Hr. unfold send_nec.
  destruct (send_ir_ready (encode_nec code) 38000 w Hr)
    as (w1 & E1 & R1 & L1);
    [rewrite encode_nec_length; apply Nat.leb_le; vm_compute; reflexivity|].
  rewrite encode_nec_length in L1.
  change ((93 + 7 + 55) / 56)%nat with 2%nat in L1.
  exists w1. split; [exact E1|]. split; [exact R1|exact L1].
Qed.

(** The loop of [cmd_send_nec] when no sleep refuses its length: two
    reports for each send. *)
Lemma send_loop_ready (n : nat) :
  forall (code i repeat : Z) (d : pyfloat) (w : world),
    ready w -> d = FLength \/ repeat <= i + 1 ->
    exists w',
      send_loop n code i repeat d w = (Ret tt, w') /\ ready w'
      /\ length (sent (bus w')) = (length (sent (bus w)) + 2 * n)%nat.
Proof.
  induction n as [|n IH]; intros code i repeat d w Hr Hd; cbn [send_loop].
  - exists w. split; [reflexivity|]. split; [exact Hr|lia].
  - destruct (send_nec_ready code w Hr) as (w1 & E1 & R1 & L1).
    rewrite (bind_ret_fwd _ _ _ _ _ E1).
    assert (E2 : exists w2,
               (if i <? repeat - 1 then sleep d else ret tt) w1 = (Ret tt, w2)
               /\ ready w2 /\ sent (bus w2) = sent (bus w1)).
    { destruct (i <? repeat - 1) eqn:Ei.
      - destruct Hd as [-> | Hd]; [apply blocked_ready, R1|].
        apply Z.ltb_lt in Ei. lia.
      - exists w1. split; [reflexivity|]. split; [exact R1|reflexivity]. }
    destruct E2 as (w2 & E2 & R2 & S2).
    rewrite (bind_ret_fwd _ _ _ _ _ E2).
    destruct (IH code (i + 1) repeat d w2 R2
                ltac:(destruct Hd; [left; assumption|right; lia]))
      as (w3 & E3 & R3 & L3).
    exists w3. split; [exact E3|]. split; [exact R3|].
    rewrite L3, S2, L1. lia.
Qed.

(** The loop when [time.sleep] refuses the delay and more than one
    send is asked for: the error comes up after the first send. *)
Lemma send_loop_refused (n : nat) (code repeat : Z) (d : pyfloat) (w : world) :
  ready w -> 2 <= repeat -> d <> FZero -> d <> FLength ->
  exists w',
    send_loop (S n) code 0 repeat d w
    = (Raise (match d with FTooLarge => OverflowError | _ => ValueError end),
       w')
    /\ ready w'
    /\ length (sent (bus w')) = (length (sent (bus w)) + 2)%nat.
Proof.
  intros Hr Hn H0 H1. cbn [send_loop].
  destruct (send_nec_ready code w Hr) as (w1 & E1 & R1 & L1).
  rewrite (bind_ret_fwd _ _ _ _ _ E1).
  replace (0 <? repeat - 1) with true by (symmetry; apply Z.ltb_lt; lia).
  exists w1. split; [|split; [exact R1|exact L1]].
  apply bind_raise_fwd.
  destruct d; try contradiction; reflexivity.
Qed.

(** [close] on a transport that takes the idle command. *)
Lemma close_ready (w : world) :
  dev (ses w) = true -> writes (bus w) = [] ->
  exists w',
    close w = (Ret tt, w') /\ dev (ses w') = false
    /\ read_active (ses w') = false
    /\ length (sent (bus w')) = S (length (sent (bus w))).
Proof.
  intros Hd Hw.
  destruct (close_run w Hd) as (w' & E & H1 & H2 & _).
  destruct (close_bus w Hd) as [Hb _].
  rewrite E in Hb. cbn [snd] in Hb.
  exists w'. split; [exact E|]. split; [exact H1|]. split; [exact H2|].
  rewrite Hb by (rewrite Hw; reflexivity).
  rewrite length_app. cbn [length]. lia.
Qed.

(** [open] on a dongle that is there, lets its interface be claimed
    and takes the writes. *)
Lemma open_ready (w : world) :
  present (bus w) = true -> claimable (bus w) = true ->
  writes (bus w) = [] ->
  exists w',
    open w = (Ret true, w') /\ ready w'
    /\ length (sent (bus w')) = S (length (sent (bus w))).
Proof.
  intros Hp Hc Hw. rewrite (open_claimed w Hp Hc).
  match goal with
  | |- context [(blocked ;; open_attempts 3) ?w0] => set (w3 := w0)
  end.
  destruct (blocked_bus w3) as (w4 & E4 & W4 & S4 & D4).
  rewrite (bind_ret_fwd _ _ _ _ _ E4).
  unfold w3 in W4, S4, D4.
  cbn [ses bus writes sent dev start_reader set_read_thread set_read_active
       set_dev] in W4, S4, D4.
  rewrite Hw in W4.
  rewrite open_attempts_S.
  destruct (send_cmd_none_ok CMD_SEND_MODE w4
              ltac:(unfold CMD_SEND_MODE; lia) D4 W4)
    as (c & w5 & E5 & D5 & W5 & _ & L5).
  rewrite (bind_ret_fwd _ _ _ _ _ E5).
  destruct (blocked_bus w5) as (w6 & E6 & W6 & S6 & D6).
  rewrite (bind_ret_fwd _ _ _ _ _ E6).
  eexists. split; [reflexivity|].
  unfold ready. cbn [ses bus dev writes device_state sent set_device_state].
  rewrite W6, S6, D6, L5, S4. repeat split; assumption.
Qed.

End CommandLine.

(** X20. [cmd_send_nec] with the dongle plugged in, its interface
    free, a transport that takes every write, a code in 0..0xFFFF and
    a delay [time.sleep] accepts: the exit status is 0, the handle is
    released and the reader switched off at the end, and the command
    has written 2 reports for each send (a NEC frame makes a 100-byte
    packet, two fragments) plus one to open and one to close, whatever
    the dongle answers.  The number of sends is [--repeat], 1 for
    [--repeat 0], none for a negative one; the delay does not matter
    when at most one send is asked for. *)
Theorem cmd_send_nec_reports (code n : Z) (d : Cli.pyfloat) (b : usb) :
  present b = true -> claimable b = true -> writes b = [] ->
  0 <= code <= 0xFFFF ->
  d = Cli.FZero \/ d = Cli.FLength \/ n <= 1 ->
  let out := Cli.cmd_send_nec code (Some n) d b in
  let sends := Z.to_nat (if n =? 0 then 1 else n) in
  fst out = Ret 0
  /\ dev (ses (snd out)) = false
  /\ read_active (ses (snd out)) = false
  /\ length (sent (bus (snd out))) = (length (sent b) + 2 * sends + 2)%nat.
Proof.
  intros Hp Hcl Hw Hc Hd out sends. unfold out, Cli.cmd_send_nec.
  replace (code <? 0) with false by (symmetry; apply Z.ltb_ge; lia).
  replace (0xFFFF <? code) with false by (symmetry; apply Z.ltb_ge; lia).
  cbn [orb].
  destruct (open_ready (mkWorld init b) Hp Hcl Hw) as (w1 & E1 & R1 & L1).
  rewrite (bind_ret_fwd _ _ _ _ _ E1). cbn [negb].
  cbn [bus] in L1. unfold Cli.finally_close.
  destruct (send_loop_ready sends code 0 (if n =? 0 then 1 else n)
              (match d with Cli.FZero => Cli.FLength | d0 => d0 end) w1 R1)
    as (w2 & E2 & (D2 & W2 & _) & L2).
  { destruct Hd as [-> | [-> | Hd]]; [left; reflexivity|left; reflexivity|].
    right. destruct (n =? 0) eqn:En; lia. }
  fold sends. rewrite (bind_ret_fwd _ _ _ _ _ E2).
  destruct (close_ready w2 D2 W2) as (w3 & E3 & D3 & A3 & L3).
  unfold ret. rewrite E3. cbn [fst snd].
  repeat split; [exact D3|exact A3|]. rewrite L3, L2, L1. lia.
Qed.

Lemma cmd_send_nec_reports_witness :
  let b := mkUsb true true [] [] [] in
  let out := Cli.cmd_send_nec 0x00FF (Some 3) Cli.FLength b in
  fst out = Ret 0
  /\ dev (ses (snd out)) = false
  /\ read_active (ses (snd out)) = false
  /\ length (sent (bus (snd out))) = 8%nat.
Proof.
  apply (cmd_send_nec_reports 0x00FF 3 Cli.FLength
           (mkUsb true true [] [] [])); try reflexivity.
  - lia.
  - right. left. reflexivity.
Defined.

(** X21. [cmd_send_nec] refuses with exit status 1, and writes nothing
    to the bus, when the code is outside 0..0xFFFF or no dongle is
    found; no handle is held afterwards. *)
Theorem cmd_send_nec_refuses (code : Z) (arg_repeat : option Z)
    (arg_delay : Cli.pyfloat) (b : usb) :
  code < 0 \/ 0xFFFF < code \/ present b = false ->
  let out := Cli.cmd_send_nec code arg_repeat arg_delay b in
  fst out = Ret 1 /\ bus (snd out) = b /\ dev (ses (snd out)) = false.
Proof.
  intros H out. unfold out, Cli.cmd_send_nec.
  destruct ((code <? 0) || (0xFFFF <? code)) eqn:Er.
  - repeat split.
  - apply orb_false_iff in Er. destruct Er as (E1 & E2).
    apply Z.ltb_ge in E1. apply Z.ltb_ge in E2.
    destruct H as [H | [H | H]]; [lia | lia |].
    unfold bind, open. cbn [bus]. rewrite H. repeat split.
Qed.

Lemma cmd_send_nec_refuses_witness :
  let out :=
    Cli.cmd_send_nec 0x10000 (Some 1) Cli.FLength (mkUsb true true [] [] []) in
  fst out = Ret 1 /\ bus (snd out) = mkUsb true true [] [] []
  /\ dev (ses (snd out)) = false.
Proof.
  apply (cmd_send_nec_refuses 0x10000 (Some 1) Cli.FLength
           (mkUsb true true [] [] [])).
  right. left. reflexivity.
Defined.

(** X22. [cmd_send_nec] asked for two sends or more with a delay that
    [time.sleep] refuses, a negative one or NaN ([ValueError]) or one
    too large for the clock ([OverflowError]): the code goes out once,
    the error of the first sleep ends the command, and the [finally]
    clause still closes the session: four reports in all, for opening,
    the one send and closing, and no handle left. *)
Theorem cmd_send_nec_delay_refused (code n : Z) (d : Cli.pyfloat) (b : usb) :
  present b = true -> claimable b = true -> writes b = [] ->
  0 <= code <= 0xFFFF -> 2 <= n ->
  d <> Cli.FZero -> d <> Cli.FLength ->
  let out := Cli.cmd_send_nec code (Some n) d b in
  fst out
  = Raise (match d with Cli.FTooLarge => OverflowError | _ => ValueError end)
  /\ dev (ses (snd out)) = false
  /\ read_active (ses (snd out)) = false
  /\ length (sent (bus (snd out))) = (length (sent b) + 4)%nat.
Proof.
  intros Hp Hcl Hw Hc Hn H0 H1 out. unfold out, Cli.cmd_send_nec.
  replace (code <? 0) with false by (symmetry; apply Z.ltb_ge; lia).
  replace (0xFFFF <? code) with false by (symmetry; apply Z.ltb_ge; lia).
  cbn [orb].
  destruct (open_ready (mkWorld init b) Hp Hcl Hw) as (w1 & E1 & R1 & L1).
  rewrite (bind_ret_fwd _ _ _ _ _ E1). cbn [negb].
  cbn [bus] in L1. unfold Cli.finally_close.
  replace (n =? 0) with false by (symmetry; apply Z.eqb_neq; lia).
  destruct (Z.to_nat n) as [|m] eqn:En; [lia|].
  assert (Ed : match d with Cli.FZero => Cli.FLength | d0 => d0 end = d)
    by (destruct d; try reflexivity; contradiction).
  rewrite Ed.
  destruct (send_loop_refused m code n d w1 R1 Hn H0 H1)
    as (w2 & E2 & (D2 & W2 & _) & L2).
  rewrite (bind_raise_fwd _ _ _ _ _ E2).
  destruct (close_ready w2 D2 W2) as (w3 & E3 & D3 & A3 & L3).
  rewrite E3. cbn [fst snd].
  repeat split; [exact D3|exact A3|]. rewrite L3, L2, L1. lia.
Qed.

Lemma cmd_send_nec_delay_refused_witness :
  let out :=
    Cli.cmd_send_nec 0x00FF (Some 2) Cli.FNegative (mkUsb true true [] [] []) in
  fst out = Raise ValueError
  /\ dev (ses (snd out)) = false
  /\ read_active (ses (snd out)) = false
  /\ length (sent (bus (snd out))) = 4%nat.
Proof.
  apply (cmd_send_nec_delay_refused 0x00FF 2 Cli.FNegative
           (mkUsb true true [] [] [])); try reflexivity; try lia;
    discriminate.
Defined.
